(** * AI Travel Buddy: the recommender and the itinerary assembler

    A shallow embedding of [data_manager.py] (the query interface of the
    catalog), [recommendation_engine.py] and [itinerary_generator.py], and
    the properties of the design document proved or refuted on it.

    Conventions of the embedding.
    - Python numbers ([int] and [float] alike) are rationals [Q].  Where a
      number only is reported (costs, totals, shares of the daily budget)
      the arithmetic is exact and a decimal literal of the source ([0.3],
      [0.4], ...) denotes the rational it spells.  Where a rounded number
      decides which row is selected, in the accommodation budget of
      [recommend_accommodation], the arithmetic is that of binary64, with
      the rounding of every operation written out ([binary64]).  Division
      raises [ZeroDivisionError] on a zero divisor, as Python's [/] does on
      [int] and [float] operands.
    - Python exceptions are the constructors of [exn]; a method that may
      raise, draw random numbers or allocate runs in the monad [M], a state
      and exception monad over a [World].
    - The [World] holds the data manager's data frames (the catalog), the
      heap of the accommodation dictionaries built by
      [DataFrame.to_dict(orient='records')] (the only dictionaries the code
      writes into after their creation), and the random source: an infinite
      tape of naturals with a read position.
    - Dictionaries that are never written after their creation (destinations,
      activities, transportation modes, plans) are plain records. *)

From Stdlib Require Import QArith Lqa Ascii String Sorted Permutation.
From Stdlib Require Import SpecFloat.
From stdpp Require Import base option list strings pretty.

(** ** Python runtime *)

Inductive exn : Set :=
| IndexError | KeyError | ValueError | ZeroDivisionError | UnboundLocalError.

Inductive outcome (A : Type) : Type :=
| Ok (a : A)
| Raise (e : exn).
Arguments Ok {A} a.
Arguments Raise {A} e.

(** Comparisons of numbers. *)
Definition py_le (a b : Q) : bool := Qle_bool a b.
Definition py_lt (a b : Q) : bool := negb (Qle_bool b a).
Definition py_eq (a b : Q) : bool := Qeq_bool a b.

(** [a / b] *)
Definition py_truediv (a b : Q) : outcome Q :=
  if Qeq_bool b 0 then Raise ZeroDivisionError else Ok (a / b)%Q.

(** *** Binary floating point

    A [float] is a binary64 number: 53 bits of precision, exponents up to
    1024.  The model holds a finite float as the rational it denotes, and
    rounds the exact result of an operation to the nearest float, ties to
    even, with the division of the IEEE 754 specification of the Standard
    Library ([SFdiv], which rounds the quotient of two integers of any
    size correctly, subnormal results included). *)

Definition SF_of_Z (n : Z) : spec_float :=
  match n with
  | Z0 => S754_zero false
  | Zpos p => S754_finite false p 0
  | Zneg p => S754_finite true p 0
  end.

(** The rational a finite float denotes.  An infinity, which arises from a
    number beyond the range of binary64 only (there Python raises
    [OverflowError] on an [int]), has no rational: such numbers are outside
    the model, see [in_binary64_range]. *)
Definition SF_value (f : spec_float) : Q :=
  match f with
  | S754_finite s m e =>
      ((if s then -1 else 1) * inject_Z (Zpos m) * 2 ^ e)%Q
  | _ => 0%Q
  end.

(** The float nearest to [q]: [float(n)] for an integer, the float a
    decimal literal denotes, the rounding of an exact result. *)
Definition binary64 (q : Q) : Q :=
  SF_value (SFdiv 53 1024 (SF_of_Z (Qnum q)) (SF_of_Z (Zpos (Qden q)))).

(** [a / b] with a float result: on two [int]s, and on a [float] and an
    [int] or [float], the exact quotient correctly rounded. *)
Definition float_truediv (a b : Q) : outcome Q :=
  if Qeq_bool b 0 then Raise ZeroDivisionError else Ok (binary64 (a / b)).

(** [a * b] on two floats *)
Definition float_mul (a b : Q) : Q := binary64 (a * b).

(** [sum(xs)]: addition from the left, starting at [0]. *)
Definition py_sum (xs : list Q) : Q := fold_left Qplus xs 0%Q.

(** [<] on pairs [(a1, a2)]: the first components decide unless they are
    equal. *)
Definition tuple_lt (a b : Q * Q) : bool :=
  if py_eq a.1 b.1 then py_lt a.2 b.2 else py_lt a.1 b.1.

(** [list.sort(key=..., reverse=...)].  Python's sort is stable, also with
    [reverse=True]: elements whose keys compare equal keep their order.  An
    element is inserted in front of the sorted rest of the list, behind the
    elements whose key is strictly ahead of its own. *)
Section sort.
Context {A K : Type} (key : A → K) (klt : K → K → bool).

(** [before reverse x y]: the key of [x] is strictly ahead of the key of [y]
    in the order of the sort. *)
Definition before (reverse : bool) (x y : A) : bool :=
  if reverse then klt (key y) (key x) else klt (key x) (key y).

(** Neither key is ahead of the other. *)
Definition tied (x y : A) : bool :=
  negb (klt (key x) (key y)) && negb (klt (key y) (key x)).

Fixpoint sort_insert (reverse : bool) (x : A) (l : list A) : list A :=
  match l with
  | [] => [x]
  | y :: l' =>
      if before reverse y x then y :: sort_insert reverse x l'
      else x :: y :: l'
  end.

Definition py_sort (reverse : bool) (l : list A) : list A :=
  foldr (sort_insert reverse) [] l.
End sort.

(** [str.lower()] on ASCII letters. *)
Definition lower_ascii (c : ascii) : ascii :=
  let n := nat_of_ascii c in
  if (65 <=? n)%nat && (n <=? 90)%nat then ascii_of_nat (n + 32) else c.

Fixpoint py_lower (s : string) : string :=
  match s with
  | EmptyString => EmptyString
  | String c s' => String (lower_ascii c) (py_lower s')
  end.

(** [needle in s] on strings *)
Fixpoint py_contains (needle s : string) : bool :=
  match s with
  | EmptyString => String.prefix needle EmptyString
  | String _ s' => String.prefix needle s || py_contains needle s'
  end.

(** [x in xs] on lists of strings *)
Definition py_in (x : string) (xs : list string) : bool :=
  existsb (String.eqb x) xs.

(** [len(xs) == 0], the falsity of a list *)
Definition is_empty {A} (xs : list A) : bool :=
  match xs with [] => true | _ :: _ => false end.

(** ** Data model: the rows of the catalog and the records of a plan *)

Record Destination : Type := {
  dest_id : Z;
  dest_name : string;
  dest_region : string;
  dest_cost_level : Z;
  dest_climate : string;
  dest_avg_daily_cost : Q;
  dest_currency : string;
  dest_description : string;
  dest_popular_attractions : list string
}.

Record Activity : Type := {
  act_id : Z;
  act_destination_id : Z;
  act_name : string;
  act_category : string;
  act_description : string;
  act_duration_hours : Q;
  act_cost : Q;
  act_morning_suitable : bool;
  act_afternoon_suitable : bool;
  act_evening_suitable : bool;
  act_popularity : Q
}.

Record TransportationMode : Type := {
  tm_mode : string;
  tm_typical_cost_per_km : Q;
  tm_speed_km_h : Q;
  tm_comfort_level : Z;
  tm_eco_friendliness : Z;
  tm_suitable_distance_min_km : Z;
  tm_suitable_distance_max_km : Z
}.

(** A row of [accommodations_df].  It has no [total_cost] column. *)
Record Accommodation : Type := {
  acc_destination_id : Z;
  acc_name : string;
  acc_type : string;
  acc_cost_per_night : Q;
  acc_rating : Q;
  acc_amenities : list string;
  acc_suitable_for : list string;
  acc_location_quality : Q
}.

(** An accommodation dictionary on the heap: the keys of a row, or those of
    the generic literal of [recommend_accommodation] (which has no
    [destination_id], [suitable_for] and [location_quality]), and the key
    [total_cost] once it has been assigned. *)
Record AccDict : Type := {
  d_destination_id : option Z;
  d_name : string;
  d_type : string;
  d_cost_per_night : Q;
  d_rating : Q;
  d_amenities : list string;
  d_suitable_for : option (list string);
  d_location_quality : option Q;
  d_total_cost : option Q
}.

(** The data manager's data frames. *)
Record Catalog : Type := {
  destinations_df : list Destination;
  activities_df : list Activity;
  transportation_df : list TransportationMode;
  accommodations_df : list Accommodation
}.

Record Date : Type := { year : Z; month : Z; day : Z }.

(** The preferences dictionary built by the presentation layer.  The keys
    read with [.get(key, "Any")] may be absent. *)
Record UserPreferences : Type := {
  up_origin : string;
  up_destination : string;
  up_start_date : Date;
  up_end_date : Date;
  up_duration : Z;
  up_budget : Q;
  up_transportation : option string;
  up_accommodation : option string;
  up_activities : list string;
  up_special_requests : string
}.

(** The optional [constraints] dictionary of [recommend_activities];
    [max_results] is a count of results. *)
Record Constraints : Type := {
  c_time_of_day : option string;
  c_max_cost : option Q;
  c_max_results : option nat
}.

Record Transportation : Type := {
  tr_mode : string;
  tr_distance_km : Z;
  tr_cost : Q;
  tr_travel_time_hours : Q;
  tr_details : string
}.

Record Slot : Type := { slot_description : string; slot_cost : Q }.

Record DailyPlan : Type := {
  dp_title : string;
  dp_morning : Slot;
  dp_afternoon : Slot;
  dp_evening : Slot;
  dp_total_cost : Q
}.

Record BudgetBreakdown : Type := {
  bb_transportation : Q;
  bb_accommodation : Q;
  bb_activities : Q;
  bb_food : Q;
  bb_miscellaneous : Q
}.

Record Itinerary : Type := {
  it_destination : Destination;
  it_transportation : Transportation;
  it_accommodation : AccDict;
  it_daily_plan : list DailyPlan;
  it_overview : string;
  it_budget_breakdown : BudgetBreakdown
}.

(** ** The world and the monad of effects *)

Definition loc := nat.

Record World : Type := {
  w_catalog : Catalog;
  w_heap : list AccDict;
  w_tape : nat → nat;
  w_pos : nat
}.

Definition M (A : Type) : Type := World → outcome A * World.

Definition M_ret {A} (a : A) : M A := λ w, (Ok a, w).

Definition M_bind {A B} (f : A → M B) (m : M A) : M B :=
  λ w, match m w with
       | (Ok a, w') => f a w'
       | (Raise e, w') => (Raise e, w')
       end.

#[global] Instance M_mret : MRet M := @M_ret.
#[global] Instance M_mbind : MBind M := @M_bind.

Definition raise {A} (e : exn) : M A := λ w, (Raise e, w).

Definition gets {A} (f : World → A) : M A := λ w, (Ok (f w), w).

Definition lift {A} (o : outcome A) : M A := λ w, (o, w).

(** The value a run returned, if it returned. *)
Definition returned {A} (run : outcome A * World) : option A :=
  match run.1 with
  | Ok a => Some a
  | Raise _ => None
  end.

(** [for x in xs: ys.append(f(x))] *)
Fixpoint for_each {A B} (f : A → M B) (xs : list A) : M (list B) :=
  match xs with
  | [] => mret []
  | x :: xs' => y ← f x; ys ← for_each f xs'; mret (y :: ys)
  end.

(** *** The heap of accommodation dictionaries *)

Definition set_heap (h : list AccDict) (w : World) : World :=
  {| w_catalog := w_catalog w; w_heap := h;
     w_tape := w_tape w; w_pos := w_pos w |}.

(** A dictionary display or a fresh row dictionary: a new object. *)
Definition alloc (d : AccDict) : M loc :=
  λ w, (Ok (length (w_heap w)), set_heap (w_heap w ++ [d]) w).

(** Reading the object a reference points to.  The references the code
    holds come from [alloc], so the [None] case is not reached. *)
Definition load (l : loc) : M AccDict :=
  λ w, match w_heap w !! l with
       | Some d => (Ok d, w)
       | None => (Raise KeyError, w)
       end.

Definition with_total_cost (v : Q) (d : AccDict) : AccDict :=
  {| d_destination_id := d_destination_id d; d_name := d_name d;
     d_type := d_type d; d_cost_per_night := d_cost_per_night d;
     d_rating := d_rating d; d_amenities := d_amenities d;
     d_suitable_for := d_suitable_for d;
     d_location_quality := d_location_quality d;
     d_total_cost := Some v |}.

(** [d["total_cost"] = v]: a write into the object at [l]. *)
Definition store_total_cost (l : loc) (v : Q) : M unit :=
  λ w, match w_heap w !! l with
       | Some d => (Ok (), set_heap (<[l := with_total_cost v d]> (w_heap w)) w)
       | None => (Raise KeyError, w)
       end.

(** *** The random source *)

Definition advance (w : World) : World :=
  {| w_catalog := w_catalog w; w_heap := w_heap w;
     w_tape := w_tape w; w_pos := S (w_pos w) |}.

Definition draw : M nat := λ w, (Ok (w_tape w (w_pos w)), advance w).

(** [random.randint(a, b)] for [a <= b] *)
Definition randint (a b : Z) : M Z :=
  n ← draw; mret (a + Z.of_nat n `mod` (b - a + 1))%Z.

(** [random.random()]: a number of [[0, 1)], here with three decimals. *)
Definition random : M Q :=
  n ← draw; mret (Z.of_nat (n `mod` 1000) # 1000).

(** [random.choice(xs)] *)
Definition choice {A} (xs : list A) : M A :=
  match xs with
  | [] => raise IndexError
  | _ :: _ =>
      n ← draw;
      match xs !! (n `mod` length xs)%nat with
      | Some x => mret x
      | None => raise IndexError
      end
  end.

(** [random.sample(xs, k)] for [k <= len(xs)]: [k] draws without
    replacement. *)
Fixpoint sample {A} (xs : list A) (k : nat) : M (list A) :=
  match k with
  | O => mret []
  | S k' =>
      match xs with
      | [] => raise ValueError
      | _ :: _ =>
          n ← draw;
          let j := (n `mod` length xs)%nat in
          match xs !! j with
          | Some x => ys ← sample (delete j xs) k'; mret (x :: ys)
          | None => raise ValueError
          end
      end
  end.

(** ** [data_manager.py]: the queries of the catalog *)

(** [df[mask].iloc[0]]: the first selected row; on an empty selection pandas
    raises [IndexError] (single positional indexer is out-of-bounds).  Also
    [xs[0]] on a list, which raises [IndexError] on the empty list. *)
Definition iloc0 {A} (rows : list A) : M A :=
  match rows with
  | r :: _ => mret r
  | [] => raise IndexError
  end.

Definition get_destination_list : M (list string) :=
  cat ← gets w_catalog;
  mret (dest_name <$> destinations_df cat).

Definition get_destination_by_name (name : string) : M Destination :=
  cat ← gets w_catalog;
  iloc0 (List.filter (λ d, dest_name d =? name)%string (destinations_df cat)).

Definition get_destination_by_id (destination_id : Z) : M Destination :=
  cat ← gets w_catalog;
  iloc0 (List.filter (λ d, dest_id d =? destination_id)%Z (destinations_df cat)).

Definition get_activities_by_destination (destination_id : Z)
  : M (list Activity) :=
  cat ← gets w_catalog;
  mret (List.filter (λ a, act_destination_id a =? destination_id)%Z
          (activities_df cat)).

Definition get_activities_by_destination_and_category
    (destination_id : Z) (category : string) : M (list Activity) :=
  cat ← gets w_catalog;
  mret (List.filter
          (λ a, (act_destination_id a =? destination_id)%Z
                && (act_category a =? category)%string)
          (activities_df cat)).

(** The dictionary of a row: a copy of its cells. *)
Definition row_dict (r : Accommodation) : AccDict :=
  {| d_destination_id := Some (acc_destination_id r);
     d_name := acc_name r;
     d_type := acc_type r;
     d_cost_per_night := acc_cost_per_night r;
     d_rating := acc_rating r;
     d_amenities := acc_amenities r;
     d_suitable_for := Some (acc_suitable_for r);
     d_location_quality := Some (acc_location_quality r);
     d_total_cost := None |}.

(** [df[mask].to_dict(orient='records')]: one new dictionary per selected
    row, in the order of the rows. *)
Definition to_dict_records (rows : list Accommodation) : M (list loc) :=
  for_each (λ r, alloc (row_dict r)) rows.

Definition get_accommodations_by_destination (destination_id : Z)
  : M (list loc) :=
  cat ← gets w_catalog;
  to_dict_records
    (List.filter (λ a, acc_destination_id a =? destination_id)%Z
       (accommodations_df cat)).

Definition get_accommodations_by_destination_and_type
    (destination_id : Z) (accommodation_type : string) : M (list loc) :=
  if (accommodation_type =? "Any")%string then
    get_accommodations_by_destination destination_id
  else
    cat ← gets w_catalog;
    to_dict_records
      (List.filter
         (λ a, (acc_destination_id a =? destination_id)%Z
               && (acc_type a =? accommodation_type)%string)
         (accommodations_df cat)).

Definition get_transportation_options : M (list TransportationMode) :=
  cat ← gets w_catalog;
  mret (transportation_df cat).

(** For ["Any"], [df.sample(1)] draws one row ([ValueError] on an empty
    frame); the draw is taken from the same random source. *)
Definition get_transportation_by_mode (mode : string)
  : M TransportationMode :=
  cat ← gets w_catalog;
  if (mode =? "Any")%string then
    match transportation_df cat with
    | [] => raise ValueError
    | _ :: _ => choice (transportation_df cat)
    end
  else
    iloc0 (List.filter (λ t, tm_mode t =? mode)%string (transportation_df cat)).

(** ** [recommendation_engine.py] *)

(** The details line [f"From {origin} to {destination} via {mode}"]. *)
Definition transportation_record (origin destination : string)
    (transport : TransportationMode) (distance_km : Z) : M Transportation :=
  let cost := (inject_Z distance_km * tm_typical_cost_per_km transport)%Q in
  travel_time_hours ←
    lift (py_truediv (inject_Z distance_km) (tm_speed_km_h transport));
  mret {| tr_mode := tm_mode transport;
          tr_distance_km := distance_km;
          tr_cost := cost;
          tr_travel_time_hours := travel_time_hours;
          tr_details := "From " +:+ origin +:+ " to " +:+ destination
                        +:+ " via " +:+ tm_mode transport |}.

Definition recommend_transportation (user_preferences : UserPreferences)
  : M Transportation :=
  let preferred_mode := default "Any" (up_transportation user_preferences) in
  if negb (preferred_mode =? "Any")%string then
    transport ← get_transportation_by_mode preferred_mode;
    let origin := up_origin user_preferences in
    let destination := up_destination user_preferences in
    distance_km ←
      (if (preferred_mode =? "Plane")%string then randint 500 5000
       else if py_in preferred_mode ["Train"; "Bus"; "Car"] then randint 50 800
       else randint 50 2000);
    transportation_record origin destination transport distance_km
  else
    let origin := up_origin user_preferences in
    let destination := up_destination user_preferences in
    r ← random;
    distance_km ←
      (if py_lt r 0.7 then randint 1000 8000 else randint 50 800);
    recommended_mode ←
      (if (1000 <? distance_km)%Z then mret "Plane"
       else if (300 <? distance_km)%Z then choice ["Plane"; "Train"; "Car"]
       else choice ["Train"; "Bus"; "Car"]);
    transport ← get_transportation_by_mode recommended_mode;
    transportation_record origin destination transport distance_km.

(** The keys [x["cost_per_night"]] and [x["rating"]] of the dictionary a
    reference points to (every row dictionary has them). *)
Definition cost_per_night_at (h : list AccDict) (l : loc) : Q :=
  from_option d_cost_per_night 0%Q (h !! l).

Definition rating_at (h : list AccDict) (l : loc) : Q :=
  from_option d_rating 0%Q (h !! l).

(** The key [lambda x: (x["rating"], -x["cost_per_night"])] *)
Definition accommodation_key (h : list AccDict) (l : loc) : Q * Q :=
  (rating_at h l, - cost_per_night_at h l)%Q.

(** The dictionary display returned when the destination has no
    accommodation at all. *)
Definition generic_accommodation (preferred_type : string) (duration : Z)
  : AccDict :=
  {| d_destination_id := None;
     d_name := "Local Accommodation";
     d_type := if negb (preferred_type =? "Any")%string
               then preferred_type else "Hotel";
     d_cost_per_night := 100;
     d_rating := 4.0;
     d_amenities := ["WiFi"; "Breakfast"];
     d_suitable_for := None;
     d_location_quality := None;
     d_total_cost := Some (100 * inject_Z duration)%Q |}.

Definition recommend_accommodation (user_preferences : UserPreferences)
    (destination_id : Z) : M loc :=
  let preferred_type := default "Any" (up_accommodation user_preferences) in
  accommodations ←
    get_accommodations_by_destination_and_type destination_id preferred_type;
  accommodations ←
    (if is_empty accommodations
     then get_accommodations_by_destination destination_id
     else mret accommodations);
  if is_empty accommodations then
    alloc (generic_accommodation preferred_type
             (up_duration user_preferences))
  else
    daily_budget ←
      lift (float_truediv (up_budget user_preferences)
              (inject_Z (up_duration user_preferences)));
    let accommodation_budget := float_mul daily_budget (binary64 0.35) in
    h ← gets w_heap;
    let affordable_accommodations :=
      List.filter (λ a, py_le (cost_per_night_at h a) accommodation_budget)
        accommodations in
    selected ←
      (if is_empty affordable_accommodations then
         iloc0 (py_sort (cost_per_night_at h) py_lt false accommodations)
       else
         iloc0 (py_sort (accommodation_key h) tuple_lt true
                  affordable_accommodations));
    let total_cost :=
      (cost_per_night_at h selected
       * inject_Z (up_duration user_preferences))%Q in
    _ ← store_total_cost selected total_cost;
    mret selected.

(** The key [lambda x: (x["popularity"], -x["cost"])] *)
Definition activity_key (a : Activity) : Q * Q :=
  (act_popularity a, - act_cost a)%Q.

Definition no_constraints : Constraints :=
  {| c_time_of_day := None; c_max_cost := None; c_max_results := None |}.

Definition recommend_activities (user_preferences : UserPreferences)
    (destination_id : Z) (constraints : option Constraints)
  : M (list Activity) :=
  let constraints := default no_constraints constraints in
  all_activities ← get_activities_by_destination destination_id;
  if is_empty all_activities then mret []
  else
    let preferred_categories := up_activities user_preferences in
    let preferred_activities :=
      if is_empty preferred_categories then all_activities
      else
        let matching :=
          List.filter (λ a, py_in (act_category a) preferred_categories)
            all_activities in
        if is_empty matching then all_activities else matching in
    let preferred_activities :=
      match c_time_of_day constraints with
      | Some time_of_day =>
          if (time_of_day =? "morning")%string then
            List.filter act_morning_suitable preferred_activities
          else if (time_of_day =? "afternoon")%string then
            List.filter act_afternoon_suitable preferred_activities
          else if (time_of_day =? "evening")%string then
            List.filter act_evening_suitable preferred_activities
          else preferred_activities
      | None => preferred_activities
      end in
    let preferred_activities :=
      match c_max_cost constraints with
      | Some max_cost =>
          List.filter (λ a, py_le (act_cost a) max_cost) preferred_activities
      | None => preferred_activities
      end in
    let preferred_activities :=
      py_sort activity_key tuple_lt true preferred_activities in
    let max_results := default 10%nat (c_max_results constraints) in
    mret (take max_results preferred_activities).

(** A local variable that is assigned on some paths only: reading it while
    it is unbound raises [UnboundLocalError]. *)
Definition read_local {A} (v : option A) : M A :=
  match v with
  | Some a => mret a
  | None => raise UnboundLocalError
  end.

Definition period_constraints (time_of_day : string) (max_cost : Q)
  : option Constraints :=
  Some {| c_time_of_day := Some time_of_day;
          c_max_cost := Some max_cost;
          c_max_results := Some 3%nat |}.

(** [random.choice(activities[:min(3, len(activities))])] and the slot built
    from the chosen activity. *)
Definition pick_activity (activities : list Activity)
  : M (option Activity * Slot) :=
  activity ← choice (take (3 `min` length activities) activities);
  mret (Some activity,
        {| slot_description := act_description activity;
           slot_cost := act_cost activity |}).

Definition recommend_daily_plan (user_preferences : UserPreferences)
    (destination_id : Z) (day_number : Z) (daily_budget : Q) : M DailyPlan :=
  let morning_budget := (daily_budget * 0.3)%Q in
  let afternoon_budget := (daily_budget * 0.4)%Q in
  let evening_budget := (daily_budget * 0.3)%Q in
  destination ← get_destination_by_id destination_id;
  morning_activities ←
    recommend_activities user_preferences destination_id
      (period_constraints "morning" morning_budget);
  afternoon_activities ←
    recommend_activities user_preferences destination_id
      (period_constraints "afternoon" afternoon_budget);
  evening_activities ←
    recommend_activities user_preferences destination_id
      (period_constraints "evening" evening_budget);
  '(morning_activity, morning_plan) ←
    (if negb (is_empty morning_activities) then pick_activity morning_activities
     else
       mret (None,
             {| slot_description :=
                  "Explore the area near your accommodation in "
                  +:+ dest_name destination +:+ ".";
                slot_cost := 0 |}));
  '(afternoon_activity, afternoon_plan) ←
    (if negb (is_empty afternoon_activities)
     then pick_activity afternoon_activities
     else
       mret (None,
             {| slot_description :=
                  "Enjoy local sights and culture in "
                  +:+ dest_name destination +:+ ".";
                slot_cost := (morning_budget / 2)%Q |}));
  '(evening_activity, evening_plan) ←
    (if negb (is_empty evening_activities) then pick_activity evening_activities
     else
       mret (None,
             {| slot_description :=
                  "Dine at a local restaurant and experience "
                  +:+ dest_name destination +:+ "'s nightlife.";
                slot_cost := (evening_budget / 2)%Q |}));
  let total_cost :=
    (slot_cost morning_plan + slot_cost afternoon_plan
     + slot_cost evening_plan)%Q in
  title ←
    (if (day_number =? 1)%Z then
       mret ("Welcome to " +:+ dest_name destination)
     else if (day_number =? up_duration user_preferences)%Z then
       mret ("Final Day in " +:+ dest_name destination)
     else
       morning ← read_local morning_activity;
       let keywords1 :=
         if py_contains "cultural" (py_lower (act_description morning))
            || py_contains "museum" (py_lower (act_description morning))
         then ["Cultural"] else [] in
       afternoon ← read_local afternoon_activity;
       let keywords2 :=
         if py_contains "outdoor" (py_lower (act_description afternoon))
            || py_contains "nature" (py_lower (act_description afternoon))
         then keywords1 ++ ["Outdoor"] else keywords1 in
       evening ← read_local evening_activity;
       let activities_keywords :=
         if py_contains "food" (py_lower (act_description evening))
            || py_contains "cuisine" (py_lower (act_description evening))
         then keywords2 ++ ["Culinary"] else keywords2 in
       if negb (is_empty activities_keywords) then
         keyword ← choice activities_keywords;
         mret ("Day of " +:+ keyword +:+ " Exploration in "
               +:+ dest_name destination)
       else
         mret ("Exploring " +:+ dest_name destination +:+ " - Day "
               +:+ pretty day_number));
  mret {| dp_title := title;
          dp_morning := morning_plan;
          dp_afternoon := afternoon_plan;
          dp_evening := evening_plan;
          dp_total_cost := total_cost |}.

(** ** [itinerary_generator.py] *)

Definition newline : string := String (ascii_of_nat 10) EmptyString.

Definition month_name (m : Z) : string :=
  default ""
    (["January"; "February"; "March"; "April"; "May"; "June"; "July";
      "August"; "September"; "October"; "November"; "December"]
       !! Z.to_nat (m - 1)).

(** [date.strftime("%B %d, %Y")] *)
Definition strftime (d : Date) : string :=
  month_name (month d) +:+ " "
  +:+ (if (day d <? 10)%Z then "0" else "") +:+ pretty (day d)
  +:+ ", " +:+ pretty (year d).

(** [range(a, b)] *)
Definition py_range (a b : Z) : list Z := seqZ a (b - a).

(** [d["total_cost"]] *)
Definition load_total_cost (l : loc) : M Q :=
  d ← load l;
  match d_total_cost d with
  | Some v => mret v
  | None => raise KeyError
  end.

Definition generate_overview_text (user_preferences : UserPreferences)
    (destination : Destination) (transportation : Transportation)
    (accommodation : loc) (daily_plans : list DailyPlan) : M string :=
  let total_days := pretty (up_duration user_preferences) in
  let destination_name := dest_name destination in
  let transport_mode := tr_mode transportation in
  accommodation_dict ← load accommodation;
  let accommodation_type := d_type accommodation_dict in
  let start_date := strftime (up_start_date user_preferences) in
  let end_date := strftime (up_end_date user_preferences) in
  let intros :=
    ["Get ready for an amazing " +:+ total_days +:+ "-day adventure in "
       +:+ destination_name +:+ "!";
     "Your " +:+ total_days +:+ "-day journey to beautiful "
       +:+ destination_name +:+ " awaits!";
     "Prepare for an unforgettable " +:+ total_days +:+ "-day experience in "
       +:+ destination_name +:+ "!"] in
  intro ← choice intros;
  let transport_desc :=
    "You'll travel from " +:+ up_origin user_preferences +:+ " to "
    +:+ destination_name +:+ " by " +:+ py_lower transport_mode +:+ "." in
  let accommodation_desc :=
    "During your stay, you'll be enjoying the comfort of a "
    +:+ py_lower accommodation_type +:+ " accommodation at "
    +:+ d_name accommodation_dict +:+ "." in
  let activities :=
    daily_plans ≫= (λ plan,
      [slot_description (dp_morning plan);
       slot_description (dp_afternoon plan);
       slot_description (dp_evening plan)]) in
  activities_desc ←
    (if negb (is_empty activities) then
       let sample_size := (3 `min` length activities)%nat in
       highlighted_activities ← sample activities sample_size;
       mret ("Some highlights of your trip include: "
             +:+ String.concat "; " highlighted_activities)
     else
       mret ("You'll have plenty of time to explore the best of "
             +:+ destination_name +:+ "."));
  let destination_notes :=
    destination_name +:+ " is known for " +:+ dest_description destination in
  mret (intro +:+ newline +:+ newline
        +:+ "From " +:+ start_date +:+ " to " +:+ end_date
        +:+ ", you'll be exploring " +:+ destination_name +:+ ". "
        +:+ transport_desc +:+ " " +:+ accommodation_desc
        +:+ newline +:+ newline
        +:+ activities_desc +:+ newline +:+ newline
        +:+ destination_notes).

Definition generate_itinerary (user_preferences : UserPreferences)
  : M Itinerary :=
  destination ← get_destination_by_name (up_destination user_preferences);
  let destination_id := dest_id destination in
  transportation ← recommend_transportation user_preferences;
  accommodation ← recommend_accommodation user_preferences destination_id;
  let transportation_cost := tr_cost transportation in
  accommodation_cost ← load_total_cost accommodation;
  let remaining_budget :=
    (up_budget user_preferences - transportation_cost
     - accommodation_cost)%Q in
  let remaining_budget :=
    if py_lt remaining_budget 0 then (up_budget user_preferences * 0.2)%Q
    else remaining_budget in
  daily_activity_budget ←
    lift (py_truediv remaining_budget
            (inject_Z (up_duration user_preferences)));
  daily_plans ←
    for_each
      (λ day, recommend_daily_plan user_preferences destination_id day
                daily_activity_budget)
      (py_range 1 (up_duration user_preferences + 1));
  let activities_cost := py_sum (dp_total_cost <$> daily_plans) in
  let food_budget := (remaining_budget * 0.4)%Q in
  let misc_budget := (remaining_budget * 0.1)%Q in
  overview ←
    generate_overview_text user_preferences destination transportation
      accommodation daily_plans;
  accommodation_dict ← load accommodation;
  mret {| it_destination := destination;
          it_transportation := transportation;
          it_accommodation := accommodation_dict;
          it_daily_plan := daily_plans;
          it_overview := overview;
          it_budget_breakdown :=
            {| bb_transportation := transportation_cost;
               bb_accommodation := accommodation_cost;
               bb_activities := activities_cost;
               bb_food := food_budget;
               bb_miscellaneous := misc_budget |} |}.

(** ** Fixtures: an excerpt of the catalog and some preferences

    The rows of Paris (destination 1, cost level 3) and Tokyo (destination
    2, cost level 4) with the fixed rows of the source and, for the rows
    whose cost, rating or popularity the source draws at construction, one
    value of the range it draws from.  Destination 99 has no activity and no
    accommodation. *)

Definition paris : Destination :=
  {| dest_id := 1; dest_name := "Paris, France"; dest_region := "Europe";
     dest_cost_level := 3; dest_climate := "temperate";
     dest_avg_daily_cost := 150; dest_currency := "EUR";
     dest_description :=
       "The City of Light, known for its art, fashion, gastronomy, and culture.";
     dest_popular_attractions :=
       ["Eiffel Tower"; "Louvre Museum"; "Notre-Dame Cathedral";
        "Arc de Triomphe"; "Montmartre"; "Seine River"] |}.

Definition tokyo : Destination :=
  {| dest_id := 2; dest_name := "Tokyo, Japan"; dest_region := "Asia";
     dest_cost_level := 4; dest_climate := "temperate";
     dest_avg_daily_cost := 120; dest_currency := "JPY";
     dest_description :=
       "A vibrant mix of traditional and ultramodern culture.";
     dest_popular_attractions :=
       ["Tokyo Tower"; "Shibuya Crossing"; "Meiji Shrine";
        "Senso-ji Temple"; "Imperial Palace"; "Akihabara"] |}.

Definition nowhere : Destination :=
  {| dest_id := 99; dest_name := "Nowhere"; dest_region := "";
     dest_cost_level := 1; dest_climate := "";
     dest_avg_daily_cost := 0; dest_currency := "";
     dest_description := "a place without rows.";
     dest_popular_attractions := [] |}.

Definition activity (id dest : Z) (name category description : string)
    (hours cost : Q) (morning afternoon evening : bool) (popularity : Q)
  : Activity :=
  {| act_id := id; act_destination_id := dest; act_name := name;
     act_category := category; act_description := description;
     act_duration_hours := hours; act_cost := cost;
     act_morning_suitable := morning; act_afternoon_suitable := afternoon;
     act_evening_suitable := evening; act_popularity := popularity |}.

Definition fixture_activities : list Activity :=
  [ activity 1 1 "Museum/Cultural Site Visit in Paris, France"
      "Cultural & Historical"
      "Visit a prominent museum or cultural landmark in Paris, France."
      3 60 true true false 0.8;
    activity 2 1 "Museum/Cultural Site Visit in Paris, France"
      "Cultural & Historical"
      "Visit a prominent museum or cultural landmark in Paris, France."
      2 45 true true false 0.9;
    activity 7 1 "Culinary Experience in Paris, France" "Food & Culinary"
      "Taste the local cuisine or join a food tour in Paris, France."
      2 60 false true true 0.85;
    activity 15 1 "Sightseeing in Paris, France" "Sightseeing"
      "Visit popular landmarks and attractions in Paris, France."
      2 30 true true false 0.85;
    activity 161 1 "Eiffel Tower Visit" "Sightseeing"
      "Visit the iconic symbol of Paris with options to go to the top for panoramic views."
      3 25 true true true 0.95;
    activity 162 1 "Louvre Museum Tour" "Cultural & Historical"
      "Explore one of the world's largest art museums, home to the Mona Lisa."
      4 15 true true false 0.9;
    activity 163 1 "Seine River Cruise" "Sightseeing"
      "See Paris from the water on a scenic boat tour along the Seine River."
      1.5 15 true true true 0.85;
    activity 165 2 "Shibuya Crossing Experience" "Sightseeing"
      "Witness the busiest pedestrian crossing in the world and explore the Shibuya district."
      2 0 true true true 0.9 ].

Definition mode (name : string) (cost_per_km speed : Q)
    (comfort eco dmin dmax : Z) : TransportationMode :=
  {| tm_mode := name; tm_typical_cost_per_km := cost_per_km;
     tm_speed_km_h := speed; tm_comfort_level := comfort;
     tm_eco_friendliness := eco; tm_suitable_distance_min_km := dmin;
     tm_suitable_distance_max_km := dmax |}.

Definition fixture_transportation : list TransportationMode :=
  [ mode "Plane" 0.15 900 3 1 300 20000;
    mode "Train" 0.10 200 4 4 50 1000;
    mode "Bus" 0.05 80 2 3 10 800;
    mode "Car" 0.20 100 4 2 5 1000;
    mode "Ferry" 0.08 40 3 3 10 500 ].

Definition accommodation (dest : Z) (name type : string) (cost rating : Q)
    (amenities suitable : list string) (location : Q) : Accommodation :=
  {| acc_destination_id := dest; acc_name := name; acc_type := type;
     acc_cost_per_night := cost; acc_rating := rating;
     acc_amenities := amenities; acc_suitable_for := suitable;
     acc_location_quality := location |}.

Definition fixture_accommodations : list Accommodation :=
  [ accommodation 1 "Budget Hotel in Paris, France" "Hotel" 90 3.5
      ["WiFi"; "Air Conditioning"] ["Solo"; "Couple"; "Friends"] 3.5;
    accommodation 1 "Hostel in Paris, France" "Hostel" 60 3.8
      ["WiFi"; "Shared Kitchen"; "Lounge"] ["Solo"; "Friends"] 4;
    accommodation 1 "Mid-range Hotel in Paris, France" "Hotel" 180 4.2
      ["WiFi"; "Air Conditioning"; "Restaurant"; "Room Service"]
      ["Solo"; "Couple"; "Family"; "Friends"] 4;
    accommodation 1 "Airbnb Apartment in Paris, France" "Airbnb" 150 4.5
      ["WiFi"; "Kitchen"; "Washer"; "Air Conditioning"]
      ["Solo"; "Couple"; "Family"; "Friends"] 4;
    accommodation 1 "Luxury Hotel in Paris, France" "Hotel" 450 4.6
      ["WiFi"; "Air Conditioning"; "Pool"; "Spa"; "Gym"; "Restaurant";
       "Room Service"] ["Solo"; "Couple"; "Family"] 4.5;
    accommodation 1 "Resort in Paris, France" "Resort" 600 4.9
      ["WiFi"; "Air Conditioning"; "Pool"; "Spa"; "Gym";
       "Multiple Restaurants"; "Private Beach/Garden"] ["Couple"; "Family"]
      4.8;
    accommodation 2 "Hostel in Tokyo, Japan" "Hostel" 80 3.6
      ["WiFi"; "Shared Kitchen"; "Lounge"] ["Solo"; "Friends"] 4 ].

Definition fixture_catalog : Catalog :=
  {| destinations_df := [paris; tokyo; nowhere];
     activities_df := fixture_activities;
     transportation_df := fixture_transportation;
     accommodations_df := fixture_accommodations |}.

(** A world at process start: an empty heap, and the tape [n ↦ 7 n + 3]. *)
Definition fixture_world : World :=
  {| w_catalog := fixture_catalog; w_heap := [];
     w_tape := λ n, (7 * n + 3)%nat; w_pos := 0 |}.

Definition preferences (destination : string) (duration : Z) (budget : Q)
    (transportation accommodation : string) (activities : list string)
  : UserPreferences :=
  {| up_origin := "New York"; up_destination := destination;
     up_start_date := {| year := 2026; month := 11; day := 10 |};
     up_end_date := {| year := 2026; month := 11; day := 10 + duration |};
     up_duration := duration; up_budget := budget;
     up_transportation := Some transportation;
     up_accommodation := Some accommodation;
     up_activities := activities; up_special_requests := "" |}.

(** ** Vocabulary of the statements *)

(** The rows the selection of [recommend_accommodation] works on: those of
    the preferred type at the destination, or all rows of the destination
    when there is none of that type. *)
Definition rows_at (cat : Catalog) (destination_id : Z) : list Accommodation :=
  List.filter (λ a, acc_destination_id a =? destination_id)%Z
    (accommodations_df cat).

Definition rows_of_type (cat : Catalog) (destination_id : Z)
    (accommodation_type : string) : list Accommodation :=
  if (accommodation_type =? "Any")%string then rows_at cat destination_id
  else
    List.filter
      (λ a, (acc_destination_id a =? destination_id)%Z
            && (acc_type a =? accommodation_type)%string)
      (accommodations_df cat).

Definition candidate_rows (cat : Catalog) (user_preferences : UserPreferences)
    (destination_id : Z) : list Accommodation :=
  let typed :=
    rows_of_type cat destination_id
      (default "Any" (up_accommodation user_preferences)) in
  if is_empty typed then rows_at cat destination_id else typed.

(** The accommodation budget as [recommend_accommodation] computes it, in
    binary64: [budget / duration] rounded, times the float [0.35],
    rounded. *)
Definition accommodation_budget (user_preferences : UserPreferences) : Q :=
  float_mul
    (binary64 (up_budget user_preferences
               / inject_Z (up_duration user_preferences)))
    (binary64 0.35).

(** The preferences whose numbers binary64 holds as the model does: a
    budget below [2 ^ 1023] in magnitude (an [int] beyond the range of
    binary64 makes Python's division raise [OverflowError]) and a duration
    that is a float as it is. *)
Definition in_binary64_range (user_preferences : UserPreferences) : Prop :=
  (- 2 ^ 1023 < up_budget user_preferences)%Q
  ∧ (up_budget user_preferences < 2 ^ 1023)%Q
  ∧ (Z.abs (up_duration user_preferences) <= 2 ^ 53)%Z.

(** The choice among the candidate rows, for an accommodation budget: when
    some candidate is within the budget, a best rated one among those within
    the budget, and a cheapest one among the best rated; when none is, a
    cheapest candidate. *)
Definition is_selection (accommodation_budget : Q)
    (candidates : list Accommodation) (r : Accommodation) : Prop :=
  ((∃ r', r' ∈ candidates
          ∧ (acc_cost_per_night r' <= accommodation_budget)%Q) →
   (acc_cost_per_night r <= accommodation_budget)%Q
   ∧ ∀ r', r' ∈ candidates →
           (acc_cost_per_night r' <= accommodation_budget)%Q →
           (acc_rating r' < acc_rating r
            ∨ (acc_rating r == acc_rating r'
               ∧ acc_cost_per_night r <= acc_cost_per_night r'))%Q)
  ∧ ((∀ r', r' ∈ candidates →
            ¬ (acc_cost_per_night r' <= accommodation_budget)%Q) →
     ∀ r', r' ∈ candidates →
           (acc_cost_per_night r <= acc_cost_per_night r')%Q).

(** The modes [recommend_transportation] may look up. *)
Definition requested_modes (user_preferences : UserPreferences)
  : list string :=
  let preferred_mode := default "Any" (up_transportation user_preferences) in
  if negb (preferred_mode =? "Any")%string then [preferred_mode]
  else ["Plane"; "Train"; "Bus"; "Car"].

(** What a record returned for the row [t] of the transportation frame
    holds. *)
Definition transportation_of (user_preferences : UserPreferences)
    (t : TransportationMode) (tr : Transportation) : Prop :=
  tr_mode tr = tm_mode t
  ∧ tr_cost tr = (inject_Z (tr_distance_km tr) * tm_typical_cost_per_km t)%Q
  ∧ tr_travel_time_hours tr
    = (inject_Z (tr_distance_km tr) / tm_speed_km_h t)%Q
  ∧ tr_details tr
    = "From " +:+ up_origin user_preferences +:+ " to "
      +:+ up_destination user_preferences +:+ " via " +:+ tr_mode tr.

(** Drawing random numbers changes neither the catalog nor the heap. *)
Definition same_store (w w' : World) : Prop :=
  w_catalog w' = w_catalog w ∧ w_heap w' = w_heap w.

(** ** More of [data_manager.py]: the transportation table *)

(** [_create_transportation_data]: the five rows of [transportation_df]. *)
Definition create_transportation_data : list TransportationMode :=
  [ {| tm_mode := "Plane"; tm_typical_cost_per_km := 0.15;
       tm_speed_km_h := 900; tm_comfort_level := 3;
       tm_eco_friendliness := 1; tm_suitable_distance_min_km := 300;
       tm_suitable_distance_max_km := 20000 |};
    {| tm_mode := "Train"; tm_typical_cost_per_km := 0.10;
       tm_speed_km_h := 200; tm_comfort_level := 4;
       tm_eco_friendliness := 4; tm_suitable_distance_min_km := 50;
       tm_suitable_distance_max_km := 1000 |};
    {| tm_mode := "Bus"; tm_typical_cost_per_km := 0.05;
       tm_speed_km_h := 80; tm_comfort_level := 2;
       tm_eco_friendliness := 3; tm_suitable_distance_min_km := 10;
       tm_suitable_distance_max_km := 800 |};
    {| tm_mode := "Car"; tm_typical_cost_per_km := 0.20;
       tm_speed_km_h := 100; tm_comfort_level := 4;
       tm_eco_friendliness := 2; tm_suitable_distance_min_km := 5;
       tm_suitable_distance_max_km := 1000 |};
    {| tm_mode := "Ferry"; tm_typical_cost_per_km := 0.08;
       tm_speed_km_h := 40; tm_comfort_level := 3;
       tm_eco_friendliness := 3; tm_suitable_distance_min_km := 10;
       tm_suitable_distance_max_km := 500 |} ].

(** ** More vocabulary: the slots of a daily plan *)

(** The slot of a chosen activity. *)
Definition slot_of (a : Activity) : Slot :=
  {| slot_description := act_description a; slot_cost := act_cost a |}.

(** The fillers of the three periods. *)
Definition morning_filler (destination : Destination) : Slot :=
  {| slot_description :=
       "Explore the area near your accommodation in "
       +:+ dest_name destination +:+ ".";
     slot_cost := 0 |}.

Definition afternoon_filler (destination : Destination) (daily_budget : Q)
  : Slot :=
  {| slot_description :=
       "Enjoy local sights and culture in " +:+ dest_name destination +:+ ".";
     slot_cost := (daily_budget * 0.3 / 2)%Q |}.

Definition evening_filler (destination : Destination) (daily_budget : Q)
  : Slot :=
  {| slot_description :=
       "Dine at a local restaurant and experience "
       +:+ dest_name destination +:+ "'s nightlife.";
     slot_cost := (daily_budget * 0.3 / 2)%Q |}.

(** A slot built from the result of a period's query: the filler when the
    result is empty, otherwise the slot of one of its activities. *)
Definition is_slot (activities : list Activity) (filler slot : Slot) : Prop :=
  (activities = [] ∧ slot = filler)
  ∨ (∃ a, a ∈ activities ∧ slot = slot_of a).

(** A slot of a returned plan, for a period: the filler of the period, or
    the description and the cost of an activity of the catalog at the
    destination that is suitable for the period. *)
Definition slot_from (w : World) (destination_id : Z)
    (suitable : Activity → bool) (filler slot : Slot) : Prop :=
  slot = filler
  ∨ ∃ a, a ∈ activities_df (w_catalog w)
         ∧ act_destination_id a = destination_id
         ∧ suitable a = true
         ∧ slot = slot_of a.

(** The titles of a day that is neither the first nor the last. *)
Definition is_middle_title (destination : Destination) (day_number : Z)
    (title : string) : Prop :=
  (∃ keyword, keyword ∈ ["Cultural"; "Outdoor"; "Culinary"]
              ∧ title = "Day of " +:+ keyword +:+ " Exploration in "
                        +:+ dest_name destination)
  ∨ title = "Exploring " +:+ dest_name destination +:+ " - Day "
            +:+ pretty day_number.

(** A run that keeps the catalog and every dictionary that existed. *)
Definition preserves (w w' : World) : Prop :=
  w_catalog w' = w_catalog w
  ∧ ∀ l d, w_heap w !! l = Some d → w_heap w' !! l = Some d.

(** The budget left for activities, food and the rest, as
    [generate_itinerary] computes it from the transportation and
    accommodation entries of the breakdown: what remains of the budget, or
    20% of the budget when nothing remains. *)
Definition remaining_budget (user_preferences : UserPreferences)
    (bb : BudgetBreakdown) : Q :=
  let remaining :=
    (up_budget user_preferences - bb_transportation bb
     - bb_accommodation bb)%Q in
  if py_lt remaining 0 then (up_budget user_preferences * 0.2)%Q
  else remaining.

(** ** More of [data_manager.py]: the construction of the data frames *)

(** [for x in xs: s = f(s, x)] *)
Fixpoint for_fold {A S} (f : S → A → M S) (xs : list A) (s : S) : M S :=
  match xs with
  | [] => mret s
  | x :: xs' => s' ← f s x; for_fold f xs' s'
  end.

(** [random.uniform(a, b)], which is [a + (b - a) * random()] *)
Definition uniform (a b : Q) : M Q :=
  r ← random; mret (a + (b - a) * r)%Q.

Definition set_catalog (cat : Catalog) (w : World) : World :=
  {| w_catalog := cat; w_heap := w_heap w;
     w_tape := w_tape w; w_pos := w_pos w |}.

(** [self.activities_df = rows] *)
Definition put_activities_df (rows : list Activity) : M unit :=
  λ w, (Ok (),
        set_catalog
          {| destinations_df := destinations_df (w_catalog w);
             activities_df := rows;
             transportation_df := transportation_df (w_catalog w);
             accommodations_df := accommodations_df (w_catalog w) |} w).

(** [self.transportation_df = rows] *)
Definition put_transportation_df (rows : list TransportationMode) : M unit :=
  λ w, (Ok (),
        set_catalog
          {| destinations_df := destinations_df (w_catalog w);
             activities_df := activities_df (w_catalog w);
             transportation_df := rows;
             accommodations_df := accommodations_df (w_catalog w) |} w).

(** [self.accommodations_df = rows] *)
Definition put_accommodations_df (rows : list Accommodation) : M unit :=
  λ w, (Ok (),
        set_catalog
          {| destinations_df := destinations_df (w_catalog w);
             activities_df := activities_df (w_catalog w);
             transportation_df := transportation_df (w_catalog w);
             accommodations_df := rows |} w).

(** The body of the loop of [_create_activity_data], for one destination:
    seven lists of activities are appended to [activities] and
    [activity_id] is advanced past them.  The entries of a dictionary
    display are evaluated in order, so the random numbers are drawn in the
    order of the keys. *)
Definition create_activities_for (state : list Activity * Z)
    (dest : Destination) : M (list Activity * Z) :=
  let '(activities, activity_id) := state in
  (* Cultural & Historical *)
  cultural_activities ←
    for_each
      (λ i,
         duration_hours ← choice [2; 3; 4]%Q;
         cost ← randint 10 40;
         popularity ← uniform 0.7 0.95;
         mret (activity (activity_id + i) (dest_id dest)
                 ("Museum/Cultural Site Visit in " +:+ dest_name dest)
                 "Cultural & Historical"
                 ("Visit a prominent museum or cultural landmark in "
                  +:+ dest_name dest +:+ ".")
                 duration_hours
                 (inject_Z (cost * dest_cost_level dest))
                 true true false popularity))
      (py_range 0 3);
  let activities := activities ++ cultural_activities in
  let activity_id := (activity_id + 3)%Z in
  (* Outdoor & Adventure *)
  outdoor_activities ←
    for_each
      (λ i,
         duration_hours ← choice [3; 4; 5]%Q;
         cost ← randint 20 100;
         popularity ← uniform 0.6 0.9;
         mret (activity (activity_id + i) (dest_id dest)
                 ("Outdoor Adventure in " +:+ dest_name dest)
                 "Outdoor & Adventure"
                 ("Enjoy the natural surroundings in " +:+ dest_name dest
                  +:+ " with hiking, walking tours, or outdoor sports.")
                 duration_hours
                 (inject_Z (cost * dest_cost_level dest) / 2)%Q
                 true true false popularity))
      (py_range 0 3);
  let activities := activities ++ outdoor_activities in
  let activity_id := (activity_id + 3)%Z in
  (* Food & Culinary *)
  food_activities ←
    for_each
      (λ i,
         duration_hours ← choice [2; 3]%Q;
         cost ← randint 30 80;
         popularity ← uniform 0.8 0.95;
         mret (activity (activity_id + i) (dest_id dest)
                 ("Culinary Experience in " +:+ dest_name dest)
                 "Food & Culinary"
                 ("Taste the local cuisine or join a food tour in "
                  +:+ dest_name dest +:+ ".")
                 duration_hours
                 (inject_Z (cost * dest_cost_level dest) / 2)%Q
                 false true true popularity))
      (py_range 0 2);
  let activities := activities ++ food_activities in
  let activity_id := (activity_id + 2)%Z in
  (* Relaxation & Wellness *)
  relaxation_activities ←
    for_each
      (λ i,
         duration_hours ← choice [2; 3; 4]%Q;
         cost ← randint 40 120;
         popularity ← uniform 0.7 0.9;
         mret (activity (activity_id + i) (dest_id dest)
                 ("Relaxation Activity in " +:+ dest_name dest)
                 "Relaxation & Wellness"
                 ("Unwind with spa treatments, beach time, or wellness "
                  +:+ "activities in " +:+ dest_name dest +:+ ".")
                 duration_hours
                 (inject_Z (cost * dest_cost_level dest) / 2)%Q
                 true true true popularity))
      (py_range 0 2);
  let activities := activities ++ relaxation_activities in
  let activity_id := (activity_id + 2)%Z in
  (* Shopping *)
  duration_hours ← choice [2; 3; 4]%Q;
  cost ← randint 0 50;
  popularity ← uniform 0.6 0.85;
  let shopping_activities :=
    [ activity activity_id (dest_id dest)
        ("Shopping Experience in " +:+ dest_name dest)
        "Shopping"
        ("Explore local markets, boutiques, or shopping districts in "
         +:+ dest_name dest +:+ ".")
        duration_hours
        (inject_Z (cost * dest_cost_level dest))
        false true true popularity ] in
  let activities := activities ++ shopping_activities in
  let activity_id := (activity_id + 1)%Z in
  (* Entertainment *)
  entertainment_activities ←
    for_each
      (λ i,
         duration_hours ← choice [2; 3; 4]%Q;
         cost ← randint 30 100;
         popularity ← uniform 0.7 0.9;
         mret (activity (activity_id + i) (dest_id dest)
                 ("Entertainment in " +:+ dest_name dest)
                 "Entertainment"
                 ("Enjoy shows, performances, or nightlife in "
                  +:+ dest_name dest +:+ ".")
                 duration_hours
                 (inject_Z (cost * dest_cost_level dest) / 2)%Q
                 false false true popularity))
      (py_range 0 2);
  let activities := activities ++ entertainment_activities in
  let activity_id := (activity_id + 2)%Z in
  (* Sightseeing *)
  sightseeing_activities ←
    for_each
      (λ i,
         duration_hours ← choice [2; 3; 4; 5]%Q;
         cost ← randint 10 50;
         evening_suitable ← choice [true; false];
         popularity ← uniform 0.8 0.95;
         mret (activity (activity_id + i) (dest_id dest)
                 ("Sightseeing in " +:+ dest_name dest)
                 "Sightseeing"
                 ("Visit popular landmarks and attractions in "
                  +:+ dest_name dest +:+ ".")
                 duration_hours
                 (inject_Z (cost * dest_cost_level dest) / 2)%Q
                 true true evening_suitable popularity))
      (py_range 0 3);
  let activities := activities ++ sightseeing_activities in
  let activity_id := (activity_id + 3)%Z in
  mret (activities, activity_id).

(** The six rows of [_add_destination_specific_activities], numbered from
    [activity_id]. *)
Definition specific_activities (activity_id : Z) : list Activity :=
  let paris_activities :=
    [ activity activity_id 1 "Eiffel Tower Visit" "Sightseeing"
        ("Visit the iconic symbol of Paris with options to go to the top "
         +:+ "for panoramic views.")
        3 25 true true true 0.95;
      activity (activity_id + 1) 1 "Louvre Museum Tour"
        "Cultural & Historical"
        ("Explore one of the world's largest art museums, home to the "
         +:+ "Mona Lisa.")
        4 15 true true false 0.9;
      activity (activity_id + 2) 1 "Seine River Cruise" "Sightseeing"
        ("See Paris from the water on a scenic boat tour along the Seine "
         +:+ "River.")
        1.5 15 true true true 0.85 ] in
  let activity_id := (activity_id + 3)%Z in
  let tokyo_activities :=
    [ activity activity_id 2 "Tsukiji Outer Market Tour" "Food & Culinary"
        ("Explore the famous seafood market and enjoy fresh sushi for "
         +:+ "breakfast.")
        3 40 true false false 0.85;
      activity (activity_id + 1) 2 "Shibuya Crossing Experience"
        "Sightseeing"
        ("Witness the busiest pedestrian crossing in the world and explore "
         +:+ "the Shibuya district.")
        2 0 true true true 0.9;
      activity (activity_id + 2) 2 "Robot Restaurant Show" "Entertainment"
        ("Experience a uniquely Japanese spectacle of lights, music, and "
         +:+ "robots in Shinjuku.")
        2 80 false false true 0.8 ] in
  paris_activities ++ tokyo_activities.

(** [activity_id = len(self.activities_df) + 1], and the specific rows are
    concatenated behind the frame. *)
Definition _add_destination_specific_activities : M unit :=
  cat ← gets w_catalog;
  let activity_id := (Z.of_nat (length (activities_df cat)) + 1)%Z in
  put_activities_df (activities_df cat ++ specific_activities activity_id).

Definition _create_activity_data : M unit :=
  cat ← gets w_catalog;
  '(activities, _) ←
    for_fold create_activities_for (destinations_df cat) ([], 1%Z);
  put_activities_df activities;;
  _add_destination_specific_activities.

Definition _create_transportation_data : M unit :=
  put_transportation_df create_transportation_data.

(** The body of the loop of [_create_accommodation_data]: the six rows of a
    destination.  [cost_level] is an integer, so [int(...)] changes
    nothing. *)
Definition create_accommodations_for (dest : Destination)
  : M (list Accommodation) :=
  rating1 ← uniform 3.0 4.0;
  location1 ← uniform 3.0 4.0;
  rating2 ← uniform 3.0 4.0;
  location2 ← uniform 3.5 4.5;
  let budget_options :=
    [ accommodation (dest_id dest) ("Budget Hotel in " +:+ dest_name dest)
        "Hotel" (inject_Z (30 * dest_cost_level dest)) rating1
        ["WiFi"; "Air Conditioning"] ["Solo"; "Couple"; "Friends"] location1;
      accommodation (dest_id dest) ("Hostel in " +:+ dest_name dest)
        "Hostel" (inject_Z (20 * dest_cost_level dest)) rating2
        ["WiFi"; "Shared Kitchen"; "Lounge"] ["Solo"; "Friends"] location2 ] in
  rating3 ← uniform 3.5 4.5;
  location3 ← uniform 3.5 4.5;
  rating4 ← uniform 3.8 4.8;
  location4 ← uniform 3.5 4.5;
  let midrange_options :=
    [ accommodation (dest_id dest) ("Mid-range Hotel in " +:+ dest_name dest)
        "Hotel" (inject_Z (60 * dest_cost_level dest)) rating3
        ["WiFi"; "Air Conditioning"; "Restaurant"; "Room Service"]
        ["Solo"; "Couple"; "Family"; "Friends"] location3;
      accommodation (dest_id dest) ("Airbnb Apartment in " +:+ dest_name dest)
        "Airbnb" (inject_Z (50 * dest_cost_level dest)) rating4
        ["WiFi"; "Kitchen"; "Washer"; "Air Conditioning"]
        ["Solo"; "Couple"; "Family"; "Friends"] location4 ] in
  rating5 ← uniform 4.0 4.9;
  location5 ← uniform 4.0 5.0;
  rating6 ← uniform 4.2 5.0;
  location6 ← uniform 4.5 5.0;
  let luxury_options :=
    [ accommodation (dest_id dest) ("Luxury Hotel in " +:+ dest_name dest)
        "Hotel" (inject_Z (150 * dest_cost_level dest)) rating5
        ["WiFi"; "Air Conditioning"; "Pool"; "Spa"; "Gym"; "Restaurant";
         "Room Service"]
        ["Solo"; "Couple"; "Family"] location5;
      accommodation (dest_id dest) ("Resort in " +:+ dest_name dest)
        "Resort" (inject_Z (200 * dest_cost_level dest)) rating6
        ["WiFi"; "Air Conditioning"; "Pool"; "Spa"; "Gym";
         "Multiple Restaurants"; "Private Beach/Garden"]
        ["Couple"; "Family"] location6 ] in
  mret (budget_options ++ midrange_options ++ luxury_options).

Definition _create_accommodation_data : M unit :=
  cat ← gets w_catalog;
  accommodations ← for_each create_accommodations_for (destinations_df cat);
  put_accommodations_df (concat accommodations).

(** [DataManager.__init__] behind [_create_destination_data]: the three
    frames that are computed from the destination frame. *)
Definition create_frames : M unit :=
  _create_activity_data;;
  _create_transportation_data;;
  _create_accommodation_data.

(** A run that only draws random numbers. *)
Definition draws_only (w w' : World) : Prop :=
  w_catalog w' = w_catalog w ∧ w_heap w' = w_heap w ∧ w_tape w' = w_tape w.

(** [m] returns on every world, with a result that satisfies [P], and only
    draws random numbers. *)
Definition always {A} (m : M A) (P : A → Prop) : Prop :=
  ∀ w, ∃ a w', m w = (Ok a, w') ∧ P a ∧ draws_only w w'.

(** The periods of the day of the activities the data manager creates, by
    category: (category, morning, afternoon, evening). *)
Definition suitability_table : list (string * bool * bool * bool) :=
  [ ("Cultural & Historical", true, true, false);
    ("Outdoor & Adventure", true, true, false);
    ("Food & Culinary", false, true, true);
    ("Food & Culinary", true, false, false);
    ("Relaxation & Wellness", true, true, true);
    ("Shopping", false, true, true);
    ("Entertainment", false, false, true);
    ("Sightseeing", true, true, true);
    ("Sightseeing", true, true, false) ].

Definition suitability (a : Activity) : string * bool * bool * bool :=
  (act_category a, act_morning_suitable a, act_afternoon_suitable a,
   act_evening_suitable a).

(** The categories of the sixteen generic activities of a destination, in
    the order of their creation. *)
Definition generic_categories : list string :=
  replicate 3 "Cultural & Historical" ++ replicate 3 "Outdoor & Adventure"
  ++ replicate 2 "Food & Culinary" ++ replicate 2 "Relaxation & Wellness"
  ++ ["Shopping"] ++ replicate 2 "Entertainment"
  ++ replicate 3 "Sightseeing".

(** The types of the six accommodations of a destination, and the
    multiples of the destination's cost level that are their prices. *)
Definition accommodation_types : list string :=
  ["Hotel"; "Hostel"; "Hotel"; "Airbnb"; "Hotel"; "Resort"].

Definition accommodation_prices (dest : Destination) : list Q :=
  (λ k, inject_Z (k * dest_cost_level dest)) <$> [30; 20; 60; 50; 150; 200]%Z.

(** The price ceilings of the generic activities, by category, in units of
    the cost level of the destination. *)
Definition price_ceiling (category : string) : Q :=
  if (category =? "Cultural & Historical")%string then 40
  else if (category =? "Outdoor & Adventure")%string then 50
  else if (category =? "Food & Culinary")%string then 40
  else if (category =? "Relaxation & Wellness")%string then 60
  else if (category =? "Shopping")%string then 50
  else if (category =? "Entertainment")%string then 50
  else 25.

(** A generic activity of a destination: one of the sixteen rows the loop
    of [_create_activity_data] creates for it. *)
Definition is_generic_activity (dest : Destination) (a : Activity) : Prop :=
  act_destination_id a = dest_id dest
  ∧ suitability a ∈ suitability_table
  ∧ (0.6 <= act_popularity a)%Q ∧ (act_popularity a <= 0.95)%Q
  ∧ ((0 <= dest_cost_level dest)%Z →
     (0 <= act_cost a)%Q
     ∧ (act_cost a
        <= price_ceiling (act_category a)
           * inject_Z (dest_cost_level dest))%Q).

Definition generic_row (dest : Destination) (id : Z) (category : string)
    (a : Activity) : Prop :=
  act_id a = id ∧ act_category a = category ∧ is_generic_activity dest a.

(** The shape of the activity frame [_create_activity_data] builds from a
    destination frame: sixteen generic rows for each destination and the
    six specific rows, numbered from 1 in the order of the frame; every row
    is in the suitability table; every destination has a generic row of
    each category. *)
Definition activities_created (dests : list Destination)
    (acts : list Activity) : Prop :=
  length acts = (16 * length dests + 6)%nat
  ∧ act_id <$> acts = seqZ 1 (Z.of_nat (length acts))
  ∧ (∀ a, a ∈ acts →
          suitability a ∈ suitability_table
          ∧ ((∃ d, d ∈ dests ∧ is_generic_activity d a)
             ∨ a ∈ specific_activities
                     (16 * Z.of_nat (length dests) + 1)))
  ∧ (∀ d category,
       d ∈ dests → category ∈ generic_categories →
       ∃ a, a ∈ acts ∧ is_generic_activity d a ∧ act_category a = category).

(** A row [_create_accommodation_data] creates for a destination. *)
Definition is_accommodation_of (dest : Destination) (r : Accommodation)
  : Prop :=
  acc_destination_id r = dest_id dest
  ∧ (acc_type r, acc_cost_per_night r)
    ∈ zip accommodation_types (accommodation_prices dest)
  ∧ (3 <= acc_rating r)%Q ∧ (acc_rating r <= 5)%Q
  ∧ (3 <= acc_location_quality r)%Q ∧ (acc_location_quality r <= 5)%Q.

(** The shape of the accommodation frame [_create_accommodation_data]
    builds: six rows for each destination, among them one of each type. *)
Definition accommodations_created (dests : list Destination)
    (accs : list Accommodation) : Prop :=
  length accs = (6 * length dests)%nat
  ∧ (∀ r, r ∈ accs → ∃ d, d ∈ dests ∧ is_accommodation_of d r)
  ∧ (∀ d ty,
       d ∈ dests → ty ∈ accommodation_types →
       ∃ r, r ∈ accs ∧ is_accommodation_of d r ∧ acc_type r = ty).

(** ** More of [recommendation_engine.py]: the feature vector of a user *)

(** Dictionaries with string keys, in the order of insertion: [k in d] and
    [d[k]] behind it, and [d[k] = v]. *)
Fixpoint dict_get {V} (k : string) (d : list (string * V)) : option V :=
  match d with
  | [] => None
  | (k', v) :: d' => if (k' =? k)%string then Some v else dict_get k d'
  end.

Fixpoint dict_set {V} (k : string) (v : V) (d : list (string * V))
  : list (string * V) :=
  match d with
  | [] => [(k, v)]
  | (k', v') :: d' =>
      if (k' =? k)%string then (k', v) :: d' else (k', v') :: dict_set k v d'
  end.

(** [d[k]], which raises [KeyError] for a missing key *)
Definition dict_at {V} (k : string) (d : list (string * V)) : M V :=
  match dict_get k d with
  | Some v => mret v
  | None => raise KeyError
  end.

Definition activity_to_feature : list (string * string) :=
  [ ("Cultural & Historical", "cultural");
    ("Outdoor & Adventure", "outdoor");
    ("Food & Culinary", "culinary");
    ("Relaxation & Wellness", "relaxation");
    ("Shopping", "shopping");
    ("Entertainment", "entertainment");
    ("Sightseeing", "sightseeing") ].

Definition create_user_feature_vector (user_preferences : UserPreferences)
  : M (list Q) :=
  let features :=
    [ ("cultural", 0%Q); ("outdoor", 0%Q); ("culinary", 0%Q);
      ("relaxation", 0%Q); ("shopping", 0%Q); ("entertainment", 0%Q);
      ("sightseeing", 0%Q) ] in
  features ←
    for_fold
      (λ features activity,
         match dict_get activity activity_to_feature with
         | Some feature => mret (dict_set feature 1%Q features)
         | None => mret features
         end)
      (up_activities user_preferences) features;
  features ←
    (if negb (is_empty (up_activities user_preferences)) then
       factor ←
         lift (py_truediv 1
                 (inject_Z
                    (Z.of_nat (length (up_activities user_preferences)))));
       for_fold
         (λ features key,
            value ← dict_at key features;
            if py_lt 0 value then
              value ← dict_at key features;
              mret (dict_set key (0.5 + value * factor * 0.5)%Q features)
            else mret features)
         (fst <$> features) features
     else mret features);
  daily_budget ←
    lift (py_truediv (up_budget user_preferences)
            (inject_Z (up_duration user_preferences)));
  let cost_level : Q :=
    (if py_lt daily_budget 50 then 1
     else if py_lt daily_budget 100 then 2
     else if py_lt daily_budget 200 then 3
     else if py_lt daily_budget 350 then 4
     else 5)%Q in
  cultural ← dict_at "cultural" features;
  outdoor ← dict_at "outdoor" features;
  culinary ← dict_at "culinary" features;
  relaxation ← dict_at "relaxation" features;
  shopping ← dict_at "shopping" features;
  entertainment ← dict_at "entertainment" features;
  sightseeing ← dict_at "sightseeing" features;
  mret [cultural; outdoor; culinary; relaxation; shopping; entertainment;
        sightseeing; (cost_level / 5)%Q].

(** The weight of a selected feature, for [n] interests. *)
Definition selected_weight (n : nat) : Q :=
  (0.5 + 1 * (1 / inject_Z (Z.of_nat n)) * 0.5)%Q.

(** ** [utils.py] *)

(** [text[:n]] for [0 <= n] *)
Fixpoint str_take (n : nat) (text : string) : string :=
  match n, text with
  | S n', String c text' => String c (str_take n' text')
  | _, _ => EmptyString
  end.

(** [text[:max_length]]: a negative bound counts from the end. *)
Definition py_slice_to (text : string) (max_length : Z) : string :=
  if (0 <=? max_length)%Z then str_take (Z.to_nat max_length) text
  else
    str_take (Z.to_nat (Z.of_nat (String.length text) + max_length)) text.

(** [truncate_text(text, max_length=100)] *)
Definition truncate_text (text : string) (max_length : option Z) : string :=
  let max_length := default 100%Z max_length in
  if (Z.of_nat (String.length text) <=? max_length)%Z then text
  else py_slice_to text max_length +:+ "...".

(** [calculate_date_range]: a date is counted in days (its ordinal), so
    that the difference of two dates is a number of days and adding
    [timedelta(days=i)] adds [i]. *)
Definition calculate_date_range (start_date end_date : Z) : list Z :=
  let days := (end_date - start_date + 1)%Z in
  (λ i, start_date + i)%Z <$> py_range 0 days.

(** ** [app.py]: the handler of the button "Generate Travel Plan" *)

(** The part of [st.session_state] the handler writes. *)
Record SessionState : Type := {
  ss_generated_itinerary : option Itinerary;
  ss_error_message : option string;
  ss_user_preferences : option UserPreferences
}.

Section app.

(** [str(e)], the message of an exception *)
Variable str : exn → string.

(** The block under [if generate_button:].  Its free variables are the
    values of the widgets and [trip_duration], computed from the two
    dates. *)
Definition on_generate (trip_duration : Z) (origin destination : string)
    (start_date end_date : Date) (budget : Q)
    (transportation accommodation : string) (activities : list string)
    (special_requests : string) (session_state : SessionState)
  : World → SessionState * World :=
  λ w,
    if (trip_duration <? 1)%Z then
      ({| ss_error_message := Some "Please select valid travel dates.";
          ss_generated_itinerary := None;
          ss_user_preferences := ss_user_preferences session_state |}, w)
    else if is_empty activities then
      ({| ss_error_message :=
            Some "Please select at least one activity interest.";
          ss_generated_itinerary := None;
          ss_user_preferences := ss_user_preferences session_state |}, w)
    else
      let user_preferences :=
        {| up_origin := origin; up_destination := destination;
           up_start_date := start_date; up_end_date := end_date;
           up_duration := trip_duration; up_budget := budget;
           up_transportation := Some transportation;
           up_accommodation := Some accommodation;
           up_activities := activities;
           up_special_requests := special_requests |} in
      match generate_itinerary user_preferences w with
      | (Ok itinerary, w') =>
          ({| ss_generated_itinerary := Some itinerary;
              ss_user_preferences := Some user_preferences;
              ss_error_message := None |}, w')
      | (Raise e, w') =>
          ({| ss_error_message :=
                Some ("Error generating itinerary: " +:+ str e);
              ss_generated_itinerary := None;
              ss_user_preferences := ss_user_preferences session_state |},
           w')
      end.

End app.

(** * Reasoning about runs *)

Lemma run_bind {A B} (m : M A) (f : A → M B) (w : World) :
  (m ≫= f) w =
  match m w with
  | (Ok a, w') => f a w'
  | (Raise e, w') => (Raise e, w')
  end.
Proof. reflexivity. Qed.

Lemma bind_ok_inv {A B} (m : M A) (f : A → M B) w b w2 :
  (m ≫= f) w = (Ok b, w2) →
  ∃ a w1, m w = (Ok a, w1) ∧ f a w1 = (Ok b, w2).
Proof.
  rewrite run_bind. destruct (m w) as [[a|e] w1]; intros H.
  - by exists a, w1.
  - discriminate H.
Qed.

Lemma bind_ok {A B} (m : M A) (f : A → M B) w a w1 :
  m w = (Ok a, w1) → (m ≫= f) w = f a w1.
Proof. intros H. by rewrite run_bind, H. Qed.

Lemma bind_raise {A B} (m : M A) (f : A → M B) w e w1 :
  m w = (Raise e, w1) → (m ≫= f) w = (Raise e, w1).
Proof. intros H. by rewrite run_bind, H. Qed.

Lemma ret_ok_inv {A} (a b : A) (w w' : World) :
  (mret a : M A) w = (Ok b, w') → a = b ∧ w = w'.
Proof. intros H. by injection H. Qed.

Ltac bind_inv H :=
  let a := fresh "a" in
  let w := fresh "w" in
  let Ha := fresh "Hrun" in
  apply bind_ok_inv in H as (a & w & Ha & H); cbv beta zeta in H.

(** * The itinerary assembler *)

(** C1. Whenever [generate_itinerary] returns an itinerary, the [activities]
    entry of its budget breakdown is exactly the sum of the [total_cost] of
    the daily plans of that itinerary. *)
Theorem activities_cost_is_sum_of_daily_totals
    (user_preferences : UserPreferences) (w w' : World) (it : Itinerary) :
  generate_itinerary user_preferences w = (Ok it, w') →
  bb_activities (it_budget_breakdown it)
  = py_sum (dp_total_cost <$> it_daily_plan it).
Proof.
  unfold generate_itinerary. intros H.
  do 8 bind_inv H.
  apply ret_ok_inv in H as [<- _]. reflexivity.
Qed.

Lemma activities_cost_is_sum_of_daily_totals_witness :
  ∃ it w',
    generate_itinerary
      (preferences "Paris, France" 3 2000 "Plane" "Hotel"
         ["Sightseeing"; "Cultural & Historical"])
      fixture_world = (Ok it, w')
    ∧ bb_activities (it_budget_breakdown it)
      = py_sum (dp_total_cost <$> it_daily_plan it)
    ∧ length (it_daily_plan it) = 3%nat.
Proof.
  destruct (generate_itinerary
              (preferences "Paris, France" 3 2000 "Plane" "Hotel"
                 ["Sightseeing"; "Cultural & Historical"])
              fixture_world) as [[it|e] w'] eqn:E.
  - exists it, w'. split; [reflexivity|]. split.
    + exact (activities_cost_is_sum_of_daily_totals _ _ _ _ E).
    + vm_compute in E. injection E as <- _. reflexivity.
  - vm_compute in E. discriminate E.
Defined.

Lemma filter_nil {A} (f : A → bool) (l : list A) :
  (∀ x, x ∈ l → f x = false) → List.filter f l = [].
Proof.
  induction l as [|x l IH]; intros H; [reflexivity|].
  simpl. rewrite (H x) by apply list_elem_of_here.
  apply IH. intros y Hy. apply H. by apply list_elem_of_further.
Qed.

Lemma get_destination_by_name_absent (name : string) (w : World) :
  (∀ d, d ∈ destinations_df (w_catalog w) → dest_name d ≠ name) →
  get_destination_by_name name w = (Raise IndexError, w).
Proof.
  intros H. unfold get_destination_by_name.
  rewrite run_bind. simpl. rewrite filter_nil; [reflexivity|].
  intros d Hd. apply String.eqb_neq. by apply H.
Qed.

(** C4. When no destination of the catalog has the requested name,
    [generate_itinerary] raises the lookup's [IndexError] (the not-found
    failure of [get_destination_by_name]) to its caller: no itinerary is
    returned, no other destination is substituted, and the world is left as
    it was (nothing is drawn or allocated before the failure). *)
Theorem unknown_destination_propagates_not_found
    (user_preferences : UserPreferences) (w : World) :
  (∀ d, d ∈ destinations_df (w_catalog w) →
        dest_name d ≠ up_destination user_preferences) →
  generate_itinerary user_preferences w = (Raise IndexError, w).
Proof.
  intros H. unfold generate_itinerary.
  apply bind_raise. by apply get_destination_by_name_absent.
Qed.

Lemma unknown_destination_propagates_not_found_witness :
  generate_itinerary
    (preferences "Atlantis" 7 2000 "Plane" "Hotel" ["Sightseeing"])
    fixture_world
  = (Raise IndexError, fixture_world).
Proof.
  apply unknown_destination_propagates_not_found.
  intros d Hd. apply String.eqb_neq.
  revert d Hd. apply Forall_forall.
  repeat constructor.
Defined.

(** C2 (a defect of the code). The preferences below are valid: three days,
    a positive budget, one interest, a destination and a transportation
    mode of the catalog.  No cultural activity is suitable for the evening,
    so the evening of every day is a filler; on day 2, which is neither the
    first nor the last day, the title is computed from [evening_activity],
    which was never assigned.  [generate_itinerary] raises
    [UnboundLocalError] and returns no daily plan at all. *)
Theorem valid_preferences_without_itinerary :
  let user_preferences :=
    preferences "Paris, France" 3 2000 "Plane" "Hotel"
      ["Cultural & Historical"] in
  (1 <= up_duration user_preferences)%Z
  ∧ (0 < up_budget user_preferences)%Q
  ∧ up_activities user_preferences ≠ []
  ∧ paris ∈ destinations_df (w_catalog fixture_world)
  ∧ dest_name paris = up_destination user_preferences
  ∧ (generate_itinerary user_preferences fixture_world).1
    = Raise UnboundLocalError.
Proof.
  cbv zeta. split; [done|]. split; [done|]. split; [done|].
  split; [apply list_elem_of_here|]. split; [reflexivity|].
  vm_compute. reflexivity.
Qed.

(** C5 (a defect of the code). On day 2 of 3 the evening query is empty
    (no cultural activity is suitable for the evening) and the filler slot is
    built, but the title of a middle day reads [evening_activity], which is
    bound only when an activity was chosen: [recommend_daily_plan] raises
    [UnboundLocalError] instead of returning the plan.  On day 1 and on day
    3 the same call returns the plan with the evening filler. *)
Theorem middle_day_with_filler_fails :
  let user_preferences :=
    preferences "Paris, France" 3 2000 "Plane" "Hotel"
      ["Cultural & Historical"] in
  (recommend_activities user_preferences 1
     (period_constraints "evening" (100 * 0.3)) fixture_world).1 = Ok []
  ∧ (recommend_daily_plan user_preferences 1 2 100 fixture_world).1
    = Raise UnboundLocalError
  ∧ (∃ plan,
       (recommend_daily_plan user_preferences 1 1 100 fixture_world).1
       = Ok plan
       ∧ slot_cost (dp_evening plan) = (100 * 0.3 / 2)%Q)
  ∧ (∃ plan,
       (recommend_daily_plan user_preferences 1 3 100 fixture_world).1
       = Ok plan
       ∧ slot_cost (dp_evening plan) = (100 * 0.3 / 2)%Q).
Proof.
  cbv zeta. split; [vm_compute; reflexivity|].
  split; [vm_compute; reflexivity|].
  split; eexists; (split; [vm_compute; reflexivity|reflexivity]).
Qed.

(** * The stable sort *)

Example sort_reverse_keeps_ties_in_order :
  py_sort fst py_lt true [(1%Q, "a"); (2%Q, "b"); (1%Q, "c")]
  = [(2%Q, "b"); (1%Q, "a"); (1%Q, "c")].
Proof. reflexivity. Qed.

Example sort_keeps_ties_in_order :
  py_sort fst py_lt false [(2%Q, "a"); (1%Q, "b"); (2%Q, "c"); (1%Q, "d")]
  = [(1%Q, "b"); (1%Q, "d"); (2%Q, "a"); (2%Q, "c")].
Proof. reflexivity. Qed.

Section sort_facts.
Context {A K : Type} (key : A → K) (klt : K → K → bool).
Hypothesis klt_irrefl : ∀ a, klt a a = false.
Hypothesis klt_asym : ∀ a b, klt a b = true → klt b a = false.
Hypothesis klt_negtrans :
  ∀ a b c, klt a b = false → klt b c = false → klt a c = false.

Local Abbreviation before := (before key klt).
Local Abbreviation tied := (tied key klt).

Lemma before_irrefl reverse x : before reverse x x = false.
Proof. unfold before. destruct reverse; apply klt_irrefl. Qed.

Lemma before_asym reverse x y :
  before reverse x y = true → before reverse y x = false.
Proof. unfold before. destruct reverse; apply klt_asym. Qed.

Lemma before_negtrans reverse x y z :
  before reverse x y = false → before reverse y z = false →
  before reverse x z = false.
Proof.
  unfold before. destruct reverse; intros H1 H2.
  - by apply (klt_negtrans _ (key y)).
  - by apply (klt_negtrans _ (key y)).
Qed.

Lemma sort_insert_unfold reverse x y l :
  sort_insert key klt reverse x (y :: l)
  = if before reverse y x then y :: sort_insert key klt reverse x l
    else x :: y :: l.
Proof. reflexivity. Qed.

Lemma sort_insert_perm reverse x l :
  sort_insert key klt reverse x l ≡ₚ x :: l.
Proof.
  induction l as [|y l IH]; [reflexivity|].
  rewrite sort_insert_unfold. destruct (before reverse y x); [|reflexivity].
  rewrite IH. apply Permutation_swap.
Qed.

Lemma py_sort_perm reverse l : py_sort key klt reverse l ≡ₚ l.
Proof.
  induction l as [|x l IH]; [reflexivity|].
  simpl. rewrite sort_insert_perm. by rewrite IH.
Qed.

Lemma sort_insert_sorted reverse x l :
  StronglySorted (λ a b, before reverse b a = false) l →
  StronglySorted (λ a b, before reverse b a = false)
    (sort_insert key klt reverse x l).
Proof.
  induction 1 as [|y l Hl IH Hy].
  - repeat constructor.
  - rewrite sort_insert_unfold. destruct (before reverse y x) eqn:Hyx.
    + constructor; [exact IH|].
      rewrite sort_insert_perm. constructor; [|exact Hy].
      by apply before_asym.
    + constructor; [by constructor|].
      constructor; [exact Hyx|].
      eapply Forall_impl; [exact Hy|]. intros b Hb. simpl in Hb.
      by apply (before_negtrans _ _ y).
Qed.

Lemma py_sort_sorted reverse l :
  StronglySorted (λ a b, before reverse b a = false)
    (py_sort key klt reverse l).
Proof.
  induction l as [|x l IH]; [constructor|].
  simpl. by apply sort_insert_sorted.
Qed.

Lemma tied_not_before reverse x y z :
  tied x y = true → tied x z = true → before reverse y z = false.
Proof.
  unfold tied, before. intros [Hxy Hyx]%andb_prop [Hxz Hzx]%andb_prop.
  apply negb_true_iff in Hxy, Hyx, Hxz, Hzx.
  destruct reverse.
  - by apply (klt_negtrans _ (key x)).
  - by apply (klt_negtrans _ (key x)).
Qed.

Lemma sort_insert_stable reverse x a l :
  List.filter (tied x) (sort_insert key klt reverse a l)
  = List.filter (tied x) (a :: l).
Proof.
  induction l as [|y l IH]; [reflexivity|].
  rewrite sort_insert_unfold. destruct (before reverse y a) eqn:Hya.
  - change (List.filter (tied x) (y :: sort_insert key klt reverse a l))
      with (if tied x y
            then y :: List.filter (tied x) (sort_insert key klt reverse a l)
            else List.filter (tied x) (sort_insert key klt reverse a l)).
    rewrite IH. simpl.
    destruct (tied x y) eqn:Hy, (tied x a) eqn:Ha; try reflexivity.
    by rewrite (tied_not_before reverse x y a) in Hya.
  - reflexivity.
Qed.

(** Stability: the elements tied with any [x] keep their order. *)
Lemma py_sort_stable reverse x l :
  List.filter (tied x) (py_sort key klt reverse l) = List.filter (tied x) l.
Proof.
  induction l as [|a l IH]; [reflexivity|].
  simpl py_sort. rewrite sort_insert_stable. simpl. by rewrite IH.
Qed.

(** The first element of the sorted list: no element is ahead of it. *)
Lemma py_sort_head reverse l :
  l ≠ [] →
  ∃ x s, py_sort key klt reverse l = x :: s
         ∧ x ∈ l ∧ ∀ y, y ∈ l → before reverse y x = false.
Proof.
  intros Hl. pose proof (py_sort_perm reverse l) as Hperm.
  pose proof (py_sort_sorted reverse l) as Hsorted.
  destruct (py_sort key klt reverse l) as [|x s].
  - apply Permutation_nil_l in Hperm. by subst.
  - exists x, s. split; [reflexivity|]. split.
    + rewrite <- Hperm. apply list_elem_of_here.
    + intros y Hy. rewrite <- Hperm in Hy.
      apply StronglySorted_inv in Hsorted as [_ Hx].
      apply elem_of_cons in Hy as [->|Hy]; [apply before_irrefl|].
      rewrite Forall_forall in Hx. by apply Hx.
Qed.

End sort_facts.

(** * The orders on numbers and on pairs of numbers *)

Lemma py_le_true a b : py_le a b = true ↔ (a <= b)%Q.
Proof. apply Qle_bool_iff. Qed.

Lemma py_le_false a b : py_le a b = false ↔ (b < a)%Q.
Proof.
  unfold py_le. rewrite <- not_true_iff_false, Qle_bool_iff.
  split; [apply Qnot_le_lt|apply Qlt_not_le].
Qed.

Lemma py_lt_true a b : py_lt a b = true ↔ (a < b)%Q.
Proof. unfold py_lt. rewrite negb_true_iff. apply py_le_false. Qed.

Lemma py_lt_false a b : py_lt a b = false ↔ (b <= a)%Q.
Proof. unfold py_lt. rewrite negb_false_iff. apply py_le_true. Qed.

Lemma py_eq_true a b : py_eq a b = true ↔ (a == b)%Q.
Proof. apply Qeq_bool_iff. Qed.

Lemma py_eq_false a b : py_eq a b = false ↔ ¬ (a == b)%Q.
Proof. unfold py_eq. by rewrite <- not_true_iff_false, Qeq_bool_iff. Qed.

Lemma py_lt_irrefl a : py_lt a a = false.
Proof. apply py_lt_false. lra. Qed.

Lemma py_lt_asym a b : py_lt a b = true → py_lt b a = false.
Proof. rewrite py_lt_true, py_lt_false. lra. Qed.

Lemma py_lt_negtrans a b c :
  py_lt a b = false → py_lt b c = false → py_lt a c = false.
Proof. rewrite !py_lt_false. lra. Qed.

Lemma tuple_lt_true (a b : Q * Q) :
  tuple_lt a b = true
  ↔ (a.1 < b.1 ∨ (a.1 == b.1 ∧ a.2 < b.2))%Q.
Proof.
  unfold tuple_lt. destruct (py_eq a.1 b.1) eqn:E.
  - apply py_eq_true in E. rewrite py_lt_true. split; [by right|].
    intros [H|[_ H]]; [lra|done].
  - apply py_eq_false in E. rewrite py_lt_true. split; [by left|].
    intros [H|[H _]]; [done|contradiction].
Qed.

Lemma tuple_lt_false (a b : Q * Q) :
  tuple_lt a b = false
  ↔ (b.1 < a.1 ∨ (a.1 == b.1 ∧ b.2 <= a.2))%Q.
Proof.
  unfold tuple_lt. destruct (py_eq a.1 b.1) eqn:E.
  - apply py_eq_true in E. rewrite py_lt_false. split; [by right|].
    intros [H|[_ H]]; [lra|done].
  - apply py_eq_false in E. rewrite py_lt_false. split.
    + intros H. left. apply Qle_lt_or_eq in H as [H|H]; [done|].
      contradict E. by symmetry.
    + intros [H|[H _]]; [lra|contradiction].
Qed.

Lemma tuple_lt_irrefl a : tuple_lt a a = false.
Proof. apply tuple_lt_false. right. split; [reflexivity|lra]. Qed.

Lemma tuple_lt_asym a b : tuple_lt a b = true → tuple_lt b a = false.
Proof.
  rewrite tuple_lt_true, tuple_lt_false.
  intros [H|[H1 H2]]; [by left|]. right. split; [by symmetry|lra].
Qed.

Lemma tuple_lt_negtrans a b c :
  tuple_lt a b = false → tuple_lt b c = false → tuple_lt a c = false.
Proof.
  rewrite !tuple_lt_false.
  intros [H1|[H1 H1']] [H2|[H2 H2']].
  - left. lra.
  - left. lra.
  - left. lra.
  - right. split; lra.
Qed.

(** * [recommend_activities] *)

Lemma filter_sublist {A} (f : A → bool) (l : list A) :
  List.filter f l `sublist_of` l.
Proof.
  induction l as [|x l IH]; [constructor|].
  simpl. destruct (f x); by constructor.
Qed.

Lemma filter_sublist_mono {A} (f : A → bool) (l1 l2 : list A) :
  l1 `sublist_of` l2 → List.filter f l1 `sublist_of` List.filter f l2.
Proof.
  induction 1 as [|x l1 l2 _ IH|x l1 l2 _ IH]; simpl.
  - constructor.
  - destruct (f x); [by constructor|exact IH].
  - destruct (f x); [by constructor|exact IH].
Qed.

Lemma elem_of_filter {A} (f : A → bool) (l : list A) (x : A) :
  x ∈ List.filter f l ↔ x ∈ l ∧ f x = true.
Proof. rewrite !list_elem_of_In. apply filter_In. Qed.

Lemma filter_Forall {A} (f : A → bool) (l : list A) :
  Forall (λ x, f x = true) (List.filter f l).
Proof. apply Forall_forall. intros x Hx. by apply elem_of_filter in Hx as [_ ?]. Qed.

Lemma StronglySorted_take {A} (R : A → A → Prop) (n : nat) (l : list A) :
  StronglySorted R l → StronglySorted R (take n l).
Proof.
  intros H. revert n. induction H as [|x l _ IH Hx]; intros [|n]; simpl;
    try constructor; [apply IH|].
  apply Forall_forall. intros y Hy. rewrite Forall_forall in Hx.
  apply Hx. eapply elem_of_sublist; [exact Hy|apply sublist_take].
Qed.

Lemma StronglySorted_weaken {A} (R R' : A → A → Prop) (l : list A) :
  (∀ a b, R a b → R' a b) → StronglySorted R l → StronglySorted R' l.
Proof.
  intros HR. induction 1 as [|x l _ IH Hx]; constructor; [exact IH|].
  eapply Forall_impl; [exact Hx|]. intros b. apply HR.
Qed.

(** The run of [recommend_activities]: it never raises and leaves the world
    as it is; the result is the head of the sorted candidates, which are
    rows of the activity frame, in the order of the frame, and within the
    cost limit when there is one. *)
Lemma recommend_activities_run user_preferences destination_id constraints w :
  ∃ candidates,
    recommend_activities user_preferences destination_id constraints w
    = (Ok (take (default 10%nat
                   (c_max_results (default no_constraints constraints)))
             (py_sort activity_key tuple_lt true candidates)), w)
    ∧ candidates `sublist_of` activities_df (w_catalog w)
    ∧ ∀ max_cost,
        c_max_cost (default no_constraints constraints) = Some max_cost →
        Forall (λ a, act_cost a <= max_cost)%Q candidates.
Proof.
  unfold recommend_activities, get_activities_by_destination.
  rewrite run_bind. simpl.
  set (all_activities :=
         List.filter (λ a, (act_destination_id a =? destination_id)%Z)
           (activities_df (w_catalog w))).
  assert (Hall : all_activities `sublist_of` activities_df (w_catalog w))
    by apply filter_sublist.
  destruct (is_empty all_activities) eqn:Hempty.
  { exists []. simpl py_sort. rewrite take_nil. split; [reflexivity|].
    split; [apply sublist_nil_l|]. intros. constructor. }
  set (preferred :=
         if is_empty (up_activities user_preferences) then all_activities
         else
           if is_empty
                (List.filter
                   (λ a, py_in (act_category a)
                           (up_activities user_preferences))
                   all_activities)
           then all_activities
           else
             List.filter
               (λ a, py_in (act_category a) (up_activities user_preferences))
               all_activities).
  assert (Hpref : preferred `sublist_of` all_activities).
  { unfold preferred. repeat case_match; try reflexivity.
    apply filter_sublist. }
  set (timed :=
         match c_time_of_day (default no_constraints constraints) with
         | Some time_of_day =>
             if (time_of_day =? "morning")%string
             then List.filter act_morning_suitable preferred
             else if (time_of_day =? "afternoon")%string
             then List.filter act_afternoon_suitable preferred
             else if (time_of_day =? "evening")%string
             then List.filter act_evening_suitable preferred
             else preferred
         | None => preferred
         end).
  assert (Htimed : timed `sublist_of` preferred).
  { unfold timed. repeat case_match; try reflexivity; apply filter_sublist. }
  eexists. split; [reflexivity|]. split.
  - transitivity timed; [|by do 2 (etransitivity; [eassumption|])].
    case_match; [apply filter_sublist|reflexivity].
  - intros max_cost ->.
    eapply Forall_impl; [apply filter_Forall|].
    intros a Ha. simpl in Ha. by apply py_le_true.
Qed.

Lemma before_activity_key (a b : Activity) :
  before activity_key tuple_lt true b a = false
  ↔ (act_popularity b < act_popularity a
     ∨ (act_popularity a == act_popularity b ∧ act_cost a <= act_cost b))%Q.
Proof.
  unfold before. rewrite tuple_lt_false. unfold activity_key. simpl.
  split; (intros [H|[H1 H2]]; [by left|right; split; [done|lra]]).
Qed.

(** Two activities are tied when they have the same popularity and the same
    cost. *)
Lemma tied_activity_key (a b : Activity) :
  tied activity_key tuple_lt a b = true
  ↔ (act_popularity a == act_popularity b ∧ act_cost a == act_cost b)%Q.
Proof.
  unfold tied. rewrite andb_true_iff, !negb_true_iff, !tuple_lt_false.
  unfold activity_key. simpl. split.
  - intros [[H1|[H1 H1']] [H2|[H2 H2']]]; lra.
  - intros [H1 H2]. split; right; split; lra.
Qed.

(** C8. With [max_results = N], [recommend_activities] returns at most [N]
    activities; they are sorted by popularity, the more popular first, and
    at equal popularity by cost, the cheaper first; and the activities of
    the result that are tied (same popularity, same cost) are in the order of
    the catalog.  The call never raises and changes nothing. *)
Theorem recommend_activities_ranked
    (user_preferences : UserPreferences) (destination_id : Z)
    (time_of_day : option string) (max_cost : option Q) (N : nat)
    (w : World) :
  ∃ result,
    recommend_activities user_preferences destination_id
      (Some {| c_time_of_day := time_of_day; c_max_cost := max_cost;
               c_max_results := Some N |}) w
    = (Ok result, w)
    ∧ length result ≤ N
    ∧ StronglySorted
        (λ a b, act_popularity b < act_popularity a
                ∨ (act_popularity a == act_popularity b
                   ∧ act_cost a <= act_cost b))%Q
        result
    ∧ ∀ x, List.filter (tied activity_key tuple_lt x) result
           `sublist_of` activities_df (w_catalog w).
Proof.
  destruct (recommend_activities_run user_preferences destination_id
              (Some {| c_time_of_day := time_of_day; c_max_cost := max_cost;
                       c_max_results := Some N |}) w)
    as (candidates & Hrun & Hsub & _).
  simpl in Hrun. eexists. split; [exact Hrun|]. split; [|split].
  - rewrite length_take. apply Nat.le_min_l.
  - apply StronglySorted_take.
    eapply StronglySorted_weaken;
      [|apply (py_sort_sorted activity_key tuple_lt
                 tuple_lt_asym tuple_lt_negtrans true)].
    intros a b Hab. simpl in Hab. by apply before_activity_key.
  - intros x.
    transitivity
      (List.filter (tied activity_key tuple_lt x)
         (py_sort activity_key tuple_lt true candidates)).
    { apply filter_sublist_mono, sublist_take. }
    rewrite (py_sort_stable activity_key tuple_lt tuple_lt_negtrans).
    transitivity candidates; [apply filter_sublist|exact Hsub].
Qed.

(** * [recommend_daily_plan] *)

Lemma choice_ok_inv {A} (xs : list A) (w w1 : World) (x : A) :
  choice xs w = (Ok x, w1) → x ∈ xs.
Proof.
  unfold choice. destruct xs as [|x0 xs]; [discriminate|].
  intros H. bind_inv H.
  destruct ((x0 :: xs) !! (a `mod` length (x0 :: xs))%nat) as [y|] eqn:Hy;
    [|discriminate].
  apply ret_ok_inv in H as [<- _]. by eapply list_elem_of_lookup_2.
Qed.


Lemma recommend_activities_within_cost
    user_preferences destination_id time_of_day max_cost w activities w1 :
  recommend_activities user_preferences destination_id
    (period_constraints time_of_day max_cost) w = (Ok activities, w1) →
  w1 = w ∧ Forall (λ a, act_cost a <= max_cost)%Q activities.
Proof.
  destruct (recommend_activities_run user_preferences destination_id
              (period_constraints time_of_day max_cost) w)
    as (candidates & Hrun & _ & Hcost).
  rewrite Hrun. intros [= <- <-]. split; [reflexivity|].
  specialize (Hcost max_cost eq_refl). rewrite Forall_forall in Hcost.
  apply Forall_forall. intros a Ha. apply Hcost.
  rewrite <- (py_sort_perm activity_key tuple_lt true candidates).
  eapply elem_of_sublist; [exact Ha|apply sublist_take].
Qed.

Lemma half_spec (x : Q) : (x / 2 == x * 0.5)%Q.
Proof. unfold Qdiv. apply Qmult_comp; reflexivity. Qed.




(** * The accommodation dictionaries on the heap *)

Lemma set_heap_id (w : World) : set_heap (w_heap w) w = w.
Proof. by destruct w. Qed.

Lemma set_heap_set_heap h1 h2 w : set_heap h2 (set_heap h1 w) = set_heap h2 w.
Proof. reflexivity. Qed.

Lemma to_dict_records_run (rows : list Accommodation) (w : World) :
  to_dict_records rows w
  = (Ok (seq (length (w_heap w)) (length rows)),
     set_heap (w_heap w ++ (row_dict <$> rows)) w).
Proof.
  unfold to_dict_records. revert w.
  induction rows as [|r rows IH]; intros w.
  - simpl. by rewrite app_nil_r, set_heap_id.
  - simpl for_each. rewrite run_bind. unfold alloc at 1.
    rewrite run_bind, IH. simpl.
    rewrite length_app, Nat.add_1_r, <- app_assoc. reflexivity.
Qed.

Lemma get_accommodations_by_destination_run destination_id w :
  get_accommodations_by_destination destination_id w
  = (Ok (seq (length (w_heap w))
           (length (rows_at (w_catalog w) destination_id))),
     set_heap (w_heap w
               ++ (row_dict <$> rows_at (w_catalog w) destination_id)) w).
Proof.
  unfold get_accommodations_by_destination. rewrite run_bind. simpl.
  apply to_dict_records_run.
Qed.

Lemma get_accommodations_by_destination_and_type_run
    destination_id accommodation_type w :
  get_accommodations_by_destination_and_type destination_id
    accommodation_type w
  = (Ok (seq (length (w_heap w))
           (length (rows_of_type (w_catalog w) destination_id
                      accommodation_type))),
     set_heap (w_heap w
               ++ (row_dict <$> rows_of_type (w_catalog w) destination_id
                                  accommodation_type)) w).
Proof.
  unfold get_accommodations_by_destination_and_type, rows_of_type.
  destruct (accommodation_type =? "Any")%string.
  - apply get_accommodations_by_destination_run.
  - rewrite run_bind. simpl. apply to_dict_records_run.
Qed.

Lemma is_empty_seq {A} (start : nat) (l : list A) :
  is_empty (seq start (length l)) = is_empty l.
Proof. by destruct l. Qed.

(** The two queries of [recommend_accommodation]: the dictionaries of the
    candidate rows are allocated behind the heap, and nothing else. *)
Lemma candidates_query_run {B} user_preferences destination_id
    (k : list loc → M B) (w : World) :
  (accommodations ←
     get_accommodations_by_destination_and_type destination_id
       (default "Any" (up_accommodation user_preferences));
   accommodations ←
     (if is_empty accommodations
      then get_accommodations_by_destination destination_id
      else mret accommodations);
   k accommodations) w
  = k (seq (length (w_heap w))
         (length (candidate_rows (w_catalog w) user_preferences
                    destination_id)))
      (set_heap
         (w_heap w
          ++ (row_dict <$> candidate_rows (w_catalog w) user_preferences
                             destination_id)) w).
Proof.
  rewrite run_bind, get_accommodations_by_destination_and_type_run.
  rewrite is_empty_seq. unfold candidate_rows.
  destruct (is_empty (rows_of_type _ _ _)) eqn:Hempty.
  - destruct (rows_of_type _ _ _); [|discriminate Hempty].
    rewrite run_bind, get_accommodations_by_destination_run. simpl.
    by rewrite app_nil_r.
  - reflexivity.
Qed.

Lemma fresh_lookup (h : list AccDict) (rows : list Accommodation) (i : nat) :
  (h ++ (row_dict <$> rows)) !! (length h + i)%nat = row_dict <$> rows !! i.
Proof.
  rewrite lookup_app_r by lia.
  replace (length h + i - length h)%nat with i by lia.
  apply list_lookup_fmap.
Qed.

Lemma fresh_loc_row (h : list AccDict) (rows : list Accommodation) (l : loc) :
  l ∈ seq (length h) (length rows) →
  ∃ i r, l = (length h + i)%nat ∧ rows !! i = Some r.
Proof.
  intros [Hle Hlt]%elem_of_seq.
  destruct (lookup_lt_is_Some_2 rows (l - length h)) as [r Hr]; [lia|].
  exists (l - length h)%nat, r. split; [lia|exact Hr].
Qed.

Lemma row_fresh_loc (h : list AccDict) (rows : list Accommodation) r :
  r ∈ rows →
  ∃ i, rows !! i = Some r ∧ (length h + i)%nat ∈ seq (length h) (length rows).
Proof.
  intros (i & Hi)%list_elem_of_lookup_1. exists i. split; [exact Hi|].
  apply elem_of_seq. apply lookup_lt_Some in Hi. lia.
Qed.

Lemma cost_per_night_at_fresh h rows i r :
  rows !! i = Some r →
  cost_per_night_at (h ++ (row_dict <$> rows)) (length h + i)
  = acc_cost_per_night r.
Proof. intros Hr. unfold cost_per_night_at. by rewrite fresh_lookup, Hr. Qed.

Lemma rating_at_fresh h rows i r :
  rows !! i = Some r →
  rating_at (h ++ (row_dict <$> rows)) (length h + i) = acc_rating r.
Proof. intros Hr. unfold rating_at. by rewrite fresh_lookup, Hr. Qed.

Lemma is_empty_true {A} (l : list A) : is_empty l = true ↔ l = [].
Proof. by destruct l. Qed.

Lemma is_empty_false {A} (l : list A) : is_empty l = false ↔ l ≠ [].
Proof. by destruct l. Qed.

Lemma truediv_zero (a : Q) : py_truediv a (inject_Z 0) = Raise ZeroDivisionError.
Proof. reflexivity. Qed.

Lemma truediv_nonzero (a : Q) (d : Z) :
  d ≠ 0%Z → py_truediv a (inject_Z d) = Ok (a / inject_Z d)%Q.
Proof.
  intros Hd. unfold py_truediv.
  destruct (Qeq_bool (inject_Z d) 0) eqn:E; [|reflexivity].
  apply Qeq_bool_iff in E. unfold Qeq in E. simpl in E. lia.
Qed.

Lemma float_truediv_zero (a : Q) :
  float_truediv a (inject_Z 0) = Raise ZeroDivisionError.
Proof. reflexivity. Qed.

Lemma float_truediv_nonzero (a : Q) (d : Z) :
  d ≠ 0%Z → float_truediv a (inject_Z d) = Ok (binary64 (a / inject_Z d)).
Proof.
  intros Hd. unfold float_truediv.
  destruct (Qeq_bool (inject_Z d) 0) eqn:E; [|reflexivity].
  apply Qeq_bool_iff in E. unfold Qeq in E. simpl in E. lia.
Qed.

(** The selection among the fresh dictionaries, read back on the rows. *)
Lemma selection_run (h : list AccDict) (rows : list Accommodation)
    (accommodation_budget : Q) (w : World) :
  rows ≠ [] →
  let h' := h ++ (row_dict <$> rows) in
  let accommodations := seq (length h) (length rows) in
  let affordable_accommodations :=
    List.filter (λ a, py_le (cost_per_night_at h' a) accommodation_budget)
      accommodations in
  ∃ i r,
    rows !! i = Some r
    ∧ is_selection accommodation_budget rows r
    ∧ (if is_empty affordable_accommodations then
         iloc0 (py_sort (cost_per_night_at h') py_lt false accommodations)
       else
         iloc0 (py_sort (accommodation_key h') tuple_lt true
                  affordable_accommodations)) w
      = (Ok (length h + i)%nat, w).
Proof.
  intros Hrows h' accommodations affordable.
  assert (Hne : accommodations ≠ []).
  { unfold accommodations. destruct rows; [done|discriminate]. }
  destruct (is_empty affordable) eqn:Hempty.
  - apply is_empty_true in Hempty.
    destruct (py_sort_head (cost_per_night_at h') py_lt py_lt_irrefl
                py_lt_asym py_lt_negtrans false accommodations Hne)
      as (x & s & -> & Hx & Hmin).
    destruct (fresh_loc_row h rows x Hx) as (i & r & -> & Hr).
    exists i, r. split; [exact Hr|]. split; [|reflexivity]. split.
    + intros (r' & Hr' & Hle). exfalso.
      destruct (row_fresh_loc h rows r' Hr') as (j & Hj & Hloc).
      assert (Hin : (length h + j)%nat ∈ affordable).
      { apply elem_of_filter. split; [exact Hloc|].
        apply py_le_true. unfold h'. by rewrite (cost_per_night_at_fresh _ _ _ _ Hj). }
      rewrite Hempty in Hin. by apply not_elem_of_nil in Hin.
    + intros _ r' Hr'.
      destruct (row_fresh_loc h rows r' Hr') as (j & Hj & Hloc).
      specialize (Hmin _ Hloc). unfold before in Hmin.
      apply py_lt_false in Hmin. unfold h' in Hmin.
      by rewrite (cost_per_night_at_fresh _ _ _ _ Hj),
        (cost_per_night_at_fresh _ _ _ _ Hr) in Hmin.
  - apply is_empty_false in Hempty.
    destruct (py_sort_head (accommodation_key h') tuple_lt tuple_lt_irrefl
                tuple_lt_asym tuple_lt_negtrans true affordable Hempty)
      as (x & s & -> & Hx & Hmax).
    apply elem_of_filter in Hx as [Hx Hxle].
    destruct (fresh_loc_row h rows x Hx) as (i & r & -> & Hr).
    exists i, r. split; [exact Hr|]. split; [|reflexivity].
    apply py_le_true in Hxle. unfold h' in Hxle.
    rewrite (cost_per_night_at_fresh _ _ _ _ Hr) in Hxle. split.
    + intros _. split; [exact Hxle|]. intros r' Hr' Hle.
      destruct (row_fresh_loc h rows r' Hr') as (j & Hj & Hloc).
      assert (Hin : (length h + j)%nat ∈ affordable).
      { apply elem_of_filter. split; [exact Hloc|].
        apply py_le_true. unfold h'. by rewrite (cost_per_night_at_fresh _ _ _ _ Hj). }
      specialize (Hmax _ Hin). unfold before in Hmax.
      apply tuple_lt_false in Hmax. unfold accommodation_key, h' in Hmax.
      simpl in Hmax.
      rewrite !(cost_per_night_at_fresh _ _ _ _ Hj),
        !(cost_per_night_at_fresh _ _ _ _ Hr),
        !(rating_at_fresh _ _ _ _ Hj), !(rating_at_fresh _ _ _ _ Hr) in Hmax.
      destruct Hmax as [H|[H1 H2]]; [by left|right; split; [done|lra]].
    + intros Hnone. exfalso. apply (Hnone r); [|exact Hxle].
      by eapply list_elem_of_lookup_2.
Qed.

(** * [recommend_accommodation] *)

(** The three runs of [recommend_accommodation]: the generic dictionary when
    there is no candidate row; [ZeroDivisionError] when there are candidates
    and the duration is zero; otherwise the dictionary of the selected row,
    a new object, with its [total_cost]. *)
Lemma recommend_accommodation_run user_preferences destination_id w :
  let h := w_heap w in
  let duration := up_duration user_preferences in
  let candidates :=
    candidate_rows (w_catalog w) user_preferences destination_id in
  (candidates = []
   ∧ recommend_accommodation user_preferences destination_id w
     = (Ok (length h),
        set_heap
          (h ++ [generic_accommodation
                   (default "Any" (up_accommodation user_preferences))
                   duration]) w))
  ∨ (candidates ≠ [] ∧ duration = 0%Z
     ∧ recommend_accommodation user_preferences destination_id w
       = (Raise ZeroDivisionError,
          set_heap (h ++ (row_dict <$> candidates)) w))
  ∨ (candidates ≠ [] ∧ duration ≠ 0%Z
     ∧ ∃ i r,
         candidates !! i = Some r
         ∧ is_selection (accommodation_budget user_preferences)
             candidates r
         ∧ recommend_accommodation user_preferences destination_id w
           = (Ok (length h + i)%nat,
              set_heap
                (<[(length h + i)%nat :=
                     with_total_cost
                       (acc_cost_per_night r * inject_Z duration)
                       (row_dict r)]>
                   (h ++ (row_dict <$> candidates))) w)).
Proof.
  intros h duration candidates. unfold recommend_accommodation.
  rewrite candidates_query_run. fold candidates h.
  rewrite is_empty_seq.
  destruct (is_empty candidates) eqn:Hempty.
  { apply is_empty_true in Hempty. left. split; [exact Hempty|].
    rewrite Hempty. unfold alloc. simpl. by rewrite app_nil_r. }
  apply is_empty_false in Hempty. right.
  destruct (decide (duration = 0%Z)) as [Hzero|Hnonzero].
  { left. split; [exact Hempty|]. split; [exact Hzero|].
    rewrite run_bind. fold duration. rewrite Hzero. reflexivity. }
  right. split; [exact Hempty|]. split; [exact Hnonzero|].
  rewrite run_bind. fold duration. unfold lift.
  rewrite (float_truediv_nonzero _ _ Hnonzero).
  rewrite run_bind. unfold gets at 1. cbv beta iota zeta.
  change (w_heap (set_heap (h ++ (row_dict <$> candidates)) w))
    with (h ++ (row_dict <$> candidates)).
  change (float_mul (binary64 (up_budget user_preferences / inject_Z duration))
            (binary64 0.35))
    with (accommodation_budget user_preferences).
  destruct (selection_run h candidates
              (accommodation_budget user_preferences)
              (set_heap (h ++ (row_dict <$> candidates)) w) Hempty)
    as (i & r & Hr & Hsel & Hrun).
  exists i, r. split; [exact Hr|]. split; [exact Hsel|].
  rewrite run_bind, Hrun. rewrite run_bind.
  unfold store_total_cost at 1.
  change (w_heap (set_heap (h ++ (row_dict <$> candidates)) w))
    with (h ++ (row_dict <$> candidates)).
  rewrite fresh_lookup, Hr. simpl.
  by rewrite (cost_per_night_at_fresh _ _ _ _ Hr).
Qed.

Lemma candidate_rows_nonempty cat user_preferences destination_id :
  rows_at cat destination_id ≠ [] →
  candidate_rows cat user_preferences destination_id ≠ [].
Proof.
  intros H. unfold candidate_rows.
  destruct (is_empty (rows_of_type _ _ _)) eqn:E; [exact H|].
  by apply is_empty_false.
Qed.

(** C3. The accommodation budget is the float the code computes,
    [accommodation_budget = budget / duration * 0.35] in binary64, not the
    exact 35% of the daily budget: for the budget 3000 and 7 days it is
    149.99999999999997, and the row at 150 is filtered out.  And there is a
    budget only when the duration is not zero.  At the destination 1 of the
    fixture, with every type accepted:
    - with the duration 0, the call raises [ZeroDivisionError];
    - with the budget 3000 and 7 days, the call returns the hostel, rated
      3.8, while the apartment, rated 4.5, costs 150, which is at most the
      exact 35% of the daily budget (and so does the hostel). *)
Lemma exact_budget_is_not_the_filter :
  (∃ w',
     recommend_accommodation
       (preferences "Paris, France" 0 3000 "Plane" "Any" ["Sightseeing"])
       1 fixture_world = (Raise ZeroDivisionError, w'))
  ∧ ∃ l d w' r,
      recommend_accommodation
        (preferences "Paris, France" 7 3000 "Plane" "Any" ["Sightseeing"])
        1 fixture_world = (Ok l, w')
      ∧ w_heap w' !! l = Some d
      ∧ d_name d = "Hostel in Paris, France"
      ∧ r ∈ rows_at fixture_catalog 1
      ∧ acc_name r = "Airbnb Apartment in Paris, France"
      ∧ (d_cost_per_night d <= 3000 / inject_Z 7 * 0.35)%Q
      ∧ (acc_cost_per_night r <= 3000 / inject_Z 7 * 0.35)%Q
      ∧ (d_rating d < acc_rating r)%Q
      ∧ ¬ (acc_cost_per_night r
           <= accommodation_budget
                (preferences "Paris, France" 7 3000 "Plane" "Any"
                   ["Sightseeing"]))%Q.
Proof.
  split.
  - eexists. vm_compute. reflexivity.
  - eexists _, _, _,
      (accommodation 1 "Airbnb Apartment in Paris, France" "Airbnb" 150 4.5
         ["WiFi"; "Kitchen"; "Washer"; "Air Conditioning"]
         ["Solo"; "Couple"; "Family"; "Friends"] 4).
    split; [vm_compute; reflexivity|].
    split; [vm_compute; reflexivity|].
    split; [reflexivity|].
    split; [vm_compute; do 3 apply list_elem_of_further;
            apply list_elem_of_here|].
    split; [reflexivity|].
    split; [by vm_compute|]. split; [by vm_compute|].
    split; [by vm_compute|].
    intros H. by vm_compute in H.
Qed.

(** C3, as the code has it.  For preferences whose numbers binary64 holds
    and a destination with at least one accommodation:
    - with a duration of zero, [recommend_accommodation] raises
      [ZeroDivisionError];
    - otherwise it returns the dictionary of a candidate row [r] (a row of
      the preferred type at the destination, or any row of the destination
      when there is none of that type) with
      [total_cost = cost_per_night * duration], where, for the
      [accommodation_budget] the code computes in binary64:
      when some candidate costs at most the budget, [r] costs at most the
      budget, and every candidate within the budget has a lower rating than
      [r], or the same rating and a cost not below that of [r]; when no
      candidate is within the budget, no candidate is cheaper than [r].
    So a returned cost above the budget occurs only when the filtered set
    is empty. *)
Theorem recommend_accommodation_selection
    (user_preferences : UserPreferences) (destination_id : Z) (w : World) :
  in_binary64_range user_preferences →
  rows_at (w_catalog w) destination_id ≠ [] →
  let candidates :=
    candidate_rows (w_catalog w) user_preferences destination_id in
  let accommodation_budget := accommodation_budget user_preferences in
  (up_duration user_preferences = 0%Z →
   ∃ w',
     recommend_accommodation user_preferences destination_id w
     = (Raise ZeroDivisionError, w'))
  ∧ (up_duration user_preferences ≠ 0%Z →
     ∃ l r w',
       recommend_accommodation user_preferences destination_id w = (Ok l, w')
       ∧ r ∈ candidates
       ∧ w_heap w' !! l
         = Some (with_total_cost
                   (acc_cost_per_night r
                    * inject_Z (up_duration user_preferences))
                   (row_dict r))
       ∧ ((∃ r', r' ∈ candidates
                 ∧ (acc_cost_per_night r' <= accommodation_budget)%Q) →
          (acc_cost_per_night r <= accommodation_budget)%Q
          ∧ ∀ r', r' ∈ candidates →
                  (acc_cost_per_night r' <= accommodation_budget)%Q →
                  (acc_rating r' < acc_rating r
                   ∨ (acc_rating r == acc_rating r'
                      ∧ acc_cost_per_night r <= acc_cost_per_night r'))%Q)
       ∧ ((∀ r', r' ∈ candidates →
                 ¬ (acc_cost_per_night r' <= accommodation_budget)%Q) →
          ∀ r', r' ∈ candidates →
                (acc_cost_per_night r <= acc_cost_per_night r')%Q)).
Proof.
  intros _ Hrows candidates budget.
  pose proof (candidate_rows_nonempty _ user_preferences _ Hrows) as Hne.
  destruct (recommend_accommodation_run user_preferences destination_id w)
    as [[Hnil _]
       |[(_ & Hzero & Hrun)|(_ & Hnonzero & i & r & Hr & [Hsel1 Hsel2] & Hrun)]];
    [done| |].
  - split; [intros _; by eexists|done].
  - split; [done|]. intros _.
    eexists _, r, _. split; [exact Hrun|].
    split; [by eapply list_elem_of_lookup_2|].
    split; [|split; [exact Hsel1|exact Hsel2]].
    simpl. apply list_lookup_insert_eq.
    rewrite length_app, length_fmap. apply lookup_lt_Some in Hr. lia.
Qed.

Lemma recommend_accommodation_selection_witness :
  ∃ l w',
    recommend_accommodation
      (preferences "Paris, France" 7 3000 "Plane" "Any" ["Sightseeing"])
      1 fixture_world = (Ok l, w')
    ∧ (d_name <$> w_heap w' !! l) = Some "Hostel in Paris, France"
    ∧ (d_total_cost <$> w_heap w' !! l) = Some (Some (60 * inject_Z 7)%Q).
Proof.
  destruct (recommend_accommodation_selection
              (preferences "Paris, France" 7 3000 "Plane" "Any"
                 ["Sightseeing"])
              1 fixture_world) as [_ Hreturns].
  - by vm_compute.
  - done.
  - destruct Hreturns as (l & r & w' & Hrun & Hr & Hl & _); [done|].
    exists l, w'. split; [exact Hrun|].
    vm_compute in Hrun. injection Hrun as <- <-. split; reflexivity.
Defined.

(** C9. A call of [recommend_accommodation], whatever its outcome, leaves
    the data frames of the catalog as they were (its accommodation rows
    included) and leaves every dictionary that existed before the call as it
    was.  The dictionary it returns is a new object, and it carries
    [total_cost = cost_per_night * duration]; no other new dictionary has a
    [total_cost]. *)
Theorem recommend_accommodation_frame
    (user_preferences : UserPreferences) (destination_id : Z) (w : World) :
  let run := recommend_accommodation user_preferences destination_id w in
  w_catalog run.2 = w_catalog w
  ∧ (∀ l d, w_heap w !! l = Some d → w_heap run.2 !! l = Some d)
  ∧ (∀ l, run.1 = Ok l →
          length (w_heap w) ≤ l
          ∧ ∃ d, w_heap run.2 !! l = Some d
                 ∧ d_total_cost d
                   = Some (d_cost_per_night d
                           * inject_Z (up_duration user_preferences))%Q)
  ∧ (∀ l d, run.1 ≠ Ok l → length (w_heap w) ≤ l →
            w_heap run.2 !! l = Some d → d_total_cost d = None).
Proof.
  intros run. unfold run.
  destruct (recommend_accommodation_run user_preferences destination_id w)
    as [[_ Hrun]|[(_ & _ & Hrun)|(_ & _ & i & r & Hr & _ & Hrun)]];
    rewrite Hrun; simpl; (split; [reflexivity|]).
  - split; [intros l d Hl; by apply lookup_app_l_Some|]. split.
    + intros l [= <-]. split; [done|]. eexists. split.
      * rewrite lookup_app_r by done. by rewrite Nat.sub_diag.
      * reflexivity.
    + intros l d Hl Hle Hd.
      apply lookup_lt_Some in Hd as Hlt. rewrite length_app in Hlt.
      simpl in Hlt. contradict Hl. f_equal. lia.
  - split; [intros l d Hl; by apply lookup_app_l_Some|].
    split; [done|]. intros l d _ Hle Hd.
    rewrite lookup_app_r in Hd by done.
    apply list_lookup_fmap_Some in Hd as (r & -> & _). reflexivity.
  - assert (Hlen : (length (w_heap w) + i
                    < length (w_heap w ++ (row_dict <$> candidate_rows
                        (w_catalog w) user_preferences destination_id)))%nat).
    { rewrite length_app, length_fmap. apply lookup_lt_Some in Hr. lia. }
    split.
    { intros l d Hl. apply lookup_lt_Some in Hl as Hlt.
      rewrite list_lookup_insert_ne by lia. by apply lookup_app_l_Some. }
    split.
    + intros l [= <-]. split; [lia|]. eexists. split.
      * by apply list_lookup_insert_eq.
      * reflexivity.
    + intros l d Hl Hle Hd.
      rewrite list_lookup_insert_ne in Hd
        by (intros Heq; apply Hl; by rewrite Heq).
      rewrite lookup_app_r in Hd by done.
      apply list_lookup_fmap_Some in Hd as (r' & -> & _). reflexivity.
Qed.

(** * [recommend_transportation] *)

Lemma same_store_refl w : same_store w w.
Proof. by split. Qed.

Lemma same_store_advance w w' : same_store w w' → same_store w (advance w').
Proof. by intros [? ?]. Qed.

Lemma choice_run {A} (xs : list A) (w : World) :
  xs ≠ [] → ∃ x, x ∈ xs ∧ choice xs w = (Ok x, advance w).
Proof.
  intros Hxs. unfold choice. destruct xs as [|x0 xs]; [done|].
  rewrite run_bind. simpl draw. cbv beta iota.
  destruct (lookup_lt_is_Some_2 (x0 :: xs)
              (w_tape w (w_pos w) `mod` length (x0 :: xs))%nat) as [x Hx].
  { apply Nat.mod_upper_bound. discriminate. }
  exists x. split; [by eapply list_elem_of_lookup_2|].
  unfold draw. cbv beta iota. by rewrite Hx.
Qed.

Lemma filter_nil_inv {A} (f : A → bool) (l : list A) :
  List.filter f l = [] → ∀ x, x ∈ l → f x = false.
Proof.
  intros H x Hx. destruct (f x) eqn:E; [|reflexivity].
  assert (Hin : x ∈ List.filter f l) by by apply elem_of_filter.
  rewrite H in Hin. by apply not_elem_of_nil in Hin.
Qed.

Lemma get_transportation_by_mode_cases (mode : string) (w : World) :
  mode ≠ "Any" →
  (∃ t, t ∈ transportation_df (w_catalog w) ∧ tm_mode t = mode
        ∧ get_transportation_by_mode mode w = (Ok t, w))
  ∨ ((∀ t, t ∈ transportation_df (w_catalog w) → tm_mode t ≠ mode)
     ∧ get_transportation_by_mode mode w = (Raise IndexError, w)).
Proof.
  intros Hmode. unfold get_transportation_by_mode. rewrite run_bind.
  unfold gets. cbv beta iota.
  apply String.eqb_neq in Hmode. rewrite Hmode.
  destruct (List.filter (λ t, (tm_mode t =? mode)%string)
              (transportation_df (w_catalog w))) as [|t ts] eqn:Hfilter.
  - right. split; [|reflexivity]. intros t Ht.
    apply String.eqb_neq. by apply (filter_nil_inv _ _ Hfilter).
  - left. exists t. assert (Ht : t ∈ t :: ts) by apply list_elem_of_here.
    rewrite <- Hfilter in Ht. apply elem_of_filter in Ht as [Ht Heq].
    apply String.eqb_eq in Heq. by repeat split.
Qed.

Lemma transportation_record_cases origin destination transport distance_km w :
  ((¬ (tm_speed_km_h transport == 0)%Q)
   ∧ transportation_record origin destination transport distance_km w
     = (Ok {| tr_mode := tm_mode transport;
              tr_distance_km := distance_km;
              tr_cost :=
                (inject_Z distance_km * tm_typical_cost_per_km transport)%Q;
              tr_travel_time_hours :=
                (inject_Z distance_km / tm_speed_km_h transport)%Q;
              tr_details := "From " +:+ origin +:+ " to " +:+ destination
                            +:+ " via " +:+ tm_mode transport |}, w))
  ∨ ((tm_speed_km_h transport == 0)%Q
     ∧ transportation_record origin destination transport distance_km w
       = (Raise ZeroDivisionError, w)).
Proof.
  unfold transportation_record, py_truediv, lift. rewrite run_bind.
  destruct (Qeq_bool (tm_speed_km_h transport) 0) eqn:E.
  - right. split; [by apply Qeq_bool_iff|reflexivity].
  - left. split; [|reflexivity]. intros H. apply Qeq_bool_iff in H. congruence.
Qed.

(** The mode is looked up, and then the record is built. *)
Lemma lookup_and_record_cases user_preferences (mode : string)
    (distance_km : Z) (w : World) :
  mode ∈ requested_modes user_preferences → mode ≠ "Any" →
  let run :=
    (transport ← get_transportation_by_mode mode;
     transportation_record (up_origin user_preferences)
       (up_destination user_preferences) transport distance_km) w in
  (∃ tr t, run = (Ok tr, w)
           ∧ t ∈ transportation_df (w_catalog w) ∧ tm_mode t = mode
           ∧ ¬ (tm_speed_km_h t == 0)%Q
           ∧ transportation_of user_preferences t tr)
  ∨ (run = (Raise IndexError, w)
     ∧ ∀ t, t ∈ transportation_df (w_catalog w) → tm_mode t ≠ mode)
  ∨ (run = (Raise ZeroDivisionError, w)
     ∧ ∃ t, t ∈ transportation_df (w_catalog w) ∧ (tm_speed_km_h t == 0)%Q).
Proof.
  intros Hin Hmode run. unfold run. rewrite run_bind.
  destruct (get_transportation_by_mode_cases mode w Hmode)
    as [(t & Ht & Hmt & ->)|[Habsent ->]].
  - destruct (transportation_record_cases (up_origin user_preferences)
                (up_destination user_preferences) t distance_km w)
      as [[Hspeed ->]|[Hspeed ->]].
    + left. eexists _, t. split; [reflexivity|]. by repeat split.
    + right. right. split; [reflexivity|]. by exists t.
  - right. left. by split.
Qed.

Lemma randint_run (a b : Z) (w : World) :
  randint a b w
  = (Ok (a + Z.of_nat (w_tape w (w_pos w)) `mod` (b - a + 1))%Z, advance w).
Proof. reflexivity. Qed.

Lemma random_run (w : World) :
  random w = (Ok (Z.of_nat (w_tape w (w_pos w) `mod` 1000) # 1000), advance w).
Proof. reflexivity. Qed.

Lemma sampled_mode_requested (mode : string) :
  mode ∈ ["Plane"; "Train"; "Car"] ∨ mode ∈ ["Train"; "Bus"; "Car"] →
  mode ∈ ["Plane"; "Train"; "Bus"; "Car"] ∧ mode ≠ "Any".
Proof.
  intros [H|H]; repeat (apply elem_of_cons in H as [->|H]);
    try (by apply not_elem_of_nil in H);
    (split; [repeat first [apply list_elem_of_here|apply list_elem_of_further]
            |discriminate]).
Qed.

(** The outcomes of [recommend_transportation]: a record built from a row of
    a requested mode; [IndexError] when a requested mode has no row;
    [ZeroDivisionError] when the row has speed zero.  Only random numbers
    are consumed. *)
Lemma recommend_transportation_cases user_preferences (w : World) :
  let run := recommend_transportation user_preferences w in
  same_store w run.2
  ∧ ((∃ tr t, run.1 = Ok tr
              ∧ t ∈ transportation_df (w_catalog w)
              ∧ tm_mode t ∈ requested_modes user_preferences
              ∧ transportation_of user_preferences t tr)
     ∨ (run.1 = Raise IndexError
        ∧ ∃ mode, mode ∈ requested_modes user_preferences
                  ∧ ∀ t, t ∈ transportation_df (w_catalog w) →
                         tm_mode t ≠ mode)
     ∨ (run.1 = Raise ZeroDivisionError
        ∧ ∃ t, t ∈ transportation_df (w_catalog w)
               ∧ (tm_speed_km_h t == 0)%Q)).
Proof.
  unfold recommend_transportation, requested_modes.
  set (preferred_mode := default "Any" (up_transportation user_preferences)).
  destruct (negb (preferred_mode =? "Any")%string) eqn:Hpref.
  - apply negb_true_iff, String.eqb_neq in Hpref. cbv zeta.
    rewrite run_bind.
    destruct (get_transportation_by_mode_cases preferred_mode w Hpref)
      as [(t & Ht & Hmt & ->)|[Habsent ->]].
    + rewrite run_bind.
      assert (Hdraw : ∃ d,
        (if (preferred_mode =? "Plane")%string then randint 500 5000
         else if py_in preferred_mode ["Train"; "Bus"; "Car"]
              then randint 50 800 else randint 50 2000) w
        = (Ok d, advance w)).
      { repeat case_match; eexists; apply randint_run. }
      destruct Hdraw as [d ->].
      destruct (transportation_record_cases (up_origin user_preferences)
                  (up_destination user_preferences) t d (advance w))
        as [[Hspeed ->]|[Hspeed ->]]; simpl.
      * split; [by apply same_store_advance, same_store_refl|]. left.
        eexists _, t. split; [reflexivity|]. split; [exact Ht|].
        split; [rewrite Hmt; apply list_elem_of_here|]. by repeat split.
      * split; [by apply same_store_advance, same_store_refl|].
        right. right. split; [reflexivity|]. by exists t.
    + simpl. split; [apply same_store_refl|]. right. left.
      split; [reflexivity|]. exists preferred_mode.
      split; [apply list_elem_of_here|exact Habsent].
  - cbv zeta. rewrite run_bind, random_run.
    rewrite run_bind.
    set (r := (Z.of_nat (w_tape w (w_pos w) `mod` 1000) # 1000)).
    assert (Hdraw : ∃ d,
      (if py_lt r 0.7 then randint 1000 8000 else randint 50 800) (advance w)
      = (Ok d, advance (advance w))).
    { case_match; eexists; apply randint_run. }
    destruct Hdraw as [d ->]. rewrite run_bind.
    assert (Hmode : ∃ mode w1,
      (if (1000 <? d)%Z then mret "Plane"
       else if (300 <? d)%Z then choice ["Plane"; "Train"; "Car"]
            else choice ["Train"; "Bus"; "Car"]) (advance (advance w))
      = (Ok mode, w1)
      ∧ same_store w w1
      ∧ mode ∈ ["Plane"; "Train"; "Bus"; "Car"] ∧ mode ≠ "Any").
    { destruct (1000 <? d)%Z.
      - eexists _, _. split; [reflexivity|].
        split; [by do 2 apply same_store_advance; apply same_store_refl|].
        split; [apply list_elem_of_here|discriminate].
      - destruct (300 <? d)%Z.
        + destruct (choice_run ["Plane"; "Train"; "Car"]
                      (advance (advance w))) as (m & Hm & ->); [done|].
          eexists _, _. split; [reflexivity|].
          split; [by do 3 apply same_store_advance; apply same_store_refl|].
          apply sampled_mode_requested. by left.
        + destruct (choice_run ["Train"; "Bus"; "Car"]
                      (advance (advance w))) as (m & Hm & ->); [done|].
          eexists _, _. split; [reflexivity|].
          split; [by do 3 apply same_store_advance; apply same_store_refl|].
          apply sampled_mode_requested. by right. }
    destruct Hmode as (mode & w1 & -> & Hstore & Hin & Hany).
    assert (Hreq : mode ∈ requested_modes user_preferences).
    { unfold requested_modes. fold preferred_mode. by rewrite Hpref. }
    destruct Hstore as [Hcat Hheap].
    destruct (lookup_and_record_cases user_preferences mode d w1 Hreq Hany)
      as [(tr & t & Hrun & Ht & Hmt & _ & Hof)
         |[[Hrun Habsent]|(Hrun & t & Ht & Hspeed)]];
      cbv zeta in Hrun; rewrite Hrun; simpl; (split; [by split|]).
    + left. exists tr, t. split; [reflexivity|].
      split; [by rewrite <- Hcat|]. split; [by rewrite Hmt|exact Hof].
    + right. left. split; [reflexivity|]. exists mode.
      split; [exact Hin|]. by rewrite <- Hcat.
    + right. right. split; [reflexivity|]. exists t. by rewrite <- Hcat.
Qed.

(** C7 (amended). [recommend_transportation] returns a record (mode,
    distance, cost = distance * cost per km, travel time = distance / speed,
    details) whenever every mode it may look up (the preferred mode, or
    Plane, Train, Bus and Car when the preference is ["Any"] or absent) has a
    row in the catalog and no row has speed zero.  When the preferences name
    a mode that has no row, it raises [IndexError] and leaves the world as it
    was: there is no fallback to a sampled mode. *)
Theorem recommend_transportation_returns_or_not_found
    (user_preferences : UserPreferences) (w : World) :
  ((∀ t, t ∈ transportation_df (w_catalog w) → ¬ (tm_speed_km_h t == 0)%Q) →
   (∀ mode, mode ∈ requested_modes user_preferences →
            ∃ t, t ∈ transportation_df (w_catalog w) ∧ tm_mode t = mode) →
   ∃ tr t w',
     recommend_transportation user_preferences w = (Ok tr, w')
     ∧ t ∈ transportation_df (w_catalog w)
     ∧ tm_mode t ∈ requested_modes user_preferences
     ∧ transportation_of user_preferences t tr)
  ∧ (∀ mode,
       up_transportation user_preferences = Some mode → mode ≠ "Any" →
       (∀ t, t ∈ transportation_df (w_catalog w) → tm_mode t ≠ mode) →
       recommend_transportation user_preferences w = (Raise IndexError, w)).
Proof.
  split.
  - intros Hspeed Hmodes.
    destruct (recommend_transportation_cases user_preferences w)
      as [_ [(tr & t & Hrun & Ht & Hreq & Hof)
            |[(_ & mode & Hmode & Habsent)|(_ & t & Ht & Hzero)]]].
    + exists tr, t, (recommend_transportation user_preferences w).2.
      split; [|done].
      destruct (recommend_transportation user_preferences w) as [r w1].
      simpl in Hrun. by rewrite Hrun.
    + destruct (Hmodes mode Hmode) as (t & Ht & Hmt). by destruct (Habsent t Ht).
    + by destruct (Hspeed t Ht).
  - intros mode Hpref Hany Habsent. unfold recommend_transportation.
    cbv zeta. rewrite Hpref. change (default "Any" (Some mode)) with mode.
    apply String.eqb_neq in Hany as Hany'. rewrite Hany'. simpl negb.
    cbv iota. apply bind_raise.
    by destruct (get_transportation_by_mode_cases mode w Hany)
      as [(t & Ht & Hmt & _)|[_ ->]]; [destruct (Habsent t Ht)|].
Qed.

Lemma recommend_transportation_returns_or_not_found_witness :
  (∃ tr w',
     recommend_transportation
       (preferences "Paris, France" 7 2000 "Train" "Hotel" ["Sightseeing"])
       fixture_world = (Ok tr, w')
     ∧ tr_mode tr = "Train")
  ∧ recommend_transportation
      (preferences "Paris, France" 7 2000 "Teleport" "Hotel" ["Sightseeing"])
      fixture_world = (Raise IndexError, fixture_world).
Proof.
  split.
  - destruct (proj1 (recommend_transportation_returns_or_not_found
                (preferences "Paris, France" 7 2000 "Train" "Hotel"
                   ["Sightseeing"]) fixture_world))
      as (tr & t & w' & Hrun & _ & _ & _).
    + apply Forall_forall. repeat constructor; by intros [=].
    + intros mode Hmode. apply elem_of_cons in Hmode as [->|Hmode];
        [|by apply not_elem_of_nil in Hmode].
      eexists. split; [apply list_elem_of_further, list_elem_of_here|].
      reflexivity.
    + exists tr, w'. split; [exact Hrun|].
      vm_compute in Hrun. injection Hrun as <- _. reflexivity.
  - apply (proj2 (recommend_transportation_returns_or_not_found
                    (preferences "Paris, France" 7 2000 "Teleport" "Hotel"
                       ["Sightseeing"]) fixture_world) "Teleport");
      [reflexivity|discriminate|].
    apply Forall_forall. repeat constructor; discriminate.
Defined.

(** C7 as stated fails: with the mode ["Teleport"], which has no row in the
    transportation frame, [recommend_transportation] raises [IndexError] and
    returns no record. *)
Lemma recommend_transportation_may_fail :
  (recommend_transportation
     (preferences "Paris, France" 7 2000 "Teleport" "Hotel" ["Sightseeing"])
     fixture_world).1 = Raise IndexError
  ∧ ¬ ∃ tr w',
        recommend_transportation
          (preferences "Paris, France" 7 2000 "Teleport" "Hotel"
             ["Sightseeing"])
          fixture_world = (Ok tr, w').
Proof.
  split; [vm_compute; reflexivity|].
  intros (tr & w' & H). vm_compute in H. discriminate H.
Qed.

(** * A duration of zero *)

Lemma get_destination_by_name_cases (name : string) (w : World) :
  (∃ d, d ∈ destinations_df (w_catalog w) ∧ dest_name d = name
        ∧ get_destination_by_name name w = (Ok d, w))
  ∨ ((∀ d, d ∈ destinations_df (w_catalog w) → dest_name d ≠ name)
     ∧ get_destination_by_name name w = (Raise IndexError, w)).
Proof.
  unfold get_destination_by_name. rewrite run_bind.
  unfold gets. cbv beta iota.
  destruct (List.filter (λ d, (dest_name d =? name)%string)
              (destinations_df (w_catalog w))) as [|d ds] eqn:Hfilter.
  - right. split; [|reflexivity]. intros d Hd.
    apply String.eqb_neq. by apply (filter_nil_inv _ _ Hfilter).
  - left. exists d. assert (Hd : d ∈ d :: ds) by apply list_elem_of_here.
    rewrite <- Hfilter in Hd. apply elem_of_filter in Hd as [Hd Heq].
    apply String.eqb_eq in Heq. by repeat split.
Qed.

(** With a duration of zero, [recommend_accommodation] either divides the
    budget by zero, or (no candidate row) returns the generic dictionary,
    whose [total_cost] is [100 * 0]. *)
Lemma recommend_accommodation_zero_duration user_preferences destination_id w :
  up_duration user_preferences = 0%Z →
  (∃ w', recommend_accommodation user_preferences destination_id w
         = (Raise ZeroDivisionError, w'))
  ∨ (∃ l w' v, recommend_accommodation user_preferences destination_id w
               = (Ok l, w')
               ∧ load_total_cost l w' = (Ok v, w')).
Proof.
  intros Hzero.
  destruct (recommend_accommodation_run user_preferences destination_id w)
    as [[_ Hrun]|[(_ & _ & Hrun)|(_ & Hnonzero & _)]]; [| |done].
  - right. eexists _, _, _. split; [exact Hrun|].
    unfold load_total_cost, load. rewrite run_bind.
    change (w_heap (set_heap ?h _)) with h.
    rewrite lookup_app_r by done. rewrite Nat.sub_diag. reflexivity.
  - left. by eexists.
Qed.

(** C6 (amended). With a duration of zero, [generate_itinerary] returns no
    itinerary and computes no cost from a division by zero: it raises
    [IndexError] when the destination, or a transportation mode it looks up,
    is not in the catalog, and [ZeroDivisionError] otherwise.  The exception
    is the one of the failing operation; the duration is not checked. *)
Theorem zero_duration_raises
    (user_preferences : UserPreferences) (w : World) :
  up_duration user_preferences = 0%Z →
  ∃ e w',
    generate_itinerary user_preferences w = (Raise e, w')
    ∧ (e = ZeroDivisionError
       ∨ (e = IndexError
          ∧ ((∀ d, d ∈ destinations_df (w_catalog w) →
                   dest_name d ≠ up_destination user_preferences)
             ∨ ∃ mode, mode ∈ requested_modes user_preferences
                       ∧ ∀ t, t ∈ transportation_df (w_catalog w) →
                              tm_mode t ≠ mode))).
Proof.
  intros Hzero. unfold generate_itinerary. rewrite run_bind.
  destruct (get_destination_by_name_cases
              (up_destination user_preferences) w)
    as [(d & _ & _ & ->)|[Habsent ->]].
  2: { exists IndexError, w. split; [reflexivity|]. right. split; [done|].
       by left. }
  cbv zeta. rewrite run_bind.
  destruct (recommend_transportation_cases user_preferences w)
    as [_ Hcases].
  destruct (recommend_transportation user_preferences w) as [r w1].
  simpl in Hcases.
  destruct Hcases as [(tr & t & -> & _)
                     |[(-> & mode & Hmode & Hmabsent)|(-> & _)]].
  2: { exists IndexError, w1. split; [reflexivity|]. right. split; [done|].
       right. by exists mode. }
  2: { exists ZeroDivisionError, w1. split; [reflexivity|]. by left. }
  rewrite run_bind.
  destruct (recommend_accommodation_zero_duration user_preferences
              (dest_id d) w1 Hzero)
    as [(w2 & ->)|(l & w2 & v & -> & Hload)].
  { exists ZeroDivisionError, w2. split; [reflexivity|]. by left. }
  rewrite run_bind, Hload. rewrite run_bind. rewrite Hzero.
  exists ZeroDivisionError, w2. split; [reflexivity|]. by left.
Qed.

Lemma zero_duration_raises_witness :
  ∃ w',
    generate_itinerary
      (preferences "Paris, France" 0 2000 "Plane" "Hotel" ["Sightseeing"])
      fixture_world = (Raise ZeroDivisionError, w').
Proof.
  destruct (zero_duration_raises
              (preferences "Paris, France" 0 2000 "Plane" "Hotel"
                 ["Sightseeing"]) fixture_world eq_refl)
    as (e & w' & Hrun & _).
  exists w'. rewrite Hrun. f_equal.
  vm_compute in Hrun. by injection Hrun as <- _.
Defined.

(** C6 as stated fails: the duration is never checked.  With a duration of
    zero, [recommend_accommodation] at a destination without accommodation
    rows returns the generic dictionary with [total_cost = 0], and
    [generate_itinerary] fails only where the division itself is executed,
    with the [ZeroDivisionError] of that division: after the transportation
    has been drawn (one number was read from the random source) and the
    accommodation dictionaries have been allocated. *)
Lemma zero_duration_is_not_rejected :
  (∃ l w',
     recommend_accommodation
       (preferences "Nowhere" 0 2000 "Plane" "Hotel" ["Sightseeing"])
       99 fixture_world = (Ok l, w')
     ∧ (d_total_cost <$> w_heap w' !! l) = Some (Some (100 * inject_Z 0)%Q))
  ∧ (∃ w',
       generate_itinerary
         (preferences "Paris, France" 0 2000 "Plane" "Hotel" ["Sightseeing"])
         fixture_world = (Raise ZeroDivisionError, w')
       ∧ w_pos w' = 1%nat ∧ length (w_heap w') = 3%nat).
Proof.
  split.
  - eexists _, _. split; [vm_compute; reflexivity|]. reflexivity.
  - eexists. split; [vm_compute; reflexivity|]. by split.
Qed.

(** * Middle days *)

Lemma slot_run (activities : list Activity) (filler : Slot) (w : World) :
  ∃ chosen slot w1,
    (if negb (is_empty activities) then pick_activity activities
     else mret (None, filler)) w = (Ok (chosen, slot), w1)
    ∧ (activities = [] → chosen = None ∧ slot = filler).
Proof.
  destruct activities as [|a activities].
  - by eexists _, _, _.
  - change (negb (is_empty (a :: activities))) with true. cbv iota.
    unfold pick_activity. rewrite run_bind.
    destruct (choice_run (take (3 `min` length (a :: activities))
                            (a :: activities)) w) as (x & _ & ->);
      [done|].
    by eexists _, _, _.
Qed.

Lemma read_local_some {A} (a : A) (w : World) :
  read_local (Some a) w = (Ok a, w).
Proof. reflexivity. Qed.

(** On a day that is neither the first nor the last, a plan with a filler
    slot is never returned: the title reads the activity variable of each
    period, and the variable of a period with a filler is unbound. *)
Lemma middle_day_with_filler_raises user_preferences destination_id
    day_number daily_budget (w : World) (destination : Destination) :
  get_destination_by_id destination_id w = (Ok destination, w) →
  day_number ≠ 1%Z → day_number ≠ up_duration user_preferences →
  (recommend_activities user_preferences destination_id
     (period_constraints "morning" (daily_budget * 0.3)) w).1 = Ok []
  ∨ (recommend_activities user_preferences destination_id
       (period_constraints "afternoon" (daily_budget * 0.4)) w).1 = Ok []
  ∨ (recommend_activities user_preferences destination_id
       (period_constraints "evening" (daily_budget * 0.3)) w).1 = Ok [] →
  ∃ w', recommend_daily_plan user_preferences destination_id day_number
          daily_budget w = (Raise UnboundLocalError, w').
Proof.
  intros Hdest Hfirst Hlast Hfiller. unfold recommend_daily_plan.
  cbv zeta. rewrite run_bind, Hdest.
  destruct (recommend_activities_run user_preferences destination_id
              (period_constraints "morning" (daily_budget * 0.3)) w)
    as (cm & Hm & _).
  destruct (recommend_activities_run user_preferences destination_id
              (period_constraints "afternoon" (daily_budget * 0.4)) w)
    as (ca & Ha & _).
  destruct (recommend_activities_run user_preferences destination_id
              (period_constraints "evening" (daily_budget * 0.3)) w)
    as (ce & He & _).
  rewrite Hm, Ha, He in Hfiller. simpl in Hfiller.
  rewrite run_bind, Hm, run_bind, Ha, run_bind, He.
  simpl default in *.
  set (lm := take 3 (py_sort activity_key tuple_lt true cm)) in *.
  set (la := take 3 (py_sort activity_key tuple_lt true ca)) in *.
  set (le := take 3 (py_sort activity_key tuple_lt true ce)) in *.
  rewrite run_bind.
  match goal with
  | |- context [(if negb (is_empty lm) then _ else mret (None, ?f)) w] =>
      destruct (slot_run lm f w) as (chm & sm & w1 & -> & Hchm)
  end.
  rewrite run_bind.
  match goal with
  | |- context [(if negb (is_empty la) then _ else mret (None, ?f)) w1] =>
      destruct (slot_run la f w1) as (cha & sa & w2 & -> & Hcha)
  end.
  rewrite run_bind.
  match goal with
  | |- context [(if negb (is_empty le) then _ else mret (None, ?f)) w2] =>
      destruct (slot_run le f w2) as (che & se & w3 & -> & Hche)
  end.
  rewrite run_bind.
  apply Z.eqb_neq in Hfirst, Hlast. rewrite Hfirst, Hlast.
  rewrite run_bind.
  destruct chm as [am|]; [|by eexists].
  rewrite read_local_some, run_bind.
  destruct cha as [aa|]; [|by eexists].
  rewrite read_local_some, run_bind.
  destruct che as [ae|]; [|by eexists].
  exfalso. destruct Hfiller as [[= H]|[[= H]|[= H]]].
  - by destruct (Hchm H).
  - by destruct (Hcha H).
  - by destruct (Hche H).
Qed.

(** On the first and on the last day the plan is returned, with the filler
    of each period whose query is empty: cost 0 in the morning, half the
    morning budget in the afternoon, half the evening budget in the
    evening. *)
Lemma edge_day_returns user_preferences destination_id day_number
    daily_budget (w : World) (destination : Destination) :
  get_destination_by_id destination_id w = (Ok destination, w) →
  day_number = 1%Z ∨ day_number = up_duration user_preferences →
  ∃ plan w',
    recommend_daily_plan user_preferences destination_id day_number
      daily_budget w = (Ok plan, w')
    ∧ ((recommend_activities user_preferences destination_id
          (period_constraints "morning" (daily_budget * 0.3)) w).1 = Ok [] →
       slot_cost (dp_morning plan) = 0%Q)
    ∧ ((recommend_activities user_preferences destination_id
          (period_constraints "afternoon" (daily_budget * 0.4)) w).1 = Ok [] →
       slot_cost (dp_afternoon plan) = (daily_budget * 0.3 / 2)%Q)
    ∧ ((recommend_activities user_preferences destination_id
          (period_constraints "evening" (daily_budget * 0.3)) w).1 = Ok [] →
       slot_cost (dp_evening plan) = (daily_budget * 0.3 / 2)%Q).
Proof.
  intros Hdest Hday. unfold recommend_daily_plan.
  cbv zeta. rewrite run_bind, Hdest.
  destruct (recommend_activities_run user_preferences destination_id
              (period_constraints "morning" (daily_budget * 0.3)) w)
    as (cm & Hm & _).
  destruct (recommend_activities_run user_preferences destination_id
              (period_constraints "afternoon" (daily_budget * 0.4)) w)
    as (ca & Ha & _).
  destruct (recommend_activities_run user_preferences destination_id
              (period_constraints "evening" (daily_budget * 0.3)) w)
    as (ce & He & _).
  rewrite Hm, Ha, He. simpl fst.
  rewrite run_bind, Hm, run_bind, Ha, run_bind, He.
  simpl default in *.
  set (lm := take 3 (py_sort activity_key tuple_lt true cm)) in *.
  set (la := take 3 (py_sort activity_key tuple_lt true ca)) in *.
  set (le := take 3 (py_sort activity_key tuple_lt true ce)) in *.
  rewrite run_bind.
  match goal with
  | |- context [(if negb (is_empty lm) then _ else mret (None, ?f)) w] =>
      destruct (slot_run lm f w) as (chm & sm & w1 & -> & Hchm)
  end.
  rewrite run_bind.
  match goal with
  | |- context [(if negb (is_empty la) then _ else mret (None, ?f)) w1] =>
      destruct (slot_run la f w1) as (cha & sa & w2 & -> & Hcha)
  end.
  rewrite run_bind.
  match goal with
  | |- context [(if negb (is_empty le) then _ else mret (None, ?f)) w2] =>
      destruct (slot_run le f w2) as (che & se & w3 & -> & Hche)
  end.
  rewrite run_bind.
  destruct Hday as [Hday|Hday].
  - apply Z.eqb_eq in Hday. rewrite Hday.
    eexists _, _. split; [reflexivity|]. simpl.
    split; [|split]; intros [= H].
    + by destruct (Hchm H) as [_ ->].
    + by destruct (Hcha H) as [_ ->].
    + by destruct (Hche H) as [_ ->].
  - apply Z.eqb_eq in Hday. rewrite Hday.
    destruct (day_number =? 1)%Z;
      (eexists _, _; split; [reflexivity|]; simpl;
       split; [|split]; intros [= H];
       [by destruct (Hchm H) as [_ ->]
       |by destruct (Hcha H) as [_ ->]
       |by destruct (Hche H) as [_ ->]]).
Qed.

(** When [generate_itinerary] returns, its daily plans are as many as the
    days of the trip. *)
Lemma for_each_length {A B} (f : A → M B) (xs : list A) w ys w' :
  for_each f xs w = (Ok ys, w') → length ys = length xs.
Proof.
  revert w ys w'. induction xs as [|x xs IH]; intros w ys w' H.
  - apply ret_ok_inv in H as [<- _]. reflexivity.
  - simpl in H. bind_inv H. bind_inv H.
    apply ret_ok_inv in H as [<- _]. simpl. f_equal. by eapply IH.
Qed.

Lemma returned_daily_plans_length user_preferences w it w' :
  generate_itinerary user_preferences w = (Ok it, w') →
  length (it_daily_plan it) = Z.to_nat (up_duration user_preferences).
Proof.
  unfold generate_itinerary. intros H. do 8 bind_inv H.
  apply ret_ok_inv in H as [<- _]. simpl.
  apply for_each_length in Hrun4. rewrite Hrun4.
  unfold py_range. rewrite length_seqZ. f_equal. lia.
Qed.

(** * The fixtures at work *)

Example ranking_of_paris_activities :
  let user_preferences :=
    preferences "Paris, France" 3 2000 "Plane" "Hotel"
      ["Sightseeing"; "Cultural & Historical"] in
  (λ activities : list Activity, act_id <$> activities) <$>
    returned (recommend_activities user_preferences 1 None fixture_world)
  = Some [161; 162; 2; 163; 15; 1]%Z.
Proof. vm_compute. reflexivity. Qed.

Example selection_leaves_the_rows_alone :
  let user_preferences :=
    preferences "Paris, France" 3 2000 "Plane" "Hotel" ["Sightseeing"] in
  let run := recommend_accommodation user_preferences 1 fixture_world in
  run.1 = Ok 1%nat
  ∧ w_catalog run.2 = fixture_catalog
  ∧ (d_total_cost <$> w_heap run.2) = [None; Some 540%Q; None].
Proof. vm_compute. by repeat split. Qed.

Example daily_plans_of_two_days :
  let user_preferences :=
    preferences "Paris, France" 2 2000 "Plane" "Hotel"
      ["Cultural & Historical"] in
  (λ it, dp_title <$> it_daily_plan it) <$>
    returned (generate_itinerary user_preferences fixture_world)
  = Some ["Welcome to Paris, France"; "Final Day in Paris, France"].
Proof. vm_compute. reflexivity. Qed.

(** * Distances and modes of [recommend_transportation] *)

Tactic Notation "bind_inv" hyp(H) "as" ident(a) ident(w) ident(Ha) :=
  apply bind_ok_inv in H as (a & w & Ha & H); cbv beta zeta in H.

Lemma py_in_true (x : string) (xs : list string) : py_in x xs = true ↔ x ∈ xs.
Proof.
  unfold py_in. rewrite existsb_exists. split.
  - intros (y & Hy & Heq). apply String.eqb_eq in Heq as ->.
    by apply list_elem_of_In.
  - intros Hx. exists x. split; [by apply list_elem_of_In|apply String.eqb_refl].
Qed.

Lemma py_in_false (x : string) (xs : list string) : py_in x xs = false ↔ x ∉ xs.
Proof.
  rewrite <- not_true_iff_false, py_in_true. reflexivity.
Qed.

Lemma randint_range (a b : Z) (w w1 : World) (d : Z) :
  (a <= b)%Z → randint a b w = (Ok d, w1) →
  (a <= d <= b)%Z ∧ w1 = advance w.
Proof.
  intros Hab. rewrite randint_run. intros [= <- <-]. split; [|reflexivity].
  pose proof (Z.mod_pos_bound (Z.of_nat (w_tape w (w_pos w))) (b - a + 1)).
  lia.
Qed.

Lemma get_transportation_by_mode_ok_inv mode w t w1 :
  mode ≠ "Any" → get_transportation_by_mode mode w = (Ok t, w1) →
  t ∈ transportation_df (w_catalog w) ∧ tm_mode t = mode ∧ w1 = w.
Proof.
  intros Hmode H.
  destruct (get_transportation_by_mode_cases mode w Hmode)
    as [(t' & Ht & Hmt & Hrun)|[_ Hrun]]; rewrite Hrun in H.
  - by injection H as <- <-.
  - discriminate H.
Qed.

Lemma transportation_record_ok_inv origin destination t distance_km w tr w1 :
  transportation_record origin destination t distance_km w = (Ok tr, w1) →
  tr_mode tr = tm_mode t ∧ tr_distance_km tr = distance_km ∧ w1 = w.
Proof.
  intros H.
  destruct (transportation_record_cases origin destination t distance_km w)
    as [[_ Hrun]|[_ Hrun]]; rewrite Hrun in H.
  - by injection H as <- <-.
  - discriminate H.
Qed.

(** X1. With a preferred mode other than ["Any"], a returned record has that
    mode, and its distance was drawn in the range of the mode: 500 to 5000 km
    for Plane, 50 to 800 km for Train, Bus and Car, 50 to 2000 km for any
    other mode.  Exactly one random number was consumed. *)
Theorem preferred_mode_and_distance
    (user_preferences : UserPreferences) (mode : string) (w w' : World)
    (tr : Transportation) :
  up_transportation user_preferences = Some mode → mode ≠ "Any" →
  recommend_transportation user_preferences w = (Ok tr, w') →
  tr_mode tr = mode
  ∧ (mode = "Plane" → 500 <= tr_distance_km tr <= 5000)%Z
  ∧ (mode ∈ ["Train"; "Bus"; "Car"] → 50 <= tr_distance_km tr <= 800)%Z
  ∧ (mode ∉ ["Plane"; "Train"; "Bus"; "Car"] →
     50 <= tr_distance_km tr <= 2000)%Z
  ∧ w' = advance w.
Proof.
  intros Hpref Hany H. unfold recommend_transportation in H.
  cbv zeta in H. rewrite Hpref in H.
  change (default "Any" (Some mode)) with mode in H.
  apply String.eqb_neq in Hany as Hany'. rewrite Hany' in H.
  simpl negb in H. cbv iota in H.
  bind_inv H as t w1 Ht.
  apply get_transportation_by_mode_ok_inv in Ht as (_ & Hmt & ->);
    [|exact Hany].
  bind_inv H as d w1 Hrun0.
  apply transportation_record_ok_inv in H as (Hm & Hd & ->).
  rewrite Hm, Hmt, Hd. split; [reflexivity|].
  destruct (mode =? "Plane")%string eqn:Hplane.
  - apply String.eqb_eq in Hplane as ->.
    apply randint_range in Hrun0 as [Hrange ->]; [|done].
    split; [done|]. split; [|split; [|reflexivity]].
    + intros Hin. repeat (apply elem_of_cons in Hin as [[=]|Hin]).
      by apply not_elem_of_nil in Hin.
    + intros Hnot. contradict Hnot. apply list_elem_of_here.
  - apply String.eqb_neq in Hplane.
    destruct (py_in mode ["Train"; "Bus"; "Car"]) eqn:Hground.
    + apply py_in_true in Hground.
      apply randint_range in Hrun0 as [Hrange ->]; [|done].
      split; [done|]. split; [done|]. split; [|reflexivity].
      intros Hnot. contradict Hnot. by apply list_elem_of_further.
    + apply py_in_false in Hground.
      apply randint_range in Hrun0 as [Hrange ->]; [|done].
      split; [done|]. split; [done|]. split; [done|reflexivity].
Qed.

Lemma preferred_mode_and_distance_witness :
  ∃ tr w',
    recommend_transportation
      (preferences "Paris, France" 7 2000 "Plane" "Hotel" ["Sightseeing"])
      fixture_world = (Ok tr, w')
    ∧ tr_mode tr = "Plane"
    ∧ (500 <= tr_distance_km tr <= 5000)%Z.
Proof.
  destruct (recommend_transportation
              (preferences "Paris, France" 7 2000 "Plane" "Hotel"
                 ["Sightseeing"]) fixture_world) as [[tr|e] w'] eqn:E.
  - exists tr, w'. split; [reflexivity|].
    destruct (preferred_mode_and_distance
                (preferences "Paris, France" 7 2000 "Plane" "Hotel"
                   ["Sightseeing"]) "Plane" fixture_world w' tr eq_refl
                ltac:(discriminate) E) as (Hm & Hd & _).
    split; [exact Hm|]. by apply Hd.
  - vm_compute in E. discriminate E.
Defined.

(** X2. With the preference ["Any"] (or none), a returned record has a
    distance between 50 and 800 km or between 1000 and 8000 km, and a mode
    chosen by the distance: Plane above 1000 km; Plane, Train or Car above
    300 km and up to 1000 km; Train, Bus or Car up to 300 km. *)
Theorem sampled_mode_follows_distance
    (user_preferences : UserPreferences) (w w' : World) (tr : Transportation) :
  default "Any" (up_transportation user_preferences) = "Any" →
  recommend_transportation user_preferences w = (Ok tr, w') →
  ((50 <= tr_distance_km tr <= 800)%Z ∨ (1000 <= tr_distance_km tr <= 8000)%Z)
  ∧ ((1000 < tr_distance_km tr)%Z → tr_mode tr = "Plane")
  ∧ ((300 < tr_distance_km tr <= 1000)%Z →
     tr_mode tr ∈ ["Plane"; "Train"; "Car"])
  ∧ ((tr_distance_km tr <= 300)%Z → tr_mode tr ∈ ["Train"; "Bus"; "Car"]).
Proof.
  intros Hpref H. unfold recommend_transportation in H.
  cbv zeta in H. rewrite Hpref in H. simpl negb in H. cbv iota in H.
  bind_inv H as a w1 Hrun. bind_inv H as a0 w2 Hrun0.
  bind_inv H as a1 w3 Hrun1. bind_inv H as t w4 Hrun2.
  apply transportation_record_ok_inv in H as (Hm & Hd & ->).
  rewrite Hd.
  assert (Hrange : (50 <= a0 <= 800)%Z ∨ (1000 <= a0 <= 8000)%Z).
  { destruct (py_lt a 0.7).
    - right. by apply randint_range in Hrun0 as [? _].
    - left. by apply randint_range in Hrun0 as [? _]. }
  split; [exact Hrange|].
  assert (Hmode : tr_mode tr = a1).
  { rewrite Hm.
    assert (Hany : a1 ≠ "Any").
    { destruct (1000 <? a0)%Z; [apply ret_ok_inv in Hrun1 as [<- _]; discriminate|].
      destruct (300 <? a0)%Z; apply choice_ok_inv in Hrun1;
        (apply sampled_mode_requested; tauto). }
    by apply get_transportation_by_mode_ok_inv in Hrun2 as (_ & ? & _). }
  rewrite Hmode.
  destruct (1000 <? a0)%Z eqn:Hlong.
  - apply Z.ltb_lt in Hlong. apply ret_ok_inv in Hrun1 as [<- _].
    split; [done|]. split; intros; lia.
  - apply Z.ltb_ge in Hlong. destruct (300 <? a0)%Z eqn:Hmid.
    + apply Z.ltb_lt in Hmid. apply choice_ok_inv in Hrun1.
      split; [lia|]. split; [done|lia].
    + apply Z.ltb_ge in Hmid. apply choice_ok_inv in Hrun1.
      split; [lia|]. split; [lia|done].
Qed.

Lemma sampled_mode_follows_distance_witness :
  ∃ tr w',
    recommend_transportation
      (preferences "Paris, France" 7 2000 "Any" "Hotel" ["Sightseeing"])
      fixture_world = (Ok tr, w')
    ∧ ((1000 < tr_distance_km tr)%Z → tr_mode tr = "Plane").
Proof.
  destruct (recommend_transportation
              (preferences "Paris, France" 7 2000 "Any" "Hotel"
                 ["Sightseeing"]) fixture_world) as [[tr|e] w'] eqn:E.
  - exists tr, w'. split; [reflexivity|].
    by destruct (sampled_mode_follows_distance
                   (preferences "Paris, France" 7 2000 "Any" "Hotel"
                      ["Sightseeing"]) fixture_world w' tr eq_refl E)
      as (_ & H & _).
  - vm_compute in E. discriminate E.
Defined.

Lemma created_modes (mode : string) :
  mode ∈ ["Plane"; "Train"; "Bus"; "Car"] →
  ∃ t, t ∈ create_transportation_data ∧ tm_mode t = mode.
Proof.
  intros H. apply list_elem_of_In in H. simpl in H.
  destruct H as [<-|[<-|[<-|[<-|[]]]]]; eexists; split.
  - apply list_elem_of_here.
  - reflexivity.
  - apply list_elem_of_further, list_elem_of_here.
  - reflexivity.
  - do 2 apply list_elem_of_further. apply list_elem_of_here.
  - reflexivity.
  - do 3 apply list_elem_of_further. apply list_elem_of_here.
  - reflexivity.
Qed.

(** X3. With the transportation table the data manager creates, every
    transportation option of the form (Plane, Train, Bus, Car, Any) is
    resolved: [recommend_transportation] returns a record, whatever the
    random source gives. *)
Theorem offered_modes_resolve
    (user_preferences : UserPreferences) (w : World) :
  transportation_df (w_catalog w) = create_transportation_data →
  default "Any" (up_transportation user_preferences)
    ∈ ["Plane"; "Train"; "Bus"; "Car"; "Any"] →
  ∃ tr w', recommend_transportation user_preferences w = (Ok tr, w').
Proof.
  intros Htable Hoffered.
  assert (Hreq : ∀ mode, mode ∈ requested_modes user_preferences →
                         mode ∈ ["Plane"; "Train"; "Bus"; "Car"]).
  { intros mode. unfold requested_modes.
    destruct (negb (_ =? "Any")%string) eqn:Hany; [|done].
    apply negb_true_iff, String.eqb_neq in Hany.
    intros ->%list_elem_of_singleton.
    repeat (apply elem_of_cons in Hoffered as [Heq|Hoffered];
            [rewrite Heq;
             repeat first [apply list_elem_of_here|apply list_elem_of_further]|]).
    - by rewrite Heq in Hany.
    - by apply not_elem_of_nil in Hoffered. }
  destruct (recommend_transportation_cases user_preferences w)
    as [_ [(tr & t & Hrun & _)
          |[(_ & mode & Hmode & Habsent)|(_ & t & Ht & Hzero)]]].
  - exists tr, (recommend_transportation user_preferences w).2.
    destruct (recommend_transportation user_preferences w) as [r w1].
    simpl in Hrun. by rewrite Hrun.
  - exfalso. rewrite Htable in Habsent. apply Hreq in Hmode.
    destruct (created_modes mode Hmode) as (t & Ht & Hmt).
    by apply (Habsent t Ht).
  - exfalso. rewrite Htable in Ht.
    repeat (apply elem_of_cons in Ht as [->|Ht]; [by vm_compute in Hzero|]).
    by apply not_elem_of_nil in Ht.
Qed.

Lemma offered_modes_resolve_witness :
  ∃ tr w',
    recommend_transportation
      (preferences "Paris, France" 7 2000 "Bus" "Hotel" ["Sightseeing"])
      fixture_world = (Ok tr, w').
Proof.
  apply offered_modes_resolve; [reflexivity|].
  apply list_elem_of_further, list_elem_of_further, list_elem_of_here.
Defined.

(** * More on [recommend_accommodation] *)

Lemma rows_at_destination cat destination_id r :
  r ∈ rows_at cat destination_id →
  r ∈ accommodations_df cat ∧ acc_destination_id r = destination_id.
Proof.
  unfold rows_at. intros [Hr Hd]%elem_of_filter.
  split; [exact Hr|]. by apply Z.eqb_eq.
Qed.

Lemma rows_of_type_destination cat destination_id ty r :
  r ∈ rows_of_type cat destination_id ty →
  r ∈ accommodations_df cat ∧ acc_destination_id r = destination_id
  ∧ (ty ≠ "Any" → acc_type r = ty).
Proof.
  unfold rows_of_type. destruct (ty =? "Any")%string eqn:Hany.
  - apply String.eqb_eq in Hany. intros [Hr Hd]%rows_at_destination.
    by repeat split.
  - intros [Hr [Hd Ht]%andb_prop]%elem_of_filter.
    split; [exact Hr|]. split; [by apply Z.eqb_eq|].
    intros _. by apply String.eqb_eq.
Qed.

Lemma rows_of_type_present cat destination_id ty r :
  r ∈ accommodations_df cat → acc_destination_id r = destination_id →
  acc_type r = ty → r ∈ rows_of_type cat destination_id ty.
Proof.
  intros Hr Hd Ht. unfold rows_of_type, rows_at.
  destruct (ty =? "Any")%string; apply elem_of_filter; (split; [exact Hr|]).
  - by apply Z.eqb_eq.
  - apply andb_true_intro. split; [by apply Z.eqb_eq|by apply String.eqb_eq].
Qed.

Lemma candidate_rows_destination cat user_preferences destination_id r :
  r ∈ candidate_rows cat user_preferences destination_id →
  r ∈ accommodations_df cat ∧ acc_destination_id r = destination_id.
Proof.
  unfold candidate_rows. destruct (is_empty _).
  - apply rows_at_destination.
  - intros (Hr & Hd & _)%rows_of_type_destination. by split.
Qed.

(** X4. For a duration other than zero and a destination with
    accommodation rows, the returned dictionary is the copy of a row of that
    destination; and when the preferences name a type of which the
    destination has a row, the returned dictionary has that type. *)
Theorem preferred_type_is_honoured
    (user_preferences : UserPreferences) (destination_id : Z) (w : World) :
  up_duration user_preferences ≠ 0%Z →
  rows_at (w_catalog w) destination_id ≠ [] →
  ∃ l d w',
    recommend_accommodation user_preferences destination_id w = (Ok l, w')
    ∧ w_heap w' !! l = Some d
    ∧ d_destination_id d = Some destination_id
    ∧ ∀ ty r,
        up_accommodation user_preferences = Some ty → ty ≠ "Any" →
        r ∈ accommodations_df (w_catalog w) →
        acc_destination_id r = destination_id → acc_type r = ty →
        d_type d = ty.
Proof.
  intros Hduration Hrows.
  pose proof (candidate_rows_nonempty _ user_preferences _ Hrows) as Hne.
  destruct (recommend_accommodation_run user_preferences destination_id w)
    as [[Hnil _]|[(_ & Hzero & _)|(_ & _ & i & r & Hr & _ & Hrun)]];
    [done|done|].
  eexists _, _, _. split; [exact Hrun|]. split.
  { simpl. apply list_lookup_insert_eq.
    rewrite length_app, length_fmap. apply lookup_lt_Some in Hr. lia. }
  apply list_elem_of_lookup_2 in Hr as Hin. split.
  - simpl. f_equal. by apply candidate_rows_destination in Hin as [_ ?].
  - intros ty r' Hty Hany Hr' Hd' Ht'. simpl.
    unfold candidate_rows in Hin. rewrite Hty in Hin. simpl in Hin.
    pose proof (rows_of_type_present _ _ _ _ Hr' Hd' Ht') as Hpresent.
    destruct (rows_of_type (w_catalog w) destination_id ty) as [|r0 rs] eqn:E;
      [by apply not_elem_of_nil in Hpresent|].
    simpl in Hin. rewrite <- E in Hin.
    by apply rows_of_type_destination in Hin as (_ & _ & ->).
Qed.

Lemma preferred_type_is_honoured_witness :
  ∃ l d w',
    recommend_accommodation
      (preferences "Paris, France" 3 2000 "Plane" "Airbnb" ["Sightseeing"])
      1 fixture_world = (Ok l, w')
    ∧ w_heap w' !! l = Some d
    ∧ d_type d = "Airbnb".
Proof.
  destruct (preferred_type_is_honoured
              (preferences "Paris, France" 3 2000 "Plane" "Airbnb"
                 ["Sightseeing"]) 1 fixture_world)
    as (l & d & w' & Hrun & Hl & _ & Hty); [done|done|].
  exists l, d, w'. split; [exact Hrun|]. split; [exact Hl|].
  apply (Hty "Airbnb"
           (accommodation 1 "Airbnb Apartment in Paris, France" "Airbnb" 150
              4.5 ["WiFi"; "Kitchen"; "Washer"; "Air Conditioning"]
              ["Solo"; "Couple"; "Family"; "Friends"] 4));
    [reflexivity|discriminate| |reflexivity|reflexivity].
  do 3 apply list_elem_of_further. apply list_elem_of_here.
Defined.

(** X5. At a destination without accommodation rows,
    [recommend_accommodation] returns a new generic dictionary: name "Local
    Accommodation", the preferred type (Hotel when the preference is "Any"
    or absent), 100 per night and [total_cost = 100 * duration].  No division
    is made: this holds for a duration of zero too. *)
Theorem generic_accommodation_without_rows
    (user_preferences : UserPreferences) (destination_id : Z) (w : World) :
  rows_at (w_catalog w) destination_id = [] →
  ∃ d,
    recommend_accommodation user_preferences destination_id w
    = (Ok (length (w_heap w)), set_heap (w_heap w ++ [d]) w)
    ∧ d_name d = "Local Accommodation"
    ∧ d_type d
      = (if (default "Any" (up_accommodation user_preferences) =? "Any")%string
         then "Hotel"
         else default "Any" (up_accommodation user_preferences))
    ∧ d_cost_per_night d = 100%Q
    ∧ d_total_cost d
      = Some (100 * inject_Z (up_duration user_preferences))%Q.
Proof.
  intros Hrows.
  assert (Hnil : candidate_rows (w_catalog w) user_preferences destination_id
                 = []).
  { unfold candidate_rows. destruct (is_empty _) eqn:E; [exact Hrows|].
    apply is_empty_false in E.
    destruct (rows_of_type _ _ _) as [|r rs] eqn:Hty; [done|].
    assert (Hr : r ∈ rows_of_type (w_catalog w) destination_id
                   (default "Any" (up_accommodation user_preferences)))
      by (rewrite Hty; apply list_elem_of_here).
    apply rows_of_type_destination in Hr as (Hr & Hd & _).
    assert (Hin : r ∈ rows_at (w_catalog w) destination_id).
    { apply elem_of_filter. split; [exact Hr|]. by apply Z.eqb_eq. }
    rewrite Hrows in Hin. by apply not_elem_of_nil in Hin. }
  destruct (recommend_accommodation_run user_preferences destination_id w)
    as [[_ Hrun]|[(Hne & _)|(Hne & _)]]; [|done|done].
  eexists. split; [exact Hrun|]. simpl.
  by destruct (_ =? "Any")%string.
Qed.

Lemma generic_accommodation_without_rows_witness :
  ∃ d w',
    recommend_accommodation
      (preferences "Nowhere" 0 2000 "Plane" "Any" ["Sightseeing"])
      99 fixture_world = (Ok 0%nat, w')
    ∧ w_heap w' = [d]
    ∧ d_type d = "Hotel"
    ∧ d_total_cost d = Some (100 * inject_Z 0)%Q.
Proof.
  destruct (generic_accommodation_without_rows
              (preferences "Nowhere" 0 2000 "Plane" "Any" ["Sightseeing"])
              99 fixture_world eq_refl)
    as (d & Hrun & _ & Hty & _ & Htotal).
  exists d, (set_heap [d] fixture_world).
  split; [exact Hrun|]. split; [reflexivity|]. by split.
Defined.

(** * More on [recommend_activities] *)

Lemma take_nonempty {A} (n : nat) (l : list A) :
  n ≠ 0%nat → l ≠ [] → take n l ≠ [].
Proof. by destruct n, l. Qed.

Lemma py_sort_nonempty {A K} (key : A → K) (klt : K → K → bool) reverse l :
  l ≠ [] → py_sort key klt reverse l ≠ [].
Proof.
  intros Hl Hnil. pose proof (py_sort_perm key klt reverse l) as Hperm.
  rewrite Hnil in Hperm. by apply Permutation_nil_l in Hperm.
Qed.

(** The candidates of [recommend_activities], filter by filter. *)
Lemma recommend_activities_candidates
    user_preferences destination_id constraints w :
  ∃ candidates,
    recommend_activities user_preferences destination_id constraints w
    = (Ok (take (default 10%nat
                   (c_max_results (default no_constraints constraints)))
             (py_sort activity_key tuple_lt true candidates)), w)
    ∧ (∀ a, a ∈ candidates →
            a ∈ activities_df (w_catalog w)
            ∧ act_destination_id a = destination_id)
    ∧ (∀ a, a ∈ candidates →
            match c_time_of_day (default no_constraints constraints) with
            | Some time_of_day =>
                (time_of_day = "morning" → act_morning_suitable a = true)
                ∧ (time_of_day = "afternoon" →
                   act_afternoon_suitable a = true)
                ∧ (time_of_day = "evening" → act_evening_suitable a = true)
            | None => True
            end)
    ∧ ((∃ b, b ∈ activities_df (w_catalog w)
             ∧ act_destination_id b = destination_id
             ∧ act_category b ∈ up_activities user_preferences) →
       ∀ a, a ∈ candidates →
            act_category a ∈ up_activities user_preferences)
    ∧ (c_time_of_day (default no_constraints constraints) = None →
       c_max_cost (default no_constraints constraints) = None →
       (∃ b, b ∈ activities_df (w_catalog w)
             ∧ act_destination_id b = destination_id) →
       candidates ≠ []).
Proof.
  unfold recommend_activities, get_activities_by_destination.
  rewrite run_bind. simpl.
  set (all_activities :=
         List.filter (λ a, (act_destination_id a =? destination_id)%Z)
           (activities_df (w_catalog w))).
  assert (Hall : ∀ a, a ∈ all_activities ↔
                      a ∈ activities_df (w_catalog w)
                      ∧ act_destination_id a = destination_id).
  { intros a. unfold all_activities. rewrite elem_of_filter.
    by rewrite Z.eqb_eq. }
  destruct (is_empty all_activities) eqn:Hempty.
  { apply is_empty_true in Hempty. exists []. simpl py_sort.
    rewrite take_nil. split; [reflexivity|].
    split; [by intros a Ha%not_elem_of_nil|].
    split; [by intros a Ha%not_elem_of_nil|].
    split; [by intros _ a Ha%not_elem_of_nil|].
    intros _ _ (b & Hb & Hd). exfalso.
    assert (Hin : b ∈ all_activities) by by apply Hall.
    rewrite Hempty in Hin. by apply not_elem_of_nil in Hin. }
  apply is_empty_false in Hempty.
  set (matching :=
         List.filter
           (λ a, py_in (act_category a) (up_activities user_preferences))
           all_activities).
  set (preferred :=
         if is_empty (up_activities user_preferences) then all_activities
         else if is_empty matching then all_activities else matching).
  assert (Hpref_sub : ∀ a, a ∈ preferred → a ∈ all_activities).
  { intros a. unfold preferred, matching. repeat case_match; try done.
    by intros [? _]%elem_of_filter. }
  assert (Hpref_ne : preferred ≠ []).
  { unfold preferred. repeat case_match; try done. by apply is_empty_false. }
  assert (Hpref_cat :
            (∃ b, b ∈ activities_df (w_catalog w)
                  ∧ act_destination_id b = destination_id
                  ∧ act_category b ∈ up_activities user_preferences) →
            ∀ a, a ∈ preferred →
                 act_category a ∈ up_activities user_preferences).
  { intros (b & Hb & Hd & Hc) a. unfold preferred.
    assert (Hbm : b ∈ matching).
    { apply elem_of_filter. split; [by apply Hall|by apply py_in_true]. }
    destruct (is_empty (up_activities user_preferences)) eqn:Hup.
    { apply is_empty_true in Hup. rewrite Hup in Hc.
      by apply not_elem_of_nil in Hc. }
    destruct (is_empty matching) eqn:Hm.
    { apply is_empty_true in Hm. rewrite Hm in Hbm.
      by apply not_elem_of_nil in Hbm. }
    intros [_ Ha]%elem_of_filter. by apply py_in_true. }
  set (timed :=
         match c_time_of_day (default no_constraints constraints) with
         | Some time_of_day =>
             if (time_of_day =? "morning")%string
             then List.filter act_morning_suitable preferred
             else if (time_of_day =? "afternoon")%string
             then List.filter act_afternoon_suitable preferred
             else if (time_of_day =? "evening")%string
             then List.filter act_evening_suitable preferred
             else preferred
         | None => preferred
         end).
  assert (Htimed_sub : ∀ a, a ∈ timed → a ∈ preferred).
  { intros a. unfold timed. repeat case_match; try done;
      by intros [? _]%elem_of_filter. }
  assert (Htimed : ∀ a, a ∈ timed →
            match c_time_of_day (default no_constraints constraints) with
            | Some time_of_day =>
                (time_of_day = "morning" → act_morning_suitable a = true)
                ∧ (time_of_day = "afternoon" →
                   act_afternoon_suitable a = true)
                ∧ (time_of_day = "evening" → act_evening_suitable a = true)
            | None => True
            end).
  { intros a. unfold timed.
    destruct (c_time_of_day (default no_constraints constraints))
      as [time_of_day|]; [|done].
    destruct (time_of_day =? "morning")%string eqn:Hm.
    { apply String.eqb_eq in Hm as ->. intros [_ Ha]%elem_of_filter.
      by repeat split. }
    destruct (time_of_day =? "afternoon")%string eqn:Ha.
    { apply String.eqb_eq in Ha as ->. intros [_ Ha]%elem_of_filter.
      by repeat split. }
    destruct (time_of_day =? "evening")%string eqn:He.
    { apply String.eqb_eq in He as ->. intros [_ Ha']%elem_of_filter.
      by repeat split. }
    apply String.eqb_neq in Hm, Ha, He. by repeat split. }
  eexists. split; [reflexivity|].
  assert (Hcand : ∀ a,
            a ∈ match c_max_cost (default no_constraints constraints) with
                | Some max_cost =>
                    List.filter (λ a, py_le (act_cost a) max_cost) timed
                | None => timed
                end → a ∈ timed).
  { intros a.
    destruct (c_max_cost (default no_constraints constraints)); [|done].
    by intros [? _]%elem_of_filter. }
  split; [intros a Ha; by apply Hall, Hpref_sub, Htimed_sub, Hcand|].
  split; [intros a Ha; by apply Htimed, Hcand|].
  split; [intros Hb a Ha; by apply (Hpref_cat Hb), Htimed_sub, Hcand|].
  intros Htod Hcost _. unfold timed. by rewrite Htod, Hcost.
Qed.

(** X6. Every activity [recommend_activities] returns is a row of the
    activity frame at the requested destination and is suitable for the time
    of day asked for (morning, afternoon or evening); and when some activity
    of the destination belongs to the interests of the preferences, every
    returned activity belongs to them. *)
Theorem recommended_activities_pass_the_filters
    (user_preferences : UserPreferences) (destination_id : Z)
    (constraints : option Constraints) (w : World) :
  ∃ result,
    recommend_activities user_preferences destination_id constraints w
    = (Ok result, w)
    ∧ (∀ a, a ∈ result →
            a ∈ activities_df (w_catalog w)
            ∧ act_destination_id a = destination_id)
    ∧ (∀ a, a ∈ result →
            (c_time_of_day (default no_constraints constraints)
             = Some "morning" → act_morning_suitable a = true)
            ∧ (c_time_of_day (default no_constraints constraints)
               = Some "afternoon" → act_afternoon_suitable a = true)
            ∧ (c_time_of_day (default no_constraints constraints)
               = Some "evening" → act_evening_suitable a = true))
    ∧ ((∃ b, b ∈ activities_df (w_catalog w)
             ∧ act_destination_id b = destination_id
             ∧ act_category b ∈ up_activities user_preferences) →
       ∀ a, a ∈ result → act_category a ∈ up_activities user_preferences).
Proof.
  destruct (recommend_activities_candidates user_preferences destination_id
              constraints w)
    as (candidates & Hrun & Hdest & Htime & Hcat & _).
  eexists. split; [exact Hrun|].
  assert (Hin : ∀ a,
            a ∈ take (default 10%nat
                        (c_max_results (default no_constraints constraints)))
                  (py_sort activity_key tuple_lt true candidates) →
            a ∈ candidates).
  { intros a Ha.
    rewrite <- (py_sort_perm activity_key tuple_lt true candidates).
    eapply elem_of_sublist; [exact Ha|apply sublist_take]. }
  split; [intros a Ha; by apply Hdest, Hin|]. split.
  - intros a Ha. specialize (Htime a (Hin a Ha)).
    destruct (c_time_of_day (default no_constraints constraints))
      as [time_of_day|]; [|done].
    destruct Htime as (Hm & Hn & He).
    split; [|split]; intros [= ->]; auto.
  - intros Hb a Ha. by apply (Hcat Hb), Hin.
Qed.

(** X7. A mismatch of the interests alone never empties the result: without
    a time of day and a cost limit, and with a positive [max_results] (10
    when absent), a destination that has any activity gets a non-empty
    result, whatever the interests of the preferences are. *)
Theorem interests_alone_never_empty_the_result
    (user_preferences : UserPreferences) (destination_id : Z)
    (constraints : option Constraints) (w : World) (b : Activity) :
  c_time_of_day (default no_constraints constraints) = None →
  c_max_cost (default no_constraints constraints) = None →
  c_max_results (default no_constraints constraints) ≠ Some 0%nat →
  b ∈ activities_df (w_catalog w) → act_destination_id b = destination_id →
  ∃ a result,
    recommend_activities user_preferences destination_id constraints w
    = (Ok (a :: result), w).
Proof.
  intros Htod Hcost Hmax Hb Hd.
  destruct (recommend_activities_candidates user_preferences destination_id
              constraints w)
    as (candidates & Hrun & _ & _ & _ & Hne).
  specialize (Hne Htod Hcost (ex_intro _ b (conj Hb Hd))).
  rewrite Hrun.
  destruct (take _ _) as [|a result] eqn:Htake.
  - exfalso. revert Htake. apply take_nonempty.
    + destruct (c_max_results _) as [[|n]|]; done.
    + by apply py_sort_nonempty.
  - by exists a, result.
Qed.

Lemma interests_alone_never_empty_the_result_witness :
  ∃ a result,
    recommend_activities
      (preferences "Tokyo, Japan" 3 2000 "Plane" "Hotel" ["Shopping"])
      2 None fixture_world = (Ok (a :: result), fixture_world).
Proof.
  apply (interests_alone_never_empty_the_result _ 2 None fixture_world
           (activity 165 2 "Shibuya Crossing Experience" "Sightseeing"
              "Witness the busiest pedestrian crossing in the world and explore the Shibuya district."
              2 0 true true true 0.9));
    [reflexivity|reflexivity|discriminate| |reflexivity].
  do 7 apply list_elem_of_further. apply list_elem_of_here.
Defined.

(** * The outcomes of [recommend_daily_plan] *)

Lemma same_store_trans w1 w2 w3 :
  same_store w1 w2 → same_store w2 w3 → same_store w1 w3.
Proof. intros [H1 H2] [H3 H4]. split; congruence. Qed.

Lemma slot_outcome (activities : list Activity) (filler : Slot) (w : World) :
  ∃ chosen slot w1,
    (if negb (is_empty activities) then pick_activity activities
     else mret (None, filler)) w = (Ok (chosen, slot), w1)
    ∧ same_store w w1
    ∧ ((activities = [] ∧ chosen = None ∧ slot = filler)
       ∨ (∃ a, a ∈ activities ∧ chosen = Some a ∧ slot = slot_of a)).
Proof.
  destruct activities as [|a0 activities].
  - eexists _, _, _. split; [reflexivity|]. split; [apply same_store_refl|].
    by left.
  - change (negb (is_empty (a0 :: activities))) with true. cbv iota.
    unfold pick_activity. rewrite run_bind.
    destruct (choice_run (take (3 `min` length (a0 :: activities))
                            (a0 :: activities)) w) as (x & Hx & ->);
      [done|].
    eexists _, _, _. split; [reflexivity|].
    split; [apply same_store_advance, same_store_refl|].
    right. exists x. split; [|done].
    eapply elem_of_sublist; [exact Hx|apply sublist_take].
Qed.

Lemma keywords_known (k1 k2 k3 : bool) (keyword : string) :
  keyword ∈ (if k3
             then (if k2 then (if k1 then ["Cultural"] else []) ++ ["Outdoor"]
                   else if k1 then ["Cultural"] else []) ++ ["Culinary"]
             else if k2 then (if k1 then ["Cultural"] else []) ++ ["Outdoor"]
                  else if k1 then ["Cultural"] else []) →
  keyword ∈ ["Cultural"; "Outdoor"; "Culinary"].
Proof.
  destruct k1, k2, k3; simpl; intros H;
    repeat (apply elem_of_cons in H as [->|H]);
    try (by apply not_elem_of_nil in H);
    repeat first [apply list_elem_of_here|apply list_elem_of_further].
Qed.

(** The run of [recommend_daily_plan] for a destination of the catalog: the
    three queries, the three slots, and then the title, which is where the
    run may fail. *)
Lemma recommend_daily_plan_outcome user_preferences destination_id
    day_number daily_budget (w : World) (destination : Destination) :
  get_destination_by_id destination_id w = (Ok destination, w) →
  ∃ lm la le sm sa se,
    recommend_activities user_preferences destination_id
      (period_constraints "morning" (daily_budget * 0.3)) w = (Ok lm, w)
    ∧ recommend_activities user_preferences destination_id
        (period_constraints "afternoon" (daily_budget * 0.4)) w = (Ok la, w)
    ∧ recommend_activities user_preferences destination_id
        (period_constraints "evening" (daily_budget * 0.3)) w = (Ok le, w)
    ∧ is_slot lm (morning_filler destination) sm
    ∧ is_slot la (afternoon_filler destination daily_budget) sa
    ∧ is_slot le (evening_filler destination daily_budget) se
    ∧ same_store w
        (recommend_daily_plan user_preferences destination_id day_number
           daily_budget w).2
    ∧ ((∃ title,
          (recommend_daily_plan user_preferences destination_id day_number
             daily_budget w).1
          = Ok {| dp_title := title; dp_morning := sm; dp_afternoon := sa;
                  dp_evening := se;
                  dp_total_cost :=
                    (slot_cost sm + slot_cost sa + slot_cost se)%Q |}
          ∧ (day_number = 1%Z →
             title = "Welcome to " +:+ dest_name destination)
          ∧ (day_number ≠ 1%Z →
             day_number = up_duration user_preferences →
             title = "Final Day in " +:+ dest_name destination)
          ∧ (day_number ≠ 1%Z →
             day_number ≠ up_duration user_preferences →
             lm ≠ [] ∧ la ≠ [] ∧ le ≠ []
             ∧ is_middle_title destination day_number title))
       ∨ ((recommend_daily_plan user_preferences destination_id day_number
             daily_budget w).1 = Raise UnboundLocalError
          ∧ day_number ≠ 1%Z
          ∧ day_number ≠ up_duration user_preferences
          ∧ (lm = [] ∨ la = [] ∨ le = []))).
Proof.
  intros Hdest. unfold recommend_daily_plan.
  cbv zeta. rewrite run_bind, Hdest.
  destruct (recommend_activities_run user_preferences destination_id
              (period_constraints "morning" (daily_budget * 0.3)) w)
    as (cm & Hm & _).
  destruct (recommend_activities_run user_preferences destination_id
              (period_constraints "afternoon" (daily_budget * 0.4)) w)
    as (ca & Ha & _).
  destruct (recommend_activities_run user_preferences destination_id
              (period_constraints "evening" (daily_budget * 0.3)) w)
    as (ce & He & _).
  rewrite run_bind, Hm, run_bind, Ha, run_bind, He.
  simpl default in *.
  set (lm := take 3 (py_sort activity_key tuple_lt true cm)) in *.
  set (la := take 3 (py_sort activity_key tuple_lt true ca)) in *.
  set (le := take 3 (py_sort activity_key tuple_lt true ce)) in *.
  rewrite run_bind.
  destruct (slot_outcome lm (morning_filler destination) w)
    as (chm & sm & w1 & Hsm & Hw1 & Hchm).
  unfold morning_filler in Hsm. rewrite Hsm.
  rewrite run_bind.
  destruct (slot_outcome la (afternoon_filler destination daily_budget) w1)
    as (cha & sa & w2 & Hsa & Hw2 & Hcha).
  unfold afternoon_filler in Hsa. rewrite Hsa.
  rewrite run_bind.
  destruct (slot_outcome le (evening_filler destination daily_budget) w2)
    as (che & se & w3 & Hse & Hw3 & Hche).
  unfold evening_filler in Hse. rewrite Hse.
  assert (Hw : same_store w w3)
    by (eapply same_store_trans; [|exact Hw3];
        eapply same_store_trans; [exact Hw1|exact Hw2]).
  exists lm, la, le, sm, sa, se.
  split; [reflexivity|]. split; [reflexivity|]. split; [reflexivity|].
  split; [destruct Hchm as [(? & _ & ?)|(a & ? & _ & ?)];
          [by left|right; by exists a]|].
  split; [destruct Hcha as [(? & _ & ?)|(a & ? & _ & ?)];
          [by left|right; by exists a]|].
  split; [destruct Hche as [(? & _ & ?)|(a & ? & _ & ?)];
          [by left|right; by exists a]|].
  rewrite run_bind.
  destruct (day_number =? 1)%Z eqn:Hfirst.
  { apply Z.eqb_eq in Hfirst. simpl. split; [exact Hw|]. left.
    eexists. split; [reflexivity|]. by repeat split. }
  apply Z.eqb_neq in Hfirst.
  destruct (day_number =? up_duration user_preferences)%Z eqn:Hlast.
  { apply Z.eqb_eq in Hlast. simpl. split; [exact Hw|]. left.
    eexists. split; [reflexivity|]. by repeat split. }
  apply Z.eqb_neq in Hlast.
  rewrite run_bind.
  destruct Hchm as [(Hlm & -> & _)|(am & Ham & -> & _)].
  { simpl. split; [exact Hw|]. right. repeat split; try done. by left. }
  rewrite read_local_some, run_bind.
  destruct Hcha as [(Hla & -> & _)|(aa & Haa & -> & _)].
  { simpl. split; [exact Hw|]. right. repeat split; try done.
    right. by left. }
  rewrite read_local_some, run_bind.
  destruct Hche as [(Hle & -> & _)|(ae & Hae & -> & _)].
  { simpl. split; [exact Hw|]. right. repeat split; try done.
    right. by right. }
  rewrite read_local_some.
  assert (Hnonempty : lm ≠ [] ∧ la ≠ [] ∧ le ≠ []).
  { repeat split; intros Hnil.
    - rewrite Hnil in Ham. by apply not_elem_of_nil in Ham.
    - rewrite Hnil in Haa. by apply not_elem_of_nil in Haa.
    - rewrite Hnil in Hae. by apply not_elem_of_nil in Hae. }
  set (k1 := py_contains "cultural" (py_lower (act_description am))
             || py_contains "museum" (py_lower (act_description am))).
  set (k2 := py_contains "outdoor" (py_lower (act_description aa))
             || py_contains "nature" (py_lower (act_description aa))).
  set (k3 := py_contains "food" (py_lower (act_description ae))
             || py_contains "cuisine" (py_lower (act_description ae))).
  match goal with
  | |- context [is_empty ?ks] =>
      destruct ks as [|k0 ks'] eqn:Hks
  end.
  - simpl. split; [exact Hw|]. left. eexists. split; [reflexivity|].
    split; [done|]. split; [done|]. intros _ _.
    destruct Hnonempty as (? & ? & ?). repeat split; try done. by right.
  - change (negb (is_empty (k0 :: ks'))) with true. cbv iota.
    rewrite run_bind.
    destruct (choice_run (k0 :: ks') w3) as (keyword & Hk & ->); [done|].
    simpl. split; [by apply same_store_advance|]. left.
    eexists. split; [reflexivity|].
    split; [done|]. split; [done|]. intros _ _.
    destruct Hnonempty as (? & ? & ?). repeat split; try done.
    left. exists keyword. split; [|reflexivity].
    rewrite <- Hks in Hk. by apply keywords_known in Hk.
Qed.

Lemma get_destination_by_id_cases (destination_id : Z) (w : World) :
  (∃ d, d ∈ destinations_df (w_catalog w) ∧ dest_id d = destination_id
        ∧ get_destination_by_id destination_id w = (Ok d, w))
  ∨ ((∀ d, d ∈ destinations_df (w_catalog w) → dest_id d ≠ destination_id)
     ∧ get_destination_by_id destination_id w = (Raise IndexError, w)).
Proof.
  unfold get_destination_by_id. rewrite run_bind.
  unfold gets. cbv beta iota.
  destruct (List.filter (λ d, (dest_id d =? destination_id)%Z)
              (destinations_df (w_catalog w))) as [|d ds] eqn:Hfilter.
  - right. split; [|reflexivity]. intros d Hd.
    apply Z.eqb_neq. by apply (filter_nil_inv _ _ Hfilter).
  - left. exists d. assert (Hd : d ∈ d :: ds) by apply list_elem_of_here.
    rewrite <- Hfilter in Hd. apply elem_of_filter in Hd as [Hd Heq].
    apply Z.eqb_eq in Heq. by repeat split.
Qed.

Lemma get_destination_by_id_ok_inv destination_id w d w1 :
  get_destination_by_id destination_id w = (Ok d, w1) →
  w1 = w ∧ d ∈ destinations_df (w_catalog w) ∧ dest_id d = destination_id.
Proof.
  intros H.
  destruct (get_destination_by_id_cases destination_id w)
    as [(d' & Hd & Hid & Hrun)|[_ Hrun]]; rewrite Hrun in H.
  - by injection H as <- <-.
  - discriminate H.
Qed.

(** What a period's query returns: rows of the destination, suitable for
    the period, within the cost limit. *)
Lemma period_query_elements user_preferences destination_id time_of_day
    max_cost w activities w1 :
  recommend_activities user_preferences destination_id
    (period_constraints time_of_day max_cost) w = (Ok activities, w1) →
  ∀ a, a ∈ activities →
       a ∈ activities_df (w_catalog w)
       ∧ act_destination_id a = destination_id
       ∧ (act_cost a <= max_cost)%Q
       ∧ (time_of_day = "morning" → act_morning_suitable a = true)
       ∧ (time_of_day = "afternoon" → act_afternoon_suitable a = true)
       ∧ (time_of_day = "evening" → act_evening_suitable a = true).
Proof.
  intros H a Ha.
  apply recommend_activities_within_cost in H as Hcost.
  destruct Hcost as [_ Hcost]. rewrite Forall_forall in Hcost.
  destruct (recommend_activities_candidates user_preferences destination_id
              (period_constraints time_of_day max_cost) w)
    as (candidates & Hrun & Hdest & Htime & _).
  rewrite Hrun in H. injection H as <- <-.
  assert (Hin : a ∈ candidates).
  { rewrite <- (py_sort_perm activity_key tuple_lt true candidates).
    eapply elem_of_sublist; [exact Ha|apply sublist_take]. }
  destruct (Hdest a Hin) as [Hdf Hd]. specialize (Htime a Hin).
  simpl in Htime. destruct Htime as (Hm & Hn & He).
  split; [exact Hdf|]. split; [exact Hd|]. split; [by apply Hcost|].
  by repeat split.
Qed.

(** X8. A returned daily plan is made of the catalog: its destination is a
    row of the catalog; each of its three slots is the filler of its period
    or the description and cost of an activity of that destination that is
    suitable for the period; and its [total_cost] is the sum of the three
    slot costs. *)
Theorem daily_plan_is_made_of_the_catalog
    (user_preferences : UserPreferences) (destination_id day_number : Z)
    (daily_budget : Q) (w w' : World) (plan : DailyPlan) :
  recommend_daily_plan user_preferences destination_id day_number
    daily_budget w = (Ok plan, w') →
  ∃ destination,
    destination ∈ destinations_df (w_catalog w)
    ∧ dest_id destination = destination_id
    ∧ slot_from w destination_id act_morning_suitable
        (morning_filler destination) (dp_morning plan)
    ∧ slot_from w destination_id act_afternoon_suitable
        (afternoon_filler destination daily_budget) (dp_afternoon plan)
    ∧ slot_from w destination_id act_evening_suitable
        (evening_filler destination daily_budget) (dp_evening plan)
    ∧ dp_total_cost plan
      = (slot_cost (dp_morning plan) + slot_cost (dp_afternoon plan)
         + slot_cost (dp_evening plan))%Q.
Proof.
  intros H.
  assert (Hdest : ∃ destination,
            get_destination_by_id destination_id w = (Ok destination, w)
            ∧ destination ∈ destinations_df (w_catalog w)
            ∧ dest_id destination = destination_id).
  { destruct (get_destination_by_id_cases destination_id w)
      as [(d & Hd & Hid & Hrun)|[_ Hrun]]; [by exists d|].
    unfold recommend_daily_plan in H. cbv zeta in H.
    rewrite run_bind, Hrun in H. discriminate H. }
  destruct Hdest as (destination & Hrun & Hd & Hid).
  exists destination. split; [exact Hd|]. split; [exact Hid|].
  destruct (recommend_daily_plan_outcome user_preferences destination_id
              day_number daily_budget w destination Hrun)
    as (lm & la & le & sm & sa & se & Hm & Ha & He & Hsm & Hsa & Hse & _
        & [(title & Hplan & _)|(Hraise & _)]);
    rewrite H in *; simpl in *; [|discriminate Hraise].
  injection Hplan as ->. simpl.
  pose proof (period_query_elements _ _ _ _ _ _ _ Hm) as Hlm.
  pose proof (period_query_elements _ _ _ _ _ _ _ Ha) as Hla.
  pose proof (period_query_elements _ _ _ _ _ _ _ He) as Hle.
  split; [|split; [|split; [|reflexivity]]].
  - destruct Hsm as [[_ ->]|(a & Hin & ->)]; [by left|]. right. exists a.
    destruct (Hlm a Hin) as (? & ? & _ & Hs & _). by rewrite Hs.
  - destruct Hsa as [[_ ->]|(a & Hin & ->)]; [by left|]. right. exists a.
    destruct (Hla a Hin) as (? & ? & _ & _ & Hs & _). by rewrite Hs.
  - destruct Hse as [[_ ->]|(a & Hin & ->)]; [by left|]. right. exists a.
    destruct (Hle a Hin) as (? & ? & _ & _ & _ & Hs). by rewrite Hs.
Qed.

Lemma daily_plan_is_made_of_the_catalog_witness :
  ∃ plan w',
    recommend_daily_plan
      (preferences "Paris, France" 3 2000 "Plane" "Hotel"
         ["Cultural & Historical"])
      1 1 100 fixture_world = (Ok plan, w')
    ∧ slot_from fixture_world 1 act_evening_suitable
        (evening_filler paris 100) (dp_evening plan).
Proof.
  destruct (recommend_daily_plan
              (preferences "Paris, France" 3 2000 "Plane" "Hotel"
                 ["Cultural & Historical"])
              1 1 100 fixture_world) as [[plan|e] w'] eqn:E.
  - exists plan, w'. split; [reflexivity|].
    destruct (daily_plan_is_made_of_the_catalog _ _ _ _ _ _ _ E)
      as (d & _ & _ & _ & _ & _ & _).
    vm_compute in E. injection E as <- _. by left.
  - vm_compute in E. discriminate E.
Defined.





(** * The outcomes of [generate_itinerary] *)

Lemma same_store_preserves w w' : same_store w w' → preserves w w'.
Proof. intros [Hc Hh]. split; [exact Hc|]. by rewrite Hh. Qed.

Lemma preserves_trans w1 w2 w3 :
  preserves w1 w2 → preserves w2 w3 → preserves w1 w3.
Proof.
  intros [Hc1 Hh1] [Hc2 Hh2]. split; [congruence|].
  intros l d Hl. by apply Hh2, Hh1.
Qed.

Lemma same_store_sym w w' : same_store w w' → same_store w' w.
Proof. intros [? ?]. by split. Qed.

(** What [recommend_accommodation] leaves behind, for any outcome. *)
Lemma recommend_accommodation_result user_preferences destination_id w :
  preserves w (recommend_accommodation user_preferences destination_id w).2
  ∧ match (recommend_accommodation user_preferences destination_id w).1 with
    | Ok l =>
        (length (w_heap w) <= l)%nat
        ∧ ∃ d,
            w_heap (recommend_accommodation user_preferences destination_id
                      w).2 !! l = Some d
            ∧ d_total_cost d
              = Some (d_cost_per_night d
                      * inject_Z (up_duration user_preferences))%Q
    | Raise e => e = ZeroDivisionError ∧ up_duration user_preferences = 0%Z
    end.
Proof.
  destruct (recommend_accommodation_run user_preferences destination_id w)
    as [[_ Hrun]|[(_ & Hzero & Hrun)|(_ & _ & i & r & Hr & _ & Hrun)]];
    rewrite Hrun; unfold preserves; simpl.
  - split; [split; [reflexivity|intros l d Hl; by apply lookup_app_l_Some]|].
    split; [done|]. eexists. split.
    + rewrite lookup_app_r by done. by rewrite Nat.sub_diag.
    + reflexivity.
  - split; [split; [reflexivity|intros l d Hl; by apply lookup_app_l_Some]|].
    done.
  - assert (Hlen : (length (w_heap w) + i
                    < length (w_heap w ++ (row_dict <$> candidate_rows
                        (w_catalog w) user_preferences destination_id)))%nat).
    { rewrite length_app, length_fmap. apply lookup_lt_Some in Hr. lia. }
    split.
    + split; [reflexivity|]. intros l d Hl.
      apply lookup_lt_Some in Hl as Hlt.
      rewrite list_lookup_insert_ne by lia. by apply lookup_app_l_Some.
    + split; [lia|]. eexists. split.
      * by apply list_lookup_insert_eq.
      * reflexivity.
Qed.

Lemma load_run (l : loc) (d : AccDict) (w : World) :
  w_heap w !! l = Some d → load l w = (Ok d, w).
Proof. intros H. unfold load. by rewrite H. Qed.

Lemma load_total_cost_run (l : loc) (d : AccDict) (v : Q) (w : World) :
  w_heap w !! l = Some d → d_total_cost d = Some v →
  load_total_cost l w = (Ok v, w).
Proof.
  intros Hl Hv. unfold load_total_cost.
  rewrite run_bind, (load_run _ _ _ Hl). by rewrite Hv.
Qed.

Lemma sample_cons {A} (x0 : A) (xs : list A) (k : nat) (w : World) :
  sample (x0 :: xs) (S k) w
  = match (x0 :: xs) !! (w_tape w (w_pos w) `mod` length (x0 :: xs))%nat with
    | Some x =>
        (ys ← sample
                (delete (w_tape w (w_pos w) `mod` length (x0 :: xs))%nat
                   (x0 :: xs)) k;
         mret (x :: ys)) (advance w)
    | None => (Raise ValueError, advance w)
    end.
Proof.
  change (sample (x0 :: xs) (S k) w)
    with ((n ← draw;
           match (x0 :: xs) !! (n `mod` length (x0 :: xs))%nat with
           | Some x =>
               ys ← sample (delete (n `mod` length (x0 :: xs))%nat (x0 :: xs))
                      k;
               mret (x :: ys)
           | None => raise ValueError
           end) w).
  rewrite run_bind. unfold draw. cbv beta iota.
  by destruct ((x0 :: xs) !! _).
Qed.

Lemma sample_run {A} (xs : list A) (k : nat) (w : World) :
  (k <= length xs)%nat →
  ∃ ys w', sample xs k w = (Ok ys, w') ∧ same_store w w' ∧ length ys = k
           ∧ ∀ y, y ∈ ys → y ∈ xs.
Proof.
  revert xs w. induction k as [|k IH]; intros xs w Hk.
  - exists [], w. split; [reflexivity|]. split; [apply same_store_refl|].
    split; [reflexivity|]. by intros y Hy%not_elem_of_nil.
  - destruct xs as [|x0 xs]; [simpl in Hk; lia|].
    rewrite sample_cons.
    set (j := (w_tape w (w_pos w) `mod` length (x0 :: xs))%nat).
    destruct (lookup_lt_is_Some_2 (x0 :: xs) j) as [x Hx].
    { apply Nat.mod_upper_bound. discriminate. }
    rewrite Hx, run_bind.
    destruct (IH (delete j (x0 :: xs)) (advance w)) as (ys & w' & -> & Hs & Hl & Hin).
    { rewrite length_delete by eauto. simpl in *. lia. }
    exists (x :: ys), w'. split; [reflexivity|].
    split; [eapply same_store_trans; [|exact Hs];
            apply same_store_advance, same_store_refl|].
    split; [simpl; by rewrite Hl|].
    intros y [->|Hy]%elem_of_cons; [by eapply list_elem_of_lookup_2|].
    eapply elem_of_sublist; [by apply Hin|apply sublist_delete].
Qed.

(** [_generate_overview_text] always returns, and only draws random
    numbers. *)
Lemma generate_overview_text_run user_preferences destination transportation
    (accommodation : loc) daily_plans (d : AccDict) (w : World) :
  w_heap w !! accommodation = Some d →
  ∃ overview w',
    generate_overview_text user_preferences destination transportation
      accommodation daily_plans w = (Ok overview, w')
    ∧ same_store w w'.
Proof.
  intros Hd. unfold generate_overview_text. cbv zeta.
  rewrite run_bind, (load_run _ _ _ Hd). rewrite run_bind.
  match goal with
  | |- context [choice ?xs w] =>
      destruct (choice_run xs w) as (intro & _ & ->); [done|]
  end.
  rewrite run_bind.
  set (activities := daily_plans ≫= _).
  destruct (is_empty activities) eqn:Hempty.
  - simpl. eexists _, _. split; [reflexivity|].
    apply same_store_advance, same_store_refl.
  - change (negb false) with true. cbv iota. rewrite run_bind.
    destruct (sample_run activities (3 `min` length activities) (advance w))
      as (ys & w' & -> & Hs & _); [lia|].
    simpl. eexists _, _. split; [reflexivity|].
    eapply same_store_trans; [|exact Hs].
    apply same_store_advance, same_store_refl.
Qed.

Lemma get_destination_by_id_same_store destination_id w w1 d :
  same_store w w1 →
  get_destination_by_id destination_id w = (Ok d, w) →
  get_destination_by_id destination_id w1 = (Ok d, w1).
Proof.
  intros [Hc _]. unfold get_destination_by_id.
  rewrite !run_bind. unfold gets. cbv beta iota. rewrite Hc.
  destruct (List.filter _ _) as [|d0 ds]; [discriminate|].
  by intros [= <-].
Qed.

(** The loop over the days: plans for all days, or [UnboundLocalError] on a
    day that is neither the first nor the last. *)
Lemma daily_plans_outcome user_preferences destination_id daily_budget
    destination (days : list Z) (w : World) :
  get_destination_by_id destination_id w = (Ok destination, w) →
  same_store w
    (for_each (λ day, recommend_daily_plan user_preferences destination_id
                        day daily_budget) days w).2
  ∧ match (for_each (λ day, recommend_daily_plan user_preferences
                              destination_id day daily_budget) days w).1 with
    | Ok plans => True
    | Raise e =>
        e = UnboundLocalError
        ∧ ∃ day, day ∈ days ∧ day ≠ 1%Z
                 ∧ day ≠ up_duration user_preferences
    end.
Proof.
  revert w. induction days as [|day days IH]; intros w Hdest.
  - simpl. split; [apply same_store_refl|done].
  - simpl for_each. rewrite run_bind.
    destruct (recommend_daily_plan_outcome user_preferences destination_id
                day daily_budget w destination Hdest)
      as (lm & la & le & sm & sa & se & _ & _ & _ & _ & _ & _ & Hstore
          & [(title & Hplan & _)|(Hraise & Hn1 & Hn2 & _)]);
      destruct (recommend_daily_plan user_preferences destination_id day
                  daily_budget w) as [r w1]; simpl in Hstore.
    + simpl in Hplan. rewrite Hplan. rewrite run_bind.
      pose proof (get_destination_by_id_same_store _ _ _ _ Hstore Hdest)
        as Hdest1.
      destruct (IH w1 Hdest1) as [Hstore1 Hout].
      destruct (for_each _ days w1) as [[plans|e] w2]; simpl in *.
      * split; [by eapply same_store_trans|done].
      * split; [by eapply same_store_trans|].
        destruct Hout as (-> & day' & Hin & ? & ?). split; [done|].
        exists day'. split; [by apply list_elem_of_further|done].
    + simpl in Hraise. rewrite Hraise. simpl.
      split; [exact Hstore|]. split; [done|].
      exists day. split; [apply list_elem_of_here|done].
Qed.

(** The outcomes of [generate_itinerary]: an itinerary, or one of three
    exceptions, each with its cause. *)
Lemma generate_itinerary_outcome user_preferences (w : World) :
  preserves w (generate_itinerary user_preferences w).2
  ∧ match (generate_itinerary user_preferences w).1 with
    | Ok it =>
        ∃ d d' tr dict w2 w3,
          d ∈ destinations_df (w_catalog w)
          ∧ dest_name d = up_destination user_preferences
          ∧ up_duration user_preferences ≠ 0%Z
          ∧ w_catalog w2 = w_catalog w
          ∧ get_destination_by_id (dest_id d) w2 = (Ok d', w2)
          ∧ d_total_cost dict
            = Some (d_cost_per_night dict
                    * inject_Z (up_duration user_preferences))%Q
          ∧ it_destination it = d
          ∧ it_transportation it = tr
          ∧ it_accommodation it = dict
          ∧ it_budget_breakdown it
            = {| bb_transportation := tr_cost tr;
                 bb_accommodation :=
                   (d_cost_per_night dict
                    * inject_Z (up_duration user_preferences))%Q;
                 bb_activities := py_sum (dp_total_cost <$> it_daily_plan it);
                 bb_food :=
                   (remaining_budget user_preferences
                      (it_budget_breakdown it) * 0.4)%Q;
                 bb_miscellaneous :=
                   (remaining_budget user_preferences
                      (it_budget_breakdown it) * 0.1)%Q |}
          ∧ for_each
              (λ day, recommend_daily_plan user_preferences (dest_id d) day
                        (remaining_budget user_preferences
                           (it_budget_breakdown it)
                         / inject_Z (up_duration user_preferences)))
              (py_range 1 (up_duration user_preferences + 1)) w2
            = (Ok (it_daily_plan it), w3)
    | Raise e =>
        (e = IndexError
         ∧ ((∀ d, d ∈ destinations_df (w_catalog w) →
                  dest_name d ≠ up_destination user_preferences)
            ∨ ∃ mode, mode ∈ requested_modes user_preferences
                      ∧ ∀ t, t ∈ transportation_df (w_catalog w) →
                             tm_mode t ≠ mode))
        ∨ (e = ZeroDivisionError
           ∧ (up_duration user_preferences = 0%Z
              ∨ ∃ t, t ∈ transportation_df (w_catalog w)
                     ∧ (tm_speed_km_h t == 0)%Q))
        ∨ (e = UnboundLocalError ∧ (3 <= up_duration user_preferences)%Z)
    end.
Proof.
  unfold generate_itinerary. rewrite run_bind.
  destruct (get_destination_by_name_cases
              (up_destination user_preferences) w)
    as [(d & Hd & Hname & ->)|[Habsent ->]].
  2: { simpl. split; [apply same_store_preserves, same_store_refl|].
       left. split; [done|]. by left. }
  cbv zeta. rewrite run_bind.
  destruct (recommend_transportation_cases user_preferences w)
    as [Hstore1 Hcases].
  destruct (recommend_transportation user_preferences w) as [r w1].
  simpl in Hstore1, Hcases.
  apply same_store_preserves in Hstore1 as Hpres1.
  destruct Hcases as [(tr & t & -> & _)
                     |[(-> & mode & Hmode & Hmabsent)|(-> & Hzero)]].
  2: { simpl. split; [exact Hpres1|]. left. split; [done|].
       right. by exists mode. }
  2: { simpl. split; [exact Hpres1|]. right. left. split; [done|].
       by right. }
  rewrite run_bind.
  destruct (recommend_accommodation_result user_preferences (dest_id d) w1)
    as [Hpres2 Hacc].
  destruct (recommend_accommodation user_preferences (dest_id d) w1)
    as [[l|e] w2]; simpl in Hpres2, Hacc.
  2: { simpl. split; [by eapply preserves_trans|].
       destruct Hacc as [-> Hzero]. right. left. split; [done|]. by left. }
  destruct Hacc as (_ & dict & Hl & Htotal).
  assert (Hpres : preserves w w2) by by eapply preserves_trans.
  rewrite run_bind, (load_total_cost_run _ _ _ _ Hl Htotal).
  cbv beta iota zeta.
  rewrite run_bind. unfold lift.
  destruct (decide (up_duration user_preferences = 0%Z)) as [Hzero|Hnonzero].
  { rewrite Hzero. simpl. split; [exact Hpres|]. right. left.
    split; [done|]. by left. }
  rewrite (truediv_nonzero _ _ Hnonzero). cbv beta iota zeta.
  rewrite run_bind.
  assert (Hdest : ∃ d', get_destination_by_id (dest_id d) w2 = (Ok d', w2)).
  { destruct (get_destination_by_id_cases (dest_id d) w2)
      as [(d' & _ & _ & Hrun)|[Habsent _]]; [by exists d'|].
    exfalso. apply (Habsent d); [|reflexivity].
    destruct Hpres2 as [Hc2 _]. destruct Hstore1 as [Hc1 _].
    by rewrite Hc2, Hc1. }
  destruct Hdest as [d' Hdest].
  match goal with
  | |- context [for_each (λ day, recommend_daily_plan _ _ day ?b) ?days w2] =>
      destruct (daily_plans_outcome user_preferences (dest_id d)
                  b d' days w2 Hdest) as [Hstore3 Hdays];
      destruct (for_each (λ day, recommend_daily_plan user_preferences
                                   (dest_id d) day b) days w2)
        as [[plans|e] w3] eqn:Hloop
  end; simpl in Hstore3, Hdays.
  2: { simpl. split.
       - eapply preserves_trans; [exact Hpres|by apply same_store_preserves].
       - destruct Hdays as (-> & day & Hin & Hn1 & Hn2). right. right.
         split; [done|]. unfold py_range in Hin.
         apply elem_of_seqZ in Hin. lia. }
  cbv beta iota zeta. rewrite run_bind.
  assert (Hl3 : w_heap w3 !! l = Some dict)
    by (destruct Hstore3 as [_ ->]; exact Hl).
  destruct (generate_overview_text_run user_preferences d tr l plans dict w3
              Hl3) as (overview & w4 & -> & Hstore4).
  assert (Hl4 : w_heap w4 !! l = Some dict)
    by (destruct Hstore4 as [_ ->]; exact Hl3).
  cbv beta iota zeta. rewrite run_bind, (load_run _ _ _ Hl4). simpl.
  split.
  { eapply preserves_trans; [exact Hpres|]. apply same_store_preserves.
    by eapply same_store_trans. }
  exists d, d', tr, dict, w2, w3.
  split; [exact Hd|]. split; [exact Hname|]. split; [exact Hnonzero|].
  split; [destruct Hpres as [-> _]; reflexivity|].
  split; [exact Hdest|]. split; [exact Htotal|].
  split; [reflexivity|]. split; [reflexivity|]. split; [reflexivity|].
  split; [reflexivity|]. exact Hloop.
Qed.

(** X11. [generate_itinerary] fails in three ways only, each with its cause:
    [IndexError] when the destination name, or a transportation mode it
    looks up, has no row in the catalog; [ZeroDivisionError] when the
    duration is zero or a transportation row has speed zero;
    [UnboundLocalError] only on trips of three days or more (on a day that is
    neither the first nor the last).  It never raises [KeyError] or
    [ValueError]. *)
Theorem generate_itinerary_failure_modes
    (user_preferences : UserPreferences) (w : World) :
  match (generate_itinerary user_preferences w).1 with
  | Ok it => True
  | Raise e =>
      (e = IndexError
       ∧ ((∀ d, d ∈ destinations_df (w_catalog w) →
                dest_name d ≠ up_destination user_preferences)
          ∨ ∃ mode, mode ∈ requested_modes user_preferences
                    ∧ ∀ t, t ∈ transportation_df (w_catalog w) →
                           tm_mode t ≠ mode))
      ∨ (e = ZeroDivisionError
         ∧ (up_duration user_preferences = 0%Z
            ∨ ∃ t, t ∈ transportation_df (w_catalog w)
                   ∧ (tm_speed_km_h t == 0)%Q))
      ∨ (e = UnboundLocalError ∧ (3 <= up_duration user_preferences)%Z)
  end.
Proof.
  destruct (generate_itinerary_outcome user_preferences w) as [_ Hout].
  by destruct (generate_itinerary user_preferences w) as [[it|e] w'].
Qed.

(** X12. A trip of one or two days always gets its itinerary: when the
    destination is in the catalog, every transportation mode that may be
    looked up has a row, and no row has speed zero, [generate_itinerary]
    returns, with one plan per day. *)
Theorem short_trips_get_an_itinerary
    (user_preferences : UserPreferences) (w : World) (d : Destination) :
  d ∈ destinations_df (w_catalog w) →
  dest_name d = up_destination user_preferences →
  (∀ mode, mode ∈ requested_modes user_preferences →
           ∃ t, t ∈ transportation_df (w_catalog w) ∧ tm_mode t = mode) →
  (∀ t, t ∈ transportation_df (w_catalog w) → ¬ (tm_speed_km_h t == 0)%Q) →
  up_duration user_preferences = 1%Z ∨ up_duration user_preferences = 2%Z →
  ∃ it w',
    generate_itinerary user_preferences w = (Ok it, w')
    ∧ length (it_daily_plan it) = Z.to_nat (up_duration user_preferences).
Proof.
  intros Hd Hname Hmodes Hspeed Hduration.
  destruct (generate_itinerary_outcome user_preferences w) as [_ Hout].
  destruct (generate_itinerary user_preferences w) as [[it|e] w'] eqn:Hrun;
    simpl in Hout.
  - exists it, w'. split; [reflexivity|].
    by eapply returned_daily_plans_length.
  - exfalso.
    destruct Hout as [[_ [Habsent|(mode & Hmode & Habsent)]]
                     |[[_ [Hzero|(t & Ht & Hzero)]]|[_ Hlong]]].
    + by apply (Habsent d Hd).
    + destruct (Hmodes mode Hmode) as (t & Ht & Hmt). by apply (Habsent t Ht).
    + lia.
    + by apply (Hspeed t Ht).
    + lia.
Qed.

Lemma short_trips_get_an_itinerary_witness :
  ∃ it w',
    generate_itinerary
      (preferences "Paris, France" 2 2000 "Plane" "Hotel"
         ["Cultural & Historical"])
      fixture_world = (Ok it, w')
    ∧ length (it_daily_plan it) = 2%nat.
Proof.
  apply (short_trips_get_an_itinerary
           (preferences "Paris, France" 2 2000 "Plane" "Hotel"
              ["Cultural & Historical"]) fixture_world paris).
  - apply list_elem_of_here.
  - reflexivity.
  - intros mode Hmode. apply elem_of_cons in Hmode as [->|Hmode];
      [|by apply not_elem_of_nil in Hmode].
    eexists. split; [apply list_elem_of_here|reflexivity].
  - apply Forall_forall. repeat constructor; by intros [=].
  - by right.
Defined.

(** X15. [generate_itinerary], whatever its outcome, leaves the data frames
    of the catalog as they were and does not change any accommodation
    dictionary that existed before the call. *)
Theorem generate_itinerary_frame
    (user_preferences : UserPreferences) (w : World) :
  w_catalog (generate_itinerary user_preferences w).2 = w_catalog w
  ∧ ∀ l d, w_heap w !! l = Some d →
           w_heap (generate_itinerary user_preferences w).2 !! l = Some d.
Proof.
  by destruct (generate_itinerary_outcome user_preferences w) as [Hpres _].
Qed.

(** * The returned itinerary *)

(** What the master lemma says of a returned plan. *)
Lemma returned_plan_facts user_preferences destination_id day_number
    daily_budget (w w' : World) (destination : Destination) plan :
  get_destination_by_id destination_id w = (Ok destination, w) →
  recommend_daily_plan user_preferences destination_id day_number
    daily_budget w = (Ok plan, w') →
  ((0 <= daily_budget)%Q → (dp_total_cost plan <= daily_budget)%Q)
  ∧ (day_number = 1%Z →
     dp_title plan = "Welcome to " +:+ dest_name destination)
  ∧ (day_number ≠ 1%Z → day_number = up_duration user_preferences →
     dp_title plan = "Final Day in " +:+ dest_name destination)
  ∧ (day_number ≠ 1%Z → day_number ≠ up_duration user_preferences →
     is_middle_title destination day_number (dp_title plan)).
Proof.
  intros Hdest H.
  destruct (recommend_daily_plan_outcome user_preferences destination_id
              day_number daily_budget w destination Hdest)
    as (lm & la & le & sm & sa & se & Hm & Ha & He & Hsm & Hsa & Hse & _
        & [(title & Hplan & Hfirst & Hlast & Hmiddle)|(Hraise & _)]);
    rewrite H in *; simpl in *; [|discriminate Hraise].
  injection Hplan as ->. simpl. split.
  - intros Hbudget.
    pose proof (period_query_elements _ _ _ _ _ _ _ Hm) as Hlm.
    pose proof (period_query_elements _ _ _ _ _ _ _ Ha) as Hla.
    pose proof (period_query_elements _ _ _ _ _ _ _ He) as Hle.
    assert (Hcm : (slot_cost sm <= daily_budget * 0.3)%Q).
    { destruct Hsm as [[_ ->]|(a & Hin & ->)]; [simpl; lra|].
      by destruct (Hlm a Hin) as (_ & _ & ? & _). }
    assert (Hca : (slot_cost sa <= daily_budget * 0.4)%Q).
    { destruct Hsa as [[_ ->]|(a & Hin & ->)];
        [simpl; rewrite half_spec; lra|].
      by destruct (Hla a Hin) as (_ & _ & ? & _). }
    assert (Hce : (slot_cost se <= daily_budget * 0.3)%Q).
    { destruct Hse as [[_ ->]|(a & Hin & ->)];
        [simpl; rewrite half_spec; lra|].
      by destruct (Hle a Hin) as (_ & _ & ? & _). }
    lra.
  - split; [exact Hfirst|]. split; [exact Hlast|].
    intros H1 H2. by destruct (Hmiddle H1 H2) as (_ & _ & _ & ?).
Qed.

(** The plans of the loop, day by day. *)
Lemma daily_plans_inv user_preferences destination_id daily_budget
    destination (days : list Z) (w w' : World) plans :
  get_destination_by_id destination_id w = (Ok destination, w) →
  for_each (λ day, recommend_daily_plan user_preferences destination_id day
                     daily_budget) days w = (Ok plans, w') →
  Forall2
    (λ day plan,
       ∃ w1 w2,
         get_destination_by_id destination_id w1 = (Ok destination, w1)
         ∧ w_catalog w1 = w_catalog w
         ∧ recommend_daily_plan user_preferences destination_id day
             daily_budget w1 = (Ok plan, w2))
    days plans.
Proof.
  revert w w' plans.
  induction days as [|day days IH]; intros w w' plans Hdest H.
  - apply ret_ok_inv in H as [<- _]. constructor.
  - simpl in H. bind_inv H as plan w1 Hplan. bind_inv H as rest w2 Hrest.
    apply ret_ok_inv in H as [<- _].
    destruct (recommend_daily_plan_outcome user_preferences destination_id
                day daily_budget w destination Hdest)
      as (_ & _ & _ & _ & _ & _ & _ & _ & _ & _ & _ & _ & Hstore & _).
    rewrite Hplan in Hstore. simpl in Hstore.
    constructor.
    + by exists w, w1.
    + assert (Hdest1 : get_destination_by_id destination_id w1
                       = (Ok destination, w1))
        by by eapply get_destination_by_id_same_store.
      eapply Forall2_impl; [exact (IH w1 w2 rest Hdest1 Hrest)|].
      intros day' plan' (w3 & w4 & Hd3 & Hcat3 & Hrun3).
      exists w3, w4. split; [exact Hd3|]. split; [|exact Hrun3].
      destruct Hstore as [Hcat1 _]. congruence.
Qed.

Lemma inject_Z_succ (n : nat) :
  (inject_Z (Z.of_nat (S n)) == inject_Z (Z.of_nat n) + 1)%Q.
Proof. rewrite Nat2Z.inj_succ. unfold Z.succ. by rewrite inject_Z_plus. Qed.

Lemma fold_left_sum_bound (xs : list Q) (a c : Q) :
  Forall (λ x, x <= c)%Q xs →
  (fold_left Qplus xs a <= a + inject_Z (Z.of_nat (length xs)) * c)%Q.
Proof.
  intros H. revert a. induction H as [|x xs Hx _ IH]; intros a.
  - simpl. unfold inject_Z. rewrite Qmult_0_l, Qplus_0_r. apply Qle_refl.
  - simpl fold_left. eapply Qle_trans; [apply IH|].
    change (length (x :: xs)) with (S (length xs)).
    rewrite inject_Z_succ. simpl in Hx. nra.
Qed.

Lemma py_sum_bound (xs : list Q) (c : Q) :
  Forall (λ x, x <= c)%Q xs →
  (py_sum xs <= inject_Z (Z.of_nat (length xs)) * c)%Q.
Proof.
  intros H. unfold py_sum.
  eapply Qle_trans; [by apply fold_left_sum_bound|]. lra.
Qed.

Lemma remaining_budget_nonneg user_preferences bb :
  (0 <= up_budget user_preferences)%Q →
  (0 <= remaining_budget user_preferences bb)%Q.
Proof.
  intros Hbudget. unfold remaining_budget. cbv zeta.
  destruct (py_lt _ 0) eqn:E.
  - lra.
  - by apply py_lt_false in E.
Qed.

(** X13. The budget breakdown of a returned itinerary agrees with its
    records: the transportation entry is the cost of the transportation
    record, the accommodation entry is the [total_cost] of the accommodation
    dictionary, itself [cost_per_night * duration]; food is 40% and
    miscellaneous 10% of the budget that remains after these two, or of 20%
    of the whole budget when they exceed it.  With a non-negative budget,
    food and miscellaneous are never negative. *)
Theorem budget_breakdown_agrees_with_the_records
    (user_preferences : UserPreferences) (w w' : World) (it : Itinerary) :
  generate_itinerary user_preferences w = (Ok it, w') →
  let bb := it_budget_breakdown it in
  bb_transportation bb = tr_cost (it_transportation it)
  ∧ d_total_cost (it_accommodation it) = Some (bb_accommodation bb)
  ∧ bb_accommodation bb
    = (d_cost_per_night (it_accommodation it)
       * inject_Z (up_duration user_preferences))%Q
  ∧ bb_food bb = (remaining_budget user_preferences bb * 0.4)%Q
  ∧ bb_miscellaneous bb = (remaining_budget user_preferences bb * 0.1)%Q
  ∧ ((0 <= up_budget user_preferences)%Q →
     (0 <= bb_food bb)%Q ∧ (0 <= bb_miscellaneous bb)%Q).
Proof.
  intros H.
  destruct (generate_itinerary_outcome user_preferences w) as [_ Hout].
  rewrite H in Hout. simpl in Hout.
  destruct Hout as (d & d' & tr & dict & w2 & w3 & _ & _ & _ & _ & _ & Htotal
                    & _ & Htr & Hdict & Hbb & _).
  cbv zeta. rewrite Htr, Hdict.
  pose proof (f_equal bb_transportation Hbb) as Ht.
  pose proof (f_equal bb_accommodation Hbb) as Ha.
  pose proof (f_equal bb_food Hbb) as Hf.
  pose proof (f_equal bb_miscellaneous Hbb) as Hm.
  simpl in Ht, Ha, Hf, Hm.
  split; [exact Ht|]. split; [by rewrite Ha|]. split; [exact Ha|].
  split; [exact Hf|]. split; [exact Hm|].
  intros Hbudget.
  pose proof (remaining_budget_nonneg user_preferences
                (it_budget_breakdown it) Hbudget) as Hnonneg.
  rewrite Hf, Hm. split; lra.
Qed.

Lemma budget_breakdown_agrees_with_the_records_witness :
  ∃ it w',
    generate_itinerary
      (preferences "Paris, France" 3 2000 "Plane" "Hotel"
         ["Sightseeing"; "Cultural & Historical"])
      fixture_world = (Ok it, w')
    ∧ d_total_cost (it_accommodation it)
      = Some (bb_accommodation (it_budget_breakdown it))
    ∧ bb_food (it_budget_breakdown it)
      = (remaining_budget
           (preferences "Paris, France" 3 2000 "Plane" "Hotel"
              ["Sightseeing"; "Cultural & Historical"])
           (it_budget_breakdown it) * 0.4)%Q.
Proof.
  destruct (generate_itinerary
              (preferences "Paris, France" 3 2000 "Plane" "Hotel"
                 ["Sightseeing"; "Cultural & Historical"])
              fixture_world) as [[it|e] w'] eqn:E.
  - exists it, w'. split; [reflexivity|].
    destruct (budget_breakdown_agrees_with_the_records _ _ _ _ E)
      as (_ & Hacc & _ & Hfood & _).
    by split.
  - vm_compute in E. discriminate E.
Defined.

(** X14. In a returned itinerary, for a non-negative budget, the activities
    entry of the breakdown (the sum of the daily totals) never exceeds the
    budget that remains after transportation and accommodation (or 20% of
    the budget when nothing remains): every day stays within its share of
    it. *)
Theorem activities_within_the_remaining_budget
    (user_preferences : UserPreferences) (w w' : World) (it : Itinerary) :
  (0 <= up_budget user_preferences)%Q →
  generate_itinerary user_preferences w = (Ok it, w') →
  (bb_activities (it_budget_breakdown it)
   <= remaining_budget user_preferences (it_budget_breakdown it))%Q.
Proof.
  intros Hbudget H.
  destruct (generate_itinerary_outcome user_preferences w) as [_ Hout].
  rewrite H in Hout. simpl in Hout.
  destruct Hout as (d & d' & tr & dict & w2 & w3 & _ & _ & Hnonzero & _ & Hdest
                    & _ & _ & _ & _ & Hbb & Hloop).
  pose proof (remaining_budget_nonneg user_preferences
                (it_budget_breakdown it) Hbudget) as Hrem.
  set (remaining := remaining_budget user_preferences
                      (it_budget_breakdown it)) in *.
  assert (Hact : bb_activities (it_budget_breakdown it)
                 = py_sum (dp_total_cost <$> it_daily_plan it))
    by by rewrite Hbb.
  rewrite Hact.
  pose proof (daily_plans_inv _ _ _ _ _ _ _ _ Hdest Hloop) as Hplans.
  apply Forall2_length in Hplans as Hlength.
  unfold py_range in Hlength. rewrite length_seqZ in Hlength.
  destruct (Z_lt_le_dec (up_duration user_preferences) 0) as [Hneg|Hpos].
  { replace (Z.to_nat (up_duration user_preferences + 1 - 1)) with 0%nat
      in Hlength by lia.
    destruct (it_daily_plan it); [|discriminate Hlength]. exact Hrem. }
  assert (Hd : (0 < inject_Z (up_duration user_preferences))%Q).
  { change 0%Q with (inject_Z 0). rewrite <- Zlt_Qlt. lia. }
  set (b := (remaining / inject_Z (up_duration user_preferences))%Q) in *.
  assert (Hb : (0 <= b)%Q).
  { unfold b. apply Qle_shift_div_l; [exact Hd|]. lra. }
  assert (Hall : Forall (λ x, x <= b)%Q (dp_total_cost <$> it_daily_plan it)).
  { apply Forall_fmap. apply Forall_forall. intros plan Hplan.
    apply list_elem_of_lookup_1 in Hplan as (i & Hi).
    destruct (Forall2_lookup_r _ _ _ _ _ Hplans Hi)
      as (day & _ & w1 & w1' & Hdest1 & _ & Hrun).
    simpl. by apply (returned_plan_facts _ _ _ _ _ _ _ _ Hdest1 Hrun). }
  eapply Qle_trans; [by apply py_sum_bound|].
  rewrite length_fmap, <- Hlength, Z2Nat.id by lia.
  replace (up_duration user_preferences + 1 - 1)%Z
    with (up_duration user_preferences) by lia.
  unfold b. rewrite Qmult_div_r; [lra|]. lra.
Qed.

Lemma activities_within_the_remaining_budget_witness :
  ∃ it w',
    generate_itinerary
      (preferences "Paris, France" 3 2000 "Plane" "Hotel"
         ["Sightseeing"; "Cultural & Historical"])
      fixture_world = (Ok it, w')
    ∧ (bb_activities (it_budget_breakdown it)
       <= remaining_budget
            (preferences "Paris, France" 3 2000 "Plane" "Hotel"
               ["Sightseeing"; "Cultural & Historical"])
            (it_budget_breakdown it))%Q.
Proof.
  destruct (generate_itinerary
              (preferences "Paris, France" 3 2000 "Plane" "Hotel"
                 ["Sightseeing"; "Cultural & Historical"])
              fixture_world) as [[it|e] w'] eqn:E.
  - exists it, w'. split; [reflexivity|].
    apply (activities_within_the_remaining_budget
             (preferences "Paris, France" 3 2000 "Plane" "Hotel"
                ["Sightseeing"; "Cultural & Historical"])
             fixture_world w' it); [done|exact E].
  - vm_compute in E. discriminate E.
Defined.

(** X16. The daily plans of a returned itinerary are the plans of the days 1
    to [duration], in this order: there are [duration] of them, the first is
    titled "Welcome to <destination>", the last one (when there are several)
    "Final Day in <destination>", and every one in between has a title of a
    middle day; the destination of the titles is the first row of the
    catalog with the identifier of the itinerary's destination. *)
Theorem daily_plans_follow_the_days
    (user_preferences : UserPreferences) (w w' : World) (it : Itinerary) :
  generate_itinerary user_preferences w = (Ok it, w') →
  ∃ destination,
    destination ∈ destinations_df (w_catalog w)
    ∧ dest_id destination = dest_id (it_destination it)
    ∧ length (it_daily_plan it) = Z.to_nat (up_duration user_preferences)
    ∧ ∀ i plan,
        it_daily_plan it !! i = Some plan →
        (i = 0%nat →
         dp_title plan = "Welcome to " +:+ dest_name destination)
        ∧ (i ≠ 0%nat → Z.of_nat (S i) = up_duration user_preferences →
           dp_title plan = "Final Day in " +:+ dest_name destination)
        ∧ (i ≠ 0%nat → Z.of_nat (S i) ≠ up_duration user_preferences →
           is_middle_title destination (Z.of_nat (S i)) (dp_title plan)).
Proof.
  intros H.
  destruct (generate_itinerary_outcome user_preferences w) as [_ Hout].
  rewrite H in Hout. simpl in Hout.
  destruct Hout as (d & d' & tr & dict & w2 & w3 & _ & _ & _ & Hcat & Hdest
                    & _ & Hd & _ & _ & _ & Hloop).
  exists d'.
  apply get_destination_by_id_ok_inv in Hdest as Hd'.
  destruct Hd' as (_ & Hin & Hid).
  split; [by rewrite <- Hcat|]. split; [by rewrite Hd|].
  pose proof (daily_plans_inv _ _ _ _ _ _ _ _ Hdest Hloop) as Hplans.
  split.
  { apply Forall2_length in Hplans. unfold py_range in Hplans.
    rewrite length_seqZ in Hplans. rewrite <- Hplans. f_equal. lia. }
  intros i plan Hi.
  destruct (Forall2_lookup_r _ _ _ _ _ Hplans Hi)
    as (day & Hday & w1 & w1' & Hdest1 & _ & Hrun).
  unfold py_range in Hday. apply lookup_seqZ in Hday as [-> _].
  destruct (returned_plan_facts _ _ _ _ _ _ _ _ Hdest1 Hrun)
    as (_ & Hfirst & Hlast & Hmiddle).
  replace (1 + Z.of_nat i)%Z with (Z.of_nat (S i)) in * by lia.
  split; [intros ->; by apply Hfirst|].
  split; [intros Hi0 Hlast'; apply Hlast; [lia|exact Hlast']|].
  intros Hi0 Hmid. apply Hmiddle; [lia|exact Hmid].
Qed.

Lemma daily_plans_follow_the_days_witness :
  ∃ it w',
    generate_itinerary
      (preferences "Paris, France" 3 2000 "Plane" "Hotel"
         ["Sightseeing"; "Cultural & Historical"])
      fixture_world = (Ok it, w')
    ∧ length (it_daily_plan it) = 3%nat.
Proof.
  destruct (generate_itinerary
              (preferences "Paris, France" 3 2000 "Plane" "Hotel"
                 ["Sightseeing"; "Cultural & Historical"])
              fixture_world) as [[it|e] w'] eqn:E.
  - exists it, w'. split; [reflexivity|].
    by destruct (daily_plans_follow_the_days _ _ _ _ E) as (d & _ & _ & ? & _).
  - vm_compute in E. discriminate E.
Defined.

(** * The construction of the data frames *)

Lemma draws_only_refl w : draws_only w w.
Proof. done. Qed.

Lemma draws_only_trans w1 w2 w3 :
  draws_only w1 w2 → draws_only w2 w3 → draws_only w1 w3.
Proof.
  intros (? & ? & ?) (? & ? & ?). repeat split; congruence.
Qed.

Lemma always_ret {A} (a : A) (P : A → Prop) : P a → always (mret a) P.
Proof. intros H w. exists a, w. by split; [|split; [|apply draws_only_refl]]. Qed.

Lemma always_bind {A B} (m : M A) (f : A → M B) (P : A → Prop)
    (Q : B → Prop) :
  always m P → (∀ a, P a → always (f a) Q) → always (m ≫= f) Q.
Proof.
  intros Hm Hf w. destruct (Hm w) as (a & w1 & Hrun & Ha & Hw1).
  destruct (Hf a Ha w1) as (b & w2 & Hrun' & Hb & Hw2).
  exists b, w2. rewrite run_bind, Hrun. split; [exact Hrun'|].
  split; [exact Hb|]. by eapply draws_only_trans.
Qed.

Lemma always_mono {A} (m : M A) (P Q : A → Prop) :
  always m P → (∀ a, P a → Q a) → always m Q.
Proof.
  intros Hm HPQ w. destruct (Hm w) as (a & w1 & Hrun & Ha & Hw1).
  exists a, w1. auto.
Qed.

Lemma always_choice {A} (xs : list A) :
  xs ≠ [] → always (choice xs) (λ x, x ∈ xs).
Proof.
  intros Hxs w. destruct (choice_run xs w Hxs) as (x & Hx & Hrun).
  exists x, (advance w). by split; [|split].
Qed.

Lemma always_randint (a b : Z) :
  (a <= b)%Z → always (randint a b) (λ n, (a <= n <= b)%Z).
Proof.
  intros Hab w. eexists _, _. split; [apply randint_run|]. split; [|done].
  pose proof (Z.mod_pos_bound (Z.of_nat (w_tape w (w_pos w))) (b - a + 1)).
  lia.
Qed.

Lemma always_random : always random (λ r, (0 <= r)%Q ∧ (r <= 1)%Q).
Proof.
  intros w. eexists _, _. split; [apply random_run|]. split; [|done].
  pose proof (Nat.mod_upper_bound (w_tape w (w_pos w)) 1000).
  unfold Qle. simpl. lia.
Qed.

Lemma always_uniform (a b : Q) :
  (a <= b)%Q → always (uniform a b) (λ x, (a <= x)%Q ∧ (x <= b)%Q).
Proof.
  intros Hab. unfold uniform.
  eapply always_bind; [apply always_random|].
  intros r [H0 H1]. apply always_ret. split; nra.
Qed.

Lemma always_for_each {A B} (f : A → M B) (xs : list A)
    (P : A → B → Prop) :
  (∀ x, x ∈ xs → always (f x) (P x)) →
  always (for_each f xs) (Forall2 P xs).
Proof.
  induction xs as [|x xs IH]; intros Hf.
  - apply always_ret. constructor.
  - simpl. eapply always_bind; [apply Hf, list_elem_of_here|].
    intros y Hy. eapply always_bind.
    + apply IH. intros x' Hx'. by apply Hf, list_elem_of_further.
    + intros ys Hys. apply always_ret. by constructor.
Qed.

Lemma generic_rows (dest : Destination) (id : Z) (category : string)
    (k : Z) (n : nat) (rows : list Activity) :
  Forall2 (λ i a, generic_row dest (id + i) category a)
    (seqZ k (Z.of_nat n)) rows →
  act_id <$> rows = seqZ (id + k) (Z.of_nat n)
  ∧ act_category <$> rows = replicate n category
  ∧ Forall (is_generic_activity dest) rows.
Proof.
  revert k rows. induction n as [|n IH]; intros k rows H.
  - apply Forall2_nil_inv_l in H as ->. done.
  - rewrite Nat2Z.inj_succ, seqZ_cons in H by lia.
    apply Forall2_cons_inv_l in H as (a & rows' & (Hid & Hcat & Ha) & H & ->).
    replace (Z.pred (Z.succ (Z.of_nat n))) with (Z.of_nat n) in H by lia.
    destruct (IH _ _ H) as (Hids & Hcats & Hall).
    rewrite Nat2Z.inj_succ, seqZ_cons by lia.
    replace (Z.pred (Z.succ (Z.of_nat n))) with (Z.of_nat n) by lia.
    rewrite !fmap_cons, Hid, Hcat, Hids, Hcats.
    replace (Z.succ (id + k)) with (id + Z.succ k)%Z by lia.
    split; [reflexivity|]. split; [reflexivity|]. by constructor.
Qed.

Lemma inject_Z_bounds (n lo hi c : Z) :
  (lo <= n <= hi)%Z → (0 <= c)%Z →
  (0 <= lo)%Z →
  (0 <= inject_Z (n * c))%Q
  ∧ (inject_Z (n * c) <= inject_Z hi * inject_Z c)%Q.
Proof.
  intros Hn Hc Hlo. rewrite <- inject_Z_mult. change 0%Q with (inject_Z 0).
  rewrite <- !Zle_Qle. nia.
Qed.

Ltac table_entry :=
  repeat first [apply list_elem_of_here | apply list_elem_of_further].

Ltac cost_bounds Hcost :=
  let Hlevel := fresh "Hlevel" in
  let Hlow := fresh "Hlow" in
  let Hhigh := fresh "Hhigh" in
  intros Hlevel;
  match type of Hcost with
  | (?lo <= _ <= ?hi)%Z =>
      destruct (inject_Z_bounds _ lo hi _ Hcost Hlevel ltac:(lia))
        as [Hlow Hhigh];
      change (inject_Z hi) with (hi # 1) in Hhigh
  end;
  simpl act_cost; simpl act_category;
  match goal with
  | |- context [price_ceiling ?c] =>
      let v := eval vm_compute in (price_ceiling c) in
      change (price_ceiling c) with v
  end;
  rewrite ?half_spec; split; lra.

Ltac generic_row_tac Hcost Hpop :=
  cbv beta in Hcost, Hpop;
  apply always_ret; split; [reflexivity|]; split; [reflexivity|];
  split; [reflexivity|]; split; [table_entry|];
  split; [simpl; lra|]; split; [simpl; lra|];
  cost_bounds Hcost.

Ltac comprehension :=
  let Hcost := fresh "Hcost" in
  let Hpop := fresh "Hpop" in
  apply always_for_each; intros ? _;
  eapply always_bind; [by apply always_choice|]; intros ? _;
  eapply always_bind; [apply always_randint; lia|]; intros ? Hcost;
  eapply always_bind; [by apply always_uniform|]; intros ? Hpop;
  generic_row_tac Hcost Hpop.

Lemma create_activities_for_rows (activities : list Activity)
    (activity_id : Z) (dest : Destination) :
  always (create_activities_for (activities, activity_id) dest)
    (λ state,
       ∃ rows,
         state = (activities ++ rows, (activity_id + 16)%Z)
         ∧ act_id <$> rows = seqZ activity_id 16
         ∧ act_category <$> rows = generic_categories
         ∧ Forall (is_generic_activity dest) rows).
Proof.
  unfold create_activities_for.
  eapply always_bind.
  { instantiate (1 := Forall2 (λ i a, generic_row dest (activity_id + i)
                                        "Cultural & Historical" a)
                        (py_range 0 3)).
    comprehension. }
  intros cultural Hcultural. cbv zeta.
  eapply always_bind.
  { instantiate (1 := Forall2 (λ i a, generic_row dest (activity_id + 3 + i)
                                        "Outdoor & Adventure" a)
                        (py_range 0 3)).
    comprehension. }
  intros outdoor Houtdoor.
  eapply always_bind.
  { instantiate (1 := Forall2 (λ i a, generic_row dest
                                        (activity_id + 3 + 3 + i)
                                        "Food & Culinary" a)
                        (py_range 0 2)).
    comprehension. }
  intros food Hfood.
  eapply always_bind.
  { instantiate (1 := Forall2 (λ i a, generic_row dest
                                        (activity_id + 3 + 3 + 2 + i)
                                        "Relaxation & Wellness" a)
                        (py_range 0 2)).
    comprehension. }
  intros relaxation Hrelaxation.
  eapply always_bind; [by apply always_choice|]; intros hours _.
  eapply always_bind; [apply always_randint; lia|]; intros cost Hcost.
  eapply always_bind; [by apply always_uniform|]; intros popularity Hpop.
  eapply always_bind.
  { instantiate (1 := Forall2 (λ i a, generic_row dest
                                        (activity_id + 3 + 3 + 2 + 2 + 1 + i)
                                        "Entertainment" a)
                        (py_range 0 2)).
    comprehension. }
  intros entertainment Hentertainment.
  eapply always_bind.
  { instantiate (1 := Forall2 (λ i a, generic_row dest
                                        (activity_id + 3 + 3 + 2 + 2 + 1 + 2
                                         + i)
                                        "Sightseeing" a)
                        (py_range 0 3)).
    apply always_for_each; intros i _.
    eapply always_bind; [by apply always_choice|]; intros hours' _.
    eapply always_bind; [apply always_randint; lia|]; intros cost' Hcost'.
    eapply always_bind; [by apply always_choice|]; intros evening _.
    eapply always_bind; [by apply always_uniform|]; intros popularity' Hpop'.
    destruct evening; generic_row_tac Hcost' Hpop'. }
  intros sightseeing Hsightseeing.
  apply always_ret.
  apply (generic_rows _ _ _ 0 3) in Hcultural as (Hi1 & Hc1 & Ha1).
  apply (generic_rows _ _ _ 0 3) in Houtdoor as (Hi2 & Hc2 & Ha2).
  apply (generic_rows _ _ _ 0 2) in Hfood as (Hi3 & Hc3 & Ha3).
  apply (generic_rows _ _ _ 0 2) in Hrelaxation as (Hi4 & Hc4 & Ha4).
  apply (generic_rows _ _ _ 0 2) in Hentertainment as (Hi6 & Hc6 & Ha6).
  apply (generic_rows _ _ _ 0 3) in Hsightseeing as (Hi7 & Hc7 & Ha7).
  eexists. split.
  { rewrite <- !(assoc_L (++)). f_equal. lia. }
  rewrite !fmap_app, Hi1, Hi2, Hi3, Hi4, Hi6, Hi7, Hc1, Hc2, Hc3, Hc4, Hc6, Hc7.
  split; [|split].
  - cbv [seqZ Z.to_nat Pos.to_nat Pos.iter_op Nat.add seq fmap list_fmap
         Z.of_nat app]. simpl. repeat (f_equal; try lia).
  - reflexivity.
  - repeat (apply Forall_app; split); try done.
    apply Forall_singleton.
    assert (generic_row dest (activity_id + 3 + 3 + 2 + 2) "Shopping"
              (activity (activity_id + 3 + 3 + 2 + 2) (dest_id dest)
                 ("Shopping Experience in " +:+ dest_name dest) "Shopping"
                 ("Explore local markets, boutiques, or shopping districts in "
                  +:+ dest_name dest +:+ ".")
                 hours (inject_Z (cost * dest_cost_level dest))
                 false true true popularity)) as (_ & _ & H).
    { cbv beta in Hcost, Hpop.
      split; [reflexivity|]. split; [reflexivity|].
      split; [reflexivity|]. split; [table_entry|].
      split; [simpl; lra|]. split; [simpl; lra|].
      cost_bounds Hcost. }
    exact H.
Qed.

Lemma seqZ_add (m n1 n2 : Z) :
  (0 <= n1)%Z → (0 <= n2)%Z →
  seqZ m (n1 + n2) = seqZ m n1 ++ seqZ (m + n1) n2.
Proof. intros. by apply seqZ_app. Qed.

Lemma create_activities_fold (dests : list Destination)
    (activities : list Activity) (activity_id : Z) :
  always (for_fold create_activities_for dests (activities, activity_id))
    (λ state,
       ∃ blocks,
         state = (activities ++ concat blocks,
                  (activity_id + 16 * Z.of_nat (length dests))%Z)
         ∧ Forall2
             (λ d rows,
                act_category <$> rows = generic_categories
                ∧ Forall (is_generic_activity d) rows)
             dests blocks
         ∧ act_id <$> concat blocks
           = seqZ activity_id (16 * Z.of_nat (length dests))).
Proof.
  revert activities activity_id.
  induction dests as [|d dests IH]; intros activities activity_id.
  - apply always_ret. exists []. simpl. rewrite app_nil_r, Z.add_0_r.
    split; [reflexivity|]. split; [constructor|reflexivity].
  - simpl for_fold.
    eapply always_bind; [apply create_activities_for_rows|].
    intros state (rows & -> & Hids & Hcats & Hrows).
    eapply always_mono; [apply IH|].
    intros state (blocks & -> & Hblocks & Hids').
    exists (rows :: blocks). simpl concat.
    split; [|split].
    + rewrite (assoc_L (++)). f_equal. simpl length. lia.
    + by constructor.
    + rewrite fmap_app, Hids, Hids'. simpl length.
      replace (16 * Z.of_nat (S (length dests)))%Z
        with (16 + 16 * Z.of_nat (length dests))%Z by lia.
      rewrite seqZ_add by lia. reflexivity.
Qed.

Lemma specific_activities_shape (activity_id : Z) :
  length (specific_activities activity_id) = 6%nat
  ∧ act_id <$> specific_activities activity_id = seqZ activity_id 6
  ∧ Forall (λ a, suitability a ∈ suitability_table)
      (specific_activities activity_id).
Proof.
  split; [reflexivity|]. split.
  - cbv [seqZ Z.to_nat Pos.to_nat Pos.iter_op Nat.add seq fmap list_fmap
         Z.of_nat app specific_activities act_id activity].
    repeat (f_equal; try lia).
  - unfold specific_activities. cbv zeta. simpl app.
    repeat (apply Forall_cons; split; [table_entry|]). constructor.
Qed.

Lemma elem_of_concat {A} (x : A) (ls : list (list A)) :
  x ∈ concat ls ↔ ∃ l, x ∈ l ∧ l ∈ ls.
Proof.
  induction ls as [|l ls IH]; simpl.
  - split; [by intros ?%not_elem_of_nil|].
    by intros (l & _ & ?%not_elem_of_nil).
  - rewrite elem_of_app, IH. split.
    + intros [H|(l' & H & Hl')].
      * exists l. split; [exact H|apply list_elem_of_here].
      * exists l'. split; [exact H|by apply list_elem_of_further].
    + intros (l' & H & [->|Hl']%elem_of_cons); [by left|].
      right. by exists l'.
Qed.

Lemma generic_in_table (d : Destination) (a : Activity) :
  is_generic_activity d a → suitability a ∈ suitability_table.
Proof. by intros (_ & ? & _). Qed.

Lemma blocks_length {A B} (P : A → list B → Prop) (n : nat)
    (xs : list A) (blocks : list (list B)) :
  Forall2 (λ x rows, P x rows ∧ length rows = n) xs blocks →
  length (concat blocks) = (n * length xs)%nat.
Proof.
  induction 1 as [|x rows xs blocks [_ Hn] _ IH]; simpl; [lia|].
  rewrite length_app, Hn, IH. lia.
Qed.

(** The run of [_create_activity_data]: it returns, having replaced the
    activity frame by one of the shape [activities_created]. *)
Lemma create_activity_data_run (w : World) :
  ∃ acts w',
    _create_activity_data w = (Ok (), w')
    ∧ w_catalog w'
      = {| destinations_df := destinations_df (w_catalog w);
           activities_df := acts;
           transportation_df := transportation_df (w_catalog w);
           accommodations_df := accommodations_df (w_catalog w) |}
    ∧ w_heap w' = w_heap w ∧ w_tape w' = w_tape w
    ∧ activities_created (destinations_df (w_catalog w)) acts.
Proof.
  unfold _create_activity_data. rewrite run_bind. unfold gets at 1.
  cbv beta iota. rewrite run_bind.
  destruct (create_activities_fold (destinations_df (w_catalog w)) [] 1 w)
    as (state & w1 & -> & (blocks & -> & Hblocks & Hids) & Hcat & Hheap
        & Htape).
  cbv beta iota. simpl app.
  set (dests := destinations_df (w_catalog w)) in *.
  set (n := (16 * Z.of_nat (length dests) + 1)%Z).
  assert (Hlength : length (concat blocks) = (16 * length dests)%nat).
  { apply (blocks_length (λ d rows, Forall (is_generic_activity d) rows)).
    eapply Forall2_impl; [exact Hblocks|].
    intros d rows [Hcats Hrows]. split; [exact Hrows|].
    apply (f_equal length) in Hcats. by rewrite length_fmap in Hcats. }
  destruct (specific_activities_shape n) as (Hlen6 & Hids6 & Htable6).
  exists (concat blocks ++ specific_activities n). eexists.
  split.
  { unfold put_activities_df, _add_destination_specific_activities.
    rewrite run_bind. cbv beta iota. rewrite run_bind. unfold gets.
    cbv beta iota. simpl. rewrite Hlength.
    replace (Z.of_nat (16 * length dests) + 1)%Z with n by (unfold n; lia).
    reflexivity. }
  simpl. rewrite Hcat, Hheap, Htape.
  split; [reflexivity|]. split; [reflexivity|]. split; [reflexivity|].
  split; [|split; [|split]].
  - rewrite length_app, Hlength, Hlen6. reflexivity.
  - rewrite fmap_app, Hids, Hids6, length_app, Hlength, Hlen6.
    replace (Z.of_nat (16 * length dests + 6))
      with (16 * Z.of_nat (length dests) + 6)%Z by lia.
    rewrite seqZ_add by lia. f_equal. f_equal. unfold n. lia.
  - intros a [Ha|Ha]%elem_of_app.
    + apply elem_of_concat in Ha as (rows & Ha & Hrows).
      apply list_elem_of_lookup_1 in Hrows as (i & Hi).
      destruct (Forall2_lookup_r _ _ _ _ _ Hblocks Hi)
        as (d & Hd & _ & Hall).
      rewrite Forall_forall in Hall. specialize (Hall a Ha).
      split; [by eapply generic_in_table|]. left. exists d.
      split; [by eapply list_elem_of_lookup_2|exact Hall].
    + rewrite Forall_forall in Htable6. split; [by apply Htable6|by right].
  - intros d category Hd Hcategory.
    apply list_elem_of_lookup_1 in Hd as (i & Hi).
    destruct (Forall2_lookup_l _ _ _ _ _ Hblocks Hi)
      as (rows & Hrows & Hcats & Hall).
    rewrite <- Hcats in Hcategory.
    apply list_elem_of_fmap in Hcategory as (a & -> & Ha).
    exists a. split; [|split; [|reflexivity]].
    + apply elem_of_app. left. apply elem_of_concat. exists rows.
      split; [exact Ha|by eapply list_elem_of_lookup_2].
    + rewrite Forall_forall in Hall. by apply Hall.
Qed.

Ltac accommodation_row :=
  split; [reflexivity|]; split; [simpl; table_entry|]; simpl; lra.

Lemma create_accommodations_for_rows (dest : Destination) :
  always (create_accommodations_for dest)
    (λ rows,
       acc_type <$> rows = accommodation_types
       ∧ Forall (is_accommodation_of dest) rows).
Proof.
  unfold create_accommodations_for.
  do 12 (eapply always_bind; [by apply always_uniform|]; intros ? [? ?]).
  apply always_ret. split; [reflexivity|].
  simpl app. repeat (apply Forall_cons; split; [accommodation_row|]).
  constructor.
Qed.

(** The run of [_create_accommodation_data]: it returns, having replaced
    the accommodation frame by one of the shape [accommodations_created]. *)
Lemma create_accommodation_data_run (w : World) :
  ∃ accs w',
    _create_accommodation_data w = (Ok (), w')
    ∧ w_catalog w'
      = {| destinations_df := destinations_df (w_catalog w);
           activities_df := activities_df (w_catalog w);
           transportation_df := transportation_df (w_catalog w);
           accommodations_df := accs |}
    ∧ w_heap w' = w_heap w ∧ w_tape w' = w_tape w
    ∧ accommodations_created (destinations_df (w_catalog w)) accs.
Proof.
  unfold _create_accommodation_data. rewrite run_bind. unfold gets at 1.
  cbv beta iota. rewrite run_bind.
  set (dests := destinations_df (w_catalog w)).
  destruct (always_for_each create_accommodations_for dests _
              (λ d _, create_accommodations_for_rows d) w)
    as (blocks & w1 & -> & Hblocks & Hcat & Hheap & Htape).
  cbv beta iota.
  exists (concat blocks). eexists. split; [reflexivity|].
  simpl. rewrite Hcat, Hheap, Htape.
  split; [reflexivity|]. split; [reflexivity|]. split; [reflexivity|].
  split; [|split].
  - apply (blocks_length (λ d rows, Forall (is_accommodation_of d) rows)).
    eapply Forall2_impl; [exact Hblocks|].
    intros d rows [Htypes Hrows]. split; [exact Hrows|].
    apply (f_equal length) in Htypes. by rewrite length_fmap in Htypes.
  - intros r (rows & Hr & Hrows)%elem_of_concat.
    apply list_elem_of_lookup_1 in Hrows as (i & Hi).
    destruct (Forall2_lookup_r _ _ _ _ _ Hblocks Hi) as (d & Hd & _ & Hall).
    rewrite Forall_forall in Hall. exists d.
    split; [by eapply list_elem_of_lookup_2|by apply Hall].
  - intros d ty Hd Hty.
    apply list_elem_of_lookup_1 in Hd as (i & Hi).
    destruct (Forall2_lookup_l _ _ _ _ _ Hblocks Hi)
      as (rows & Hrows & Htypes & Hall).
    rewrite <- Htypes in Hty.
    apply list_elem_of_fmap in Hty as (r & -> & Hr).
    exists r. split; [|split; [|reflexivity]].
    + apply elem_of_concat. exists rows.
      split; [exact Hr|by eapply list_elem_of_lookup_2].
    + rewrite Forall_forall in Hall. by apply Hall.
Qed.

(** The run of the three constructors: the world of a data manager. *)
Lemma create_frames_run (w : World) :
  ∃ w',
    create_frames w = (Ok (), w')
    ∧ destinations_df (w_catalog w') = destinations_df (w_catalog w)
    ∧ activities_created (destinations_df (w_catalog w))
        (activities_df (w_catalog w'))
    ∧ transportation_df (w_catalog w') = create_transportation_data
    ∧ accommodations_created (destinations_df (w_catalog w))
        (accommodations_df (w_catalog w'))
    ∧ w_heap w' = w_heap w.
Proof.
  unfold create_frames.
  destruct (create_activity_data_run w)
    as (acts & w1 & Hrun1 & Hcat1 & Hheap1 & _ & Hacts).
  rewrite run_bind, Hrun1. cbv beta iota.
  rewrite run_bind. unfold _create_transportation_data at 1.
  unfold put_transportation_df at 1. cbv beta iota.
  match goal with
  | |- context [_create_accommodation_data ?w2] =>
      destruct (create_accommodation_data_run w2)
        as (accs & w3 & Hrun3 & Hcat3 & Hheap3 & _ & Haccs)
  end.
  exists w3. split; [exact Hrun3|].
  simpl in Hcat3, Hheap3, Haccs. rewrite Hcat1 in Hcat3, Haccs.
  simpl in Hcat3, Haccs. rewrite Hcat3. simpl.
  split; [reflexivity|]. split; [exact Hacts|]. split; [reflexivity|].
  split; [exact Haccs|]. congruence.
Qed.

(** X17. [_create_activity_data] always returns, whatever the random source
    gives, and replaces the activity frame only.  The new frame has sixteen
    generic rows for each destination and the six specific rows, its
    identifiers are 1, 2, ... in the order of the rows, every row is in the
    suitability table (so no cultural or outdoor activity is suitable for
    the evening, and no shopping or entertainment activity for the
    morning), and every destination has a generic activity of each of the
    seven categories, with a cost between 0 and the ceiling of its
    category. *)
Theorem created_activities_shape (w : World) :
  ∃ acts w',
    _create_activity_data w = (Ok (), w')
    ∧ w_catalog w'
      = {| destinations_df := destinations_df (w_catalog w);
           activities_df := acts;
           transportation_df := transportation_df (w_catalog w);
           accommodations_df := accommodations_df (w_catalog w) |}
    ∧ w_heap w' = w_heap w
    ∧ activities_created (destinations_df (w_catalog w)) acts.
Proof.
  destruct (create_activity_data_run w)
    as (acts & w' & Hrun & Hcat & Hheap & _ & Hacts).
  by exists acts, w'.
Qed.

(** X18. [_create_accommodation_data] always returns, whatever the random
    source gives, and replaces the accommodation frame only.  The new frame
    has six rows for each destination: every row belongs to a destination
    of the frame, has a rating and a location quality between 3 and 5 and
    the price of its kind (a multiple of the cost level of the
    destination), and every destination has a Hotel, a Hostel, an Airbnb
    and a Resort. *)
Theorem created_accommodations_shape (w : World) :
  ∃ accs w',
    _create_accommodation_data w = (Ok (), w')
    ∧ w_catalog w'
      = {| destinations_df := destinations_df (w_catalog w);
           activities_df := activities_df (w_catalog w);
           transportation_df := transportation_df (w_catalog w);
           accommodations_df := accs |}
    ∧ w_heap w' = w_heap w
    ∧ accommodations_created (destinations_df (w_catalog w)) accs.
Proof.
  destruct (create_accommodation_data_run w)
    as (accs & w' & Hrun & Hcat & Hheap & _ & Haccs).
  by exists accs, w'.
Qed.

(** * The recommendations on the frames the data manager creates *)

(** A row that passes every filter of a period's query keeps the result
    from being empty. *)
Lemma period_query_nonempty user_preferences destination_id time_of_day
    max_cost (w : World) (b : Activity) :
  b ∈ activities_df (w_catalog w) →
  act_destination_id b = destination_id →
  act_category b ∈ up_activities user_preferences →
  act_morning_suitable b = true ∨ time_of_day ≠ "morning" →
  act_afternoon_suitable b = true ∨ time_of_day ≠ "afternoon" →
  act_evening_suitable b = true ∨ time_of_day ≠ "evening" →
  (act_cost b <= max_cost)%Q →
  ∃ activities,
    recommend_activities user_preferences destination_id
      (period_constraints time_of_day max_cost) w = (Ok activities, w)
    ∧ activities ≠ [].
Proof.
  intros Hb Hd Hc Hm Ha He Hcost.
  unfold recommend_activities, get_activities_by_destination.
  rewrite run_bind. simpl.
  set (all_activities :=
         List.filter (λ a, (act_destination_id a =? destination_id)%Z)
           (activities_df (w_catalog w))).
  assert (Hall : b ∈ all_activities).
  { apply elem_of_filter. split; [exact Hb|by apply Z.eqb_eq]. }
  destruct (is_empty all_activities) eqn:Hempty.
  { apply is_empty_true in Hempty. rewrite Hempty in Hall.
    by apply not_elem_of_nil in Hall. }
  set (matching :=
         List.filter
           (λ a, py_in (act_category a) (up_activities user_preferences))
           all_activities).
  assert (Hmatching : b ∈ matching).
  { apply elem_of_filter. split; [exact Hall|by apply py_in_true]. }
  destruct (is_empty (up_activities user_preferences)) eqn:Hup.
  { apply is_empty_true in Hup. rewrite Hup in Hc.
    by apply not_elem_of_nil in Hc. }
  destruct (is_empty matching) eqn:Hmempty.
  { apply is_empty_true in Hmempty. rewrite Hmempty in Hmatching.
    by apply not_elem_of_nil in Hmatching. }
  set (timed :=
         if (time_of_day =? "morning")%string
         then List.filter act_morning_suitable matching
         else if (time_of_day =? "afternoon")%string
         then List.filter act_afternoon_suitable matching
         else if (time_of_day =? "evening")%string
         then List.filter act_evening_suitable matching
         else matching).
  assert (Htimed : b ∈ timed).
  { unfold timed.
    destruct (time_of_day =? "morning")%string eqn:Em.
    { apply String.eqb_eq in Em. apply elem_of_filter.
      split; [exact Hmatching|]. by destruct Hm. }
    destruct (time_of_day =? "afternoon")%string eqn:Ea.
    { apply String.eqb_eq in Ea. apply elem_of_filter.
      split; [exact Hmatching|]. by destruct Ha. }
    destruct (time_of_day =? "evening")%string eqn:Ee.
    { apply String.eqb_eq in Ee. apply elem_of_filter.
      split; [exact Hmatching|]. by destruct He. }
    exact Hmatching. }
  eexists. split; [reflexivity|].
  apply take_nonempty; [done|]. apply py_sort_nonempty.
  intros Hnil.
  assert (Hin : b ∈ List.filter (λ a, py_le (act_cost a) max_cost) timed).
  { apply elem_of_filter. split; [exact Htimed|by apply py_le_true]. }
  rewrite Hnil in Hin. by apply not_elem_of_nil in Hin.
Qed.

(** The categories of what a period's query returns, when the destination
    has an activity of one of the interests. *)
Lemma period_query_categories user_preferences destination_id time_of_day
    max_cost (w w1 : World) (b : Activity) activities :
  b ∈ activities_df (w_catalog w) →
  act_destination_id b = destination_id →
  act_category b ∈ up_activities user_preferences →
  recommend_activities user_preferences destination_id
    (period_constraints time_of_day max_cost) w = (Ok activities, w1) →
  ∀ a, a ∈ activities → act_category a ∈ up_activities user_preferences.
Proof.
  intros Hb Hd Hc H a Ha.
  destruct (recommend_activities_candidates user_preferences destination_id
              (period_constraints time_of_day max_cost) w)
    as (candidates & Hrun & _ & _ & Hcat & _).
  rewrite Hrun in H. injection H as <- <-.
  apply Hcat; [by exists b|].
  rewrite <- (py_sort_perm activity_key tuple_lt true candidates).
  eapply elem_of_sublist; [exact Ha|apply sublist_take].
Qed.

Lemma no_evening_culture (a : Activity) :
  suitability a ∈ suitability_table →
  act_category a ∈ ["Cultural & Historical"; "Outdoor & Adventure"] →
  act_evening_suitable a = false.
Proof.
  unfold suitability, suitability_table. intros Htable Hcat.
  repeat (apply elem_of_cons in Hcat as [Hcat|Hcat]);
    [| |by apply not_elem_of_nil in Hcat];
    rewrite Hcat in Htable;
    repeat (apply elem_of_cons in Htable as [Htable|Htable]);
    try (by apply not_elem_of_nil in Htable);
    by injection Htable.
Qed.

Lemma relaxation_all_day (a : Activity) :
  suitability a ∈ suitability_table →
  act_category a = "Relaxation & Wellness" →
  act_morning_suitable a = true ∧ act_afternoon_suitable a = true
  ∧ act_evening_suitable a = true.
Proof.
  unfold suitability, suitability_table. intros Htable Hcat.
  rewrite Hcat in Htable.
  repeat (apply elem_of_cons in Htable as [Htable|Htable]);
    try (by apply not_elem_of_nil in Htable);
    by injection Htable.
Qed.

Lemma get_destination_by_id_present (d : Destination) (w : World) :
  d ∈ destinations_df (w_catalog w) →
  ∃ d', d' ∈ destinations_df (w_catalog w) ∧ dest_id d' = dest_id d
        ∧ get_destination_by_id (dest_id d) w = (Ok d', w).
Proof.
  intros Hd.
  destruct (get_destination_by_id_cases (dest_id d) w)
    as [(d' & Hd' & Hid & Hrun)|[Habsent _]].
  - by exists d'.
  - by destruct (Habsent d Hd).
Qed.

(** With interests among the cultural and the outdoor category only, the
    evening query is empty on a created activity frame. *)
Lemma culture_only_evening user_preferences (d : Destination)
    (max_cost : Q) (w : World) :
  activities_created (destinations_df (w_catalog w))
    (activities_df (w_catalog w)) →
  d ∈ destinations_df (w_catalog w) →
  up_activities user_preferences ≠ [] →
  (∀ category,
     category ∈ up_activities user_preferences →
     category ∈ ["Cultural & Historical"; "Outdoor & Adventure"]) →
  (recommend_activities user_preferences (dest_id d)
     (period_constraints "evening" max_cost) w).1 = Ok [].
Proof.
  intros (_ & _ & Hrows & Hgeneric) Hd Hne Hinterests.
  destruct (up_activities user_preferences) as [|c0 cs] eqn:Hup; [done|].
  assert (Hc0 : c0 ∈ ["Cultural & Historical"; "Outdoor & Adventure"]).
  { apply Hinterests, list_elem_of_here. }
  assert (Hc0' : c0 ∈ generic_categories).
  { unfold generic_categories. simpl.
    repeat (apply elem_of_cons in Hc0 as [->|Hc0]);
      [table_entry|table_entry|by apply not_elem_of_nil in Hc0]. }
  destruct (Hgeneric d c0 Hd Hc0') as (b & Hb & (Hbd & _) & Hbc).
  destruct (recommend_activities_run user_preferences (dest_id d)
              (period_constraints "evening" max_cost) w)
    as (candidates & E & _).
  simpl default in E. rewrite E. simpl. f_equal.
  destruct (take 3 (py_sort activity_key tuple_lt true candidates))
    as [|a l']; [done|].
  exfalso.
  assert (Ha : a ∈ a :: l') by apply list_elem_of_here.
  assert (Hbc' : act_category b ∈ up_activities user_preferences).
  { rewrite Hbc, Hup. apply list_elem_of_here. }
  pose proof (period_query_categories _ _ _ _ _ _ _ _ Hb Hbd Hbc' E a Ha)
    as Hcat.
  destruct (period_query_elements _ _ _ _ _ _ _ E a Ha)
    as (Hin & _ & _ & _ & _ & Hevening).
  rewrite Hup in Hcat.
  pose proof (no_evening_culture a (proj1 (Hrows a Hin))
                (Hinterests _ Hcat)) as Hno.
  rewrite Hevening in Hno; done.
Qed.

(** X19. On the frames the data manager creates, a traveller whose interests
    are all cultural or outdoor gets no plan for a day that is neither the
    first nor the last, at any destination of the catalog and for any
    budget: no such activity is suitable for the evening, the evening slot
    is a filler, and [recommend_daily_plan] raises [UnboundLocalError]. *)
Theorem culture_only_middle_day_fails
    (user_preferences : UserPreferences) (w0 w : World) (d : Destination)
    (day_number : Z) (daily_budget : Q) :
  create_frames w0 = (Ok (), w) →
  d ∈ destinations_df (w_catalog w) →
  up_activities user_preferences ≠ [] →
  (∀ category,
     category ∈ up_activities user_preferences →
     category ∈ ["Cultural & Historical"; "Outdoor & Adventure"]) →
  day_number ≠ 1%Z → day_number ≠ up_duration user_preferences →
  ∃ w', recommend_daily_plan user_preferences (dest_id d) day_number
          daily_budget w = (Raise UnboundLocalError, w').
Proof.
  intros Hframes Hd Hne Hinterests Hfirst Hlast.
  destruct (create_frames_run w0) as (w' & Hrun & Hdests & Hacts & _).
  rewrite Hframes in Hrun. injection Hrun as <-.
  rewrite <- Hdests in Hacts.
  destruct (get_destination_by_id_present d w Hd) as (d' & _ & _ & Hdest).
  eapply middle_day_with_filler_raises; [exact Hdest|done|done|].
  right. right. by apply culture_only_evening.
Qed.

Lemma culture_only_middle_day_fails_witness :
  ∃ w',
    recommend_daily_plan
      (preferences "Paris, France" 3 2000 "Plane" "Hotel"
         ["Cultural & Historical"])
      1 2 100 (create_frames fixture_world).2
    = (Raise UnboundLocalError, w').
Proof.
  apply (culture_only_middle_day_fails
           (preferences "Paris, France" 3 2000 "Plane" "Hotel"
              ["Cultural & Historical"])
           fixture_world (create_frames fixture_world).2 paris 2 100).
  - vm_compute. reflexivity.
  - vm_compute. apply list_elem_of_here.
  - discriminate.
  - intros category Hc. simpl in Hc.
    apply elem_of_cons in Hc as [->|Hc]; [apply list_elem_of_here|].
    by apply not_elem_of_nil in Hc.
  - discriminate.
  - simpl. discriminate.
Defined.

Lemma slot_of_query (activities : list Activity) (filler slot : Slot) :
  activities ≠ [] → is_slot activities filler slot →
  ∃ a, a ∈ activities ∧ slot = slot_of a.
Proof. by intros Hne [[? _]|?]. Qed.

(** X20. On the frames the data manager creates, a traveller with the
    interest "Relaxation & Wellness" and a daily budget of at least 200
    times the cost level of the destination gets a plan for every day, also
    the days between the first and the last, and no slot of the plan is a
    filler: the relaxation activities of the destination suit every period
    and cost at most 60 times the cost level. *)
Theorem relaxation_fills_every_day
    (user_preferences : UserPreferences) (w0 w : World) (d : Destination)
    (day_number : Z) (daily_budget : Q) :
  create_frames w0 = (Ok (), w) →
  d ∈ destinations_df (w_catalog w) →
  (0 <= dest_cost_level d)%Z →
  "Relaxation & Wellness" ∈ up_activities user_preferences →
  (200 * inject_Z (dest_cost_level d) <= daily_budget)%Q →
  ∃ plan w' morning afternoon evening,
    recommend_daily_plan user_preferences (dest_id d) day_number
      daily_budget w = (Ok plan, w')
    ∧ morning ∈ activities_df (w_catalog w)
    ∧ afternoon ∈ activities_df (w_catalog w)
    ∧ evening ∈ activities_df (w_catalog w)
    ∧ dp_morning plan = slot_of morning
    ∧ dp_afternoon plan = slot_of afternoon
    ∧ dp_evening plan = slot_of evening.
Proof.
  intros Hframes Hd Hlevel Hinterest Hbudget.
  destruct (create_frames_run w0) as (w' & Hrun & Hdests & Hacts & _).
  rewrite Hframes in Hrun. injection Hrun as <-.
  rewrite <- Hdests in Hacts. destruct Hacts as (_ & _ & _ & Hgeneric).
  destruct (Hgeneric d "Relaxation & Wellness" Hd ltac:(table_entry))
    as (b & Hb & (Hbd & Htable & _ & _ & Hcost) & Hbc).
  destruct (relaxation_all_day b Htable Hbc) as (Hm & Ha & He).
  destruct (Hcost Hlevel) as [_ Hceiling]. rewrite Hbc in Hceiling.
  change (price_ceiling "Relaxation & Wellness") with 60%Q in Hceiling.
  assert (Hlevel' : (0 <= inject_Z (dest_cost_level d))%Q).
  { change 0%Q with (inject_Z 0). by rewrite <- Zle_Qle. }
  assert (Hbc' : act_category b ∈ up_activities user_preferences)
    by by rewrite Hbc.
  destruct (period_query_nonempty user_preferences (dest_id d) "morning"
              (daily_budget * 0.3) w b Hb Hbd Hbc')
    as (lm' & Hlm' & Hnem); [by left|by right|by right|lra|].
  destruct (period_query_nonempty user_preferences (dest_id d) "afternoon"
              (daily_budget * 0.4) w b Hb Hbd Hbc')
    as (la' & Hla' & Hnea); [by right|by left|by right|lra|].
  destruct (period_query_nonempty user_preferences (dest_id d) "evening"
              (daily_budget * 0.3) w b Hb Hbd Hbc')
    as (le' & Hle' & Hnee); [by right|by right|by left|lra|].
  destruct (get_destination_by_id_present d w Hd) as (d' & _ & _ & Hdest).
  destruct (recommend_daily_plan_outcome user_preferences (dest_id d)
              day_number daily_budget w d' Hdest)
    as (lm & la & le & sm & sa & se & Hlm & Hla & Hle & Hsm & Hsa & Hse & _
        & Hout).
  rewrite Hlm in Hlm'. injection Hlm' as <-.
  rewrite Hla in Hla'. injection Hla' as <-.
  rewrite Hle in Hle'. injection Hle' as <-.
  destruct (slot_of_query _ _ _ Hnem Hsm) as (am & Ham & ->).
  destruct (slot_of_query _ _ _ Hnea Hsa) as (aa & Haa & ->).
  destruct (slot_of_query _ _ _ Hnee Hse) as (ae & Hae & ->).
  destruct Hout as [(title & Hplan & _)|(_ & _ & _ & [?|[?|?]])];
    [|done|done|done].
  destruct (recommend_daily_plan user_preferences (dest_id d) day_number
              daily_budget w) as [run w1].
  simpl in Hplan. rewrite Hplan.
  eexists _, w1, am, aa, ae. split; [reflexivity|].
  split; [by apply (period_query_elements _ _ _ _ _ _ _ Hlm)|].
  split; [by apply (period_query_elements _ _ _ _ _ _ _ Hla)|].
  split; [by apply (period_query_elements _ _ _ _ _ _ _ Hle)|].
  done.
Qed.

Lemma relaxation_fills_every_day_witness :
  ∃ plan w' morning,
    recommend_daily_plan
      (preferences "Paris, France" 5 4000 "Plane" "Hotel"
         ["Relaxation & Wellness"])
      1 3 600 (create_frames fixture_world).2
    = (Ok plan, w')
    ∧ dp_morning plan = slot_of morning.
Proof.
  destruct (relaxation_fills_every_day
              (preferences "Paris, France" 5 4000 "Plane" "Hotel"
                 ["Relaxation & Wellness"])
              fixture_world (create_frames fixture_world).2 paris 3 600)
    as (plan & w' & morning & afternoon & evening & Hrun & _ & _ & _
        & Hmorning & _).
  - vm_compute. reflexivity.
  - vm_compute. apply list_elem_of_here.
  - vm_compute. discriminate.
  - apply list_elem_of_here.
  - vm_compute. discriminate.
  - exists plan, w', morning. split; [exact Hrun|exact Hmorning].
Defined.

Lemma offered_modes_present (user_preferences : UserPreferences) (mode : string) :
  default "Any" (up_transportation user_preferences)
    ∈ ["Plane"; "Train"; "Bus"; "Car"; "Any"] →
  mode ∈ requested_modes user_preferences →
  ∃ t, t ∈ create_transportation_data ∧ tm_mode t = mode.
Proof.
  intros Hoffered Hmode. apply created_modes. revert Hmode.
  unfold requested_modes.
  destruct (negb (_ =? "Any")%string) eqn:Hany; [|done].
  apply negb_true_iff, String.eqb_neq in Hany.
  intros ->%list_elem_of_singleton.
  repeat (apply elem_of_cons in Hoffered as [Heq|Hoffered];
          [rewrite Heq; table_entry|]).
  - by rewrite Heq in Hany.
  - by apply not_elem_of_nil in Hoffered.
Qed.

Lemma created_speeds_nonzero (t : TransportationMode) :
  t ∈ create_transportation_data → ¬ (tm_speed_km_h t == 0)%Q.
Proof.
  intros Ht Hzero.
  repeat (apply elem_of_cons in Ht as [->|Ht]; [by vm_compute in Hzero|]).
  by apply not_elem_of_nil in Ht.
Qed.

(** X21. On the frames the data manager creates, a trip of three days or
    more never gets its itinerary when the interests are all cultural or
    outdoor: for a destination of the catalog and a transportation option
    of the form, [generate_itinerary] raises [UnboundLocalError], whatever
    the budget and the random source. *)
Theorem culture_only_long_trip_fails
    (user_preferences : UserPreferences) (w0 w : World) (d : Destination) :
  create_frames w0 = (Ok (), w) →
  d ∈ destinations_df (w_catalog w) →
  dest_name d = up_destination user_preferences →
  default "Any" (up_transportation user_preferences)
    ∈ ["Plane"; "Train"; "Bus"; "Car"; "Any"] →
  up_activities user_preferences ≠ [] →
  (∀ category,
     category ∈ up_activities user_preferences →
     category ∈ ["Cultural & Historical"; "Outdoor & Adventure"]) →
  (3 <= up_duration user_preferences)%Z →
  ∃ w', generate_itinerary user_preferences w = (Raise UnboundLocalError, w').
Proof.
  intros Hframes Hd Hname Hoffered Hne Hinterests Hlong.
  destruct (create_frames_run w0) as (w' & Hrun & Hdests & Hacts & Htable & _).
  rewrite Hframes in Hrun. injection Hrun as <-.
  rewrite <- Hdests in Hacts.
  destruct (generate_itinerary_outcome user_preferences w) as [_ Hout].
  destruct (generate_itinerary user_preferences w) as [[it|e] w'] eqn:Hrun;
    simpl in Hout.
  - exfalso.
    destruct Hout as (d0 & d' & tr & dict & w2 & w3 & Hd0 & _ & _ & Hcat
                      & Hdest & _ & _ & _ & _ & _ & Hloop).
    pose proof (daily_plans_inv _ _ _ _ _ _ _ _ Hdest Hloop) as Hplans.
    assert (Hday : py_range 1 (up_duration user_preferences + 1) !! 1%nat
                   = Some 2%Z).
    { unfold py_range. apply lookup_seqZ. lia. }
    destruct (Forall2_lookup_l _ _ _ _ _ Hplans Hday)
      as (plan & _ & w1 & w1' & Hdest1 & Hcat1 & Hplan).
    assert (Hd01 : d0 ∈ destinations_df (w_catalog w1))
      by by rewrite Hcat1, Hcat.
    assert (Hacts1 : activities_created (destinations_df (w_catalog w1))
                       (activities_df (w_catalog w1)))
      by by rewrite Hcat1, Hcat.
    destruct (middle_day_with_filler_raises user_preferences (dest_id d0) 2
                (remaining_budget user_preferences (it_budget_breakdown it)
                 / inject_Z (up_duration user_preferences)) w1 d' Hdest1)
      as (w4 & Hraise); [lia|lia| |].
    + right. right. by apply culture_only_evening.
    + rewrite Hraise in Hplan. discriminate Hplan.
  - destruct Hout as [[_ [Habsent|(mode & Hmode & Habsent)]]
                     |[[_ [Hzero|(t & Ht & Hzero)]]|[-> _]]].
    + by destruct (Habsent d Hd).
    + exfalso. rewrite Htable in Habsent.
      destruct (offered_modes_present _ _ Hoffered Hmode) as (t & Ht & Hmt).
      by apply (Habsent t Ht).
    + lia.
    + exfalso. rewrite Htable in Ht. by apply (created_speeds_nonzero t Ht).
    + by exists w'.
Qed.

Lemma culture_only_long_trip_fails_witness :
  ∃ w',
    generate_itinerary
      (preferences "Paris, France" 3 2000 "Plane" "Hotel"
         ["Cultural & Historical"; "Outdoor & Adventure"])
      (create_frames fixture_world).2
    = (Raise UnboundLocalError, w').
Proof.
  apply (culture_only_long_trip_fails
           (preferences "Paris, France" 3 2000 "Plane" "Hotel"
              ["Cultural & Historical"; "Outdoor & Adventure"])
           fixture_world (create_frames fixture_world).2 paris).
  - vm_compute. reflexivity.
  - vm_compute. apply list_elem_of_here.
  - reflexivity.
  - simpl. table_entry.
  - discriminate.
  - intros category Hc. exact Hc.
  - simpl. lia.
Defined.

(** X22. On the frames the data manager creates, for a duration other than
    zero, [recommend_accommodation] at a destination of the catalog never
    falls back on the generic accommodation: the returned dictionary is the
    copy of a created row of that destination identifier, with a rating
    between 3 and 5 and the total cost [cost_per_night * duration], and a
    preference for Hotel, Hostel, Airbnb or Resort is always honoured. *)
Theorem created_accommodations_honour_the_preference
    (user_preferences : UserPreferences) (w0 w : World) (d : Destination) :
  create_frames w0 = (Ok (), w) →
  d ∈ destinations_df (w_catalog w) →
  up_duration user_preferences ≠ 0%Z →
  ∃ l dict w',
    recommend_accommodation user_preferences (dest_id d) w = (Ok l, w')
    ∧ w_heap w' !! l = Some dict
    ∧ d_destination_id dict = Some (dest_id d)
    ∧ d_type dict ∈ accommodation_types
    ∧ (3 <= d_rating dict)%Q ∧ (d_rating dict <= 5)%Q
    ∧ d_total_cost dict
      = Some (d_cost_per_night dict
              * inject_Z (up_duration user_preferences))%Q
    ∧ ∀ ty,
        up_accommodation user_preferences = Some ty →
        ty ∈ ["Hotel"; "Hostel"; "Airbnb"; "Resort"] →
        d_type dict = ty.
Proof.
  intros Hframes Hd Hduration.
  destruct (create_frames_run w0)
    as (w' & Hrun & Hdests & _ & _ & Haccs & _).
  rewrite Hframes in Hrun. injection Hrun as <-.
  rewrite <- Hdests in Haccs. destruct Haccs as (_ & Hrows & Htypes).
  assert (Hne : rows_at (w_catalog w) (dest_id d) ≠ []).
  { destruct (Htypes d "Hotel" Hd ltac:(table_entry))
      as (r & Hr & (Hrd & _) & _).
    intros Hnil.
    assert (Hin : r ∈ rows_at (w_catalog w) (dest_id d)).
    { apply elem_of_filter. split; [exact Hr|by apply Z.eqb_eq]. }
    rewrite Hnil in Hin. by apply not_elem_of_nil in Hin. }
  pose proof (candidate_rows_nonempty _ user_preferences _ Hne) as Hcne.
  destruct (recommend_accommodation_run user_preferences (dest_id d) w)
    as [[Hnil _]|[(_ & Hzero & _)|(_ & _ & i & r & Hr & _ & Hrun)]];
    [done|done|].
  eexists _, _, _. split; [exact Hrun|]. split.
  { simpl. apply list_lookup_insert_eq.
    rewrite length_app, length_fmap. apply lookup_lt_Some in Hr. lia. }
  apply list_elem_of_lookup_2 in Hr as Hin.
  apply candidate_rows_destination in Hin as Hrow. destruct Hrow as [Hrdf Hrd].
  destruct (Hrows r Hrdf) as (d1 & _ & _ & Hkind & Hr3 & Hr5 & _).
  simpl. split; [by rewrite Hrd|]. split.
  { apply elem_of_zip_l in Hkind. exact Hkind. }
  split; [exact Hr3|]. split; [exact Hr5|]. split; [reflexivity|].
  intros ty Hty Hoffered.
  assert (Hany : ty ≠ "Any").
  { intros ->. repeat (apply elem_of_cons in Hoffered as [?|Hoffered]);
      try discriminate. by apply not_elem_of_nil in Hoffered. }
  assert (Hty' : ty ∈ accommodation_types).
  { repeat (apply elem_of_cons in Hoffered as [->|Hoffered]);
      try (by apply not_elem_of_nil in Hoffered); table_entry. }
  destruct (Htypes d ty Hd Hty') as (r' & Hr' & (Hrd' & _) & Ht').
  unfold candidate_rows in Hin. rewrite Hty in Hin. simpl in Hin.
  pose proof (rows_of_type_present _ _ _ _ Hr' Hrd' Ht') as Hpresent.
  destruct (rows_of_type (w_catalog w) (dest_id d) ty) as [|r0 rs] eqn:E;
    [by apply not_elem_of_nil in Hpresent|].
  simpl in Hin. rewrite <- E in Hin.
  by apply rows_of_type_destination in Hin as (_ & _ & ->).
Qed.

Lemma created_accommodations_honour_the_preference_witness :
  ∃ l dict w',
    recommend_accommodation
      (preferences "Paris, France" 3 2000 "Plane" "Resort" ["Sightseeing"])
      1 (create_frames fixture_world).2 = (Ok l, w')
    ∧ w_heap w' !! l = Some dict
    ∧ d_type dict = "Resort".
Proof.
  destruct (created_accommodations_honour_the_preference
              (preferences "Paris, France" 3 2000 "Plane" "Resort"
                 ["Sightseeing"])
              fixture_world (create_frames fixture_world).2 paris)
    as (l & dict & w' & Hrun & Hl & _ & _ & _ & _ & _ & Hty).
  - vm_compute. reflexivity.
  - vm_compute. apply list_elem_of_here.
  - simpl. discriminate.
  - exists l, dict, w'. split; [exact Hrun|]. split; [exact Hl|].
    apply Hty; [reflexivity|table_entry].
Defined.

(** * The lookups by name *)

Lemma filter_head {A} (f : A → bool) (l : list A) (x : A) (xs : list A) :
  List.filter f l = x :: xs →
  ∃ i, l !! i = Some x ∧ f x = true
       ∧ ∀ j y, (j < i)%nat → l !! j = Some y → f y = false.
Proof.
  induction l as [|y l IH]; [discriminate|]. simpl.
  destruct (f y) eqn:Hy.
  - intros [= -> _]. exists 0%nat. split; [reflexivity|].
    split; [exact Hy|]. intros j z Hj. lia.
  - intros H. destruct (IH H) as (i & Hi & Hx & Hbefore).
    exists (S i). split; [exact Hi|]. split; [exact Hx|].
    intros [|j] z Hj Hz.
    + by injection Hz as <-.
    + apply (Hbefore j); [lia|exact Hz].
Qed.

(** X23. Every name [get_destination_list] offers is resolved by
    [get_destination_by_name], to the first row of the frame with that
    name; every other name raises [IndexError].  Neither call changes the
    world. *)
Theorem listed_destinations_resolve (w : World) :
  ∃ names,
    get_destination_list w = (Ok names, w)
    ∧ length names = length (destinations_df (w_catalog w))
    ∧ ∀ name,
        (name ∈ names →
         ∃ d i,
           get_destination_by_name name w = (Ok d, w)
           ∧ dest_name d = name
           ∧ destinations_df (w_catalog w) !! i = Some d
           ∧ ∀ j d', (j < i)%nat →
                     destinations_df (w_catalog w) !! j = Some d' →
                     dest_name d' ≠ name)
        ∧ (name ∉ names →
           get_destination_by_name name w = (Raise IndexError, w)).
Proof.
  exists (dest_name <$> destinations_df (w_catalog w)).
  split; [reflexivity|]. split; [apply length_fmap|].
  intros name. split.
  - intros (d0 & Hname & Hd0)%list_elem_of_fmap.
    unfold get_destination_by_name. rewrite run_bind. unfold gets.
    cbv beta iota.
    destruct (List.filter (λ d, (dest_name d =? name)%string)
                (destinations_df (w_catalog w))) as [|d ds] eqn:Hfilter.
    + exfalso. pose proof (filter_nil_inv _ _ Hfilter d0 Hd0) as H.
      apply String.eqb_neq in H. by rewrite Hname in H.
    + destruct (filter_head _ _ _ _ Hfilter) as (i & Hi & Hd & Hbefore).
      exists d, i. split; [reflexivity|].
      split; [by apply String.eqb_eq|]. split; [exact Hi|].
      intros j d' Hj Hd'. apply String.eqb_neq. by eapply Hbefore.
  - intros Habsent. apply get_destination_by_name_absent.
    intros d Hd Hname. apply Habsent. rewrite <- Hname.
    by apply list_elem_of_fmap_2.
Qed.

(** * The handler of the application *)

(** X24. With the frames the data manager creates, a destination picked
    from [get_destination_list] and a transportation option of the form,
    the handler of the button either stores an itinerary (with one plan for
    each day, for the picked destination) and clears the error message, or
    stores an error message and no itinerary.  The message is one of the
    two validation messages, in which case nothing was computed, or that of
    an [UnboundLocalError], for a trip of three days or more: the division
    by a zero duration and the failing lookups are out of reach. *)
Theorem handler_outcomes (str : exn → string)
    (trip_duration : Z) (origin destination : string)
    (start_date end_date : Date) (budget : Q)
    (transportation accommodation : string) (activities : list string)
    (special_requests : string) (session_state : SessionState)
    (w0 w : World) (names : list string) :
  create_frames w0 = (Ok (), w) →
  get_destination_list w = (Ok names, w) →
  destination ∈ names →
  transportation ∈ ["Plane"; "Train"; "Bus"; "Car"; "Any"] →
  let run :=
    on_generate str trip_duration origin destination start_date end_date
      budget transportation accommodation activities special_requests
      session_state w in
  preserves w run.2
  ∧ match ss_error_message run.1 with
    | None =>
        (1 <= trip_duration)%Z ∧ activities ≠ []
        ∧ ∃ it user_preferences,
            ss_generated_itinerary run.1 = Some it
            ∧ ss_user_preferences run.1 = Some user_preferences
            ∧ generate_itinerary user_preferences w = (Ok it, run.2)
            ∧ up_duration user_preferences = trip_duration
            ∧ length (it_daily_plan it) = Z.to_nat trip_duration
            ∧ dest_name (it_destination it) = destination
    | Some message =>
        ss_generated_itinerary run.1 = None
        ∧ ss_user_preferences run.1 = ss_user_preferences session_state
        ∧ ((message = "Please select valid travel dates."
            ∧ (trip_duration < 1)%Z ∧ run.2 = w)
           ∨ (message = "Please select at least one activity interest."
              ∧ activities = [] ∧ run.2 = w)
           ∨ (message
              = "Error generating itinerary: " +:+ str UnboundLocalError
              ∧ (3 <= trip_duration)%Z ∧ activities ≠ []))
    end.
Proof.
  intros Hframes Hnames Hdestination Hoffered run. subst run.
  destruct (create_frames_run w0) as (w' & Hrun & _ & _ & Htable & _).
  rewrite Hframes in Hrun. injection Hrun as <-.
  injection Hnames as <-.
  apply list_elem_of_fmap in Hdestination as (d & Hname & Hd).
  unfold on_generate.
  destruct (trip_duration <? 1)%Z eqn:Hduration.
  { apply Z.ltb_lt in Hduration. simpl.
    split; [by apply same_store_preserves, same_store_refl|].
    split; [reflexivity|]. split; [reflexivity|]. by left. }
  apply Z.ltb_ge in Hduration.
  destruct (is_empty activities) eqn:Hactivities.
  { apply is_empty_true in Hactivities. simpl.
    split; [by apply same_store_preserves, same_store_refl|].
    split; [reflexivity|]. split; [reflexivity|]. right. by left. }
  apply is_empty_false in Hactivities.
  set (user_preferences :=
         {| up_origin := origin; up_destination := destination;
            up_start_date := start_date; up_end_date := end_date;
            up_duration := trip_duration; up_budget := budget;
            up_transportation := Some transportation;
            up_accommodation := Some accommodation;
            up_activities := activities;
            up_special_requests := special_requests |}).
  cbv zeta.
  destruct (generate_itinerary_outcome user_preferences w) as [Hpres Hout].
  destruct (generate_itinerary user_preferences w) as [[it|e] w'] eqn:Hrun;
    simpl in Hpres, Hout |- *.
  - split; [exact Hpres|]. split; [exact Hduration|].
    split; [exact Hactivities|]. exists it, user_preferences.
    split; [reflexivity|]. split; [reflexivity|]. split; [exact Hrun|].
    split; [reflexivity|].
    split; [exact (returned_daily_plans_length _ _ _ _ Hrun)|].
    destruct Hout as (d1 & _ & _ & _ & _ & _ & _ & Hd1 & _ & _ & _ & _ & Hit
                      & _).
    by rewrite Hit.
  - split; [exact Hpres|]. split; [reflexivity|]. split; [reflexivity|].
    right. right.
    destruct Hout as [[_ [Habsent|(mode & Hmode & Habsent)]]
                     |[[_ [Hzero|(t & Ht & Hzero)]]|[-> Hlong]]].
    + by destruct (Habsent d Hd).
    + exfalso. rewrite Htable in Habsent.
      destruct (offered_modes_present user_preferences mode Hoffered Hmode)
        as (t & Ht & Hmt).
      by apply (Habsent t Ht).
    + simpl in Hzero. lia.
    + exfalso. rewrite Htable in Ht. by apply (created_speeds_nonzero t Ht).
    + by repeat split.
Qed.

Lemma handler_outcomes_witness :
  ss_error_message
    (on_generate (λ _, "local variable referenced before assignment") 3
       "New York" "Paris, France"
       {| year := 2026; month := 11; day := 10 |}
       {| year := 2026; month := 11; day := 13 |}
       2000 "Plane" "Hotel" ["Cultural & Historical"] ""
       {| ss_generated_itinerary := None; ss_error_message := None;
          ss_user_preferences := None |}
       (create_frames fixture_world).2).1
  = Some ("Error generating itinerary: "
          +:+ "local variable referenced before assignment").
Proof.
  pose proof (handler_outcomes
                (λ _, "local variable referenced before assignment") 3
                "New York" "Paris, France"
                {| year := 2026; month := 11; day := 10 |}
                {| year := 2026; month := 11; day := 13 |}
                2000 "Plane" "Hotel" ["Cultural & Historical"] ""
                {| ss_generated_itinerary := None; ss_error_message := None;
                   ss_user_preferences := None |}
                fixture_world (create_frames fixture_world).2
                (dest_name <$> destinations_df fixture_catalog)) as H.
  destruct H as [_ H].
  - vm_compute. reflexivity.
  - vm_compute. reflexivity.
  - vm_compute. apply list_elem_of_here.
  - apply list_elem_of_here.
  - destruct (ss_error_message _) as [message|] eqn:E;
      [|vm_compute in E; discriminate E].
    destruct H as (_ & _ & [(_ & Hshort & _)|[(_ & Hnone & _)|(-> & _)]]).
    + lia.
    + discriminate Hnone.
    + reflexivity.
Defined.

(** * The feature vector of a user *)

Lemma dict_get_set {V} (k k' : string) (v : V) (d : list (string * V)) :
  dict_get k (dict_set k' v d)
  = if (k' =? k)%string then Some v else dict_get k d.
Proof.
  induction d as [|[k0 v0] d IH]; [reflexivity|]. simpl.
  destruct (String.eqb_spec k0 k') as [->|Hk0].
  - simpl. by destruct (k' =? k)%string.
  - simpl. rewrite IH.
    destruct (String.eqb_spec k0 k) as [->|?]; [|reflexivity].
    destruct (String.eqb_spec k' k) as [->|?]; done.
Qed.

Lemma dict_set_keys {V} (k : string) (v : V) (d : list (string * V)) :
  k ∈ d.*1 → (dict_set k v d).*1 = d.*1.
Proof.
  induction d as [|[k0 v0] d IH]; [by intros ?%not_elem_of_nil|].
  simpl. destruct (String.eqb_spec k0 k) as [->|Hk0]; [done|].
  intros [?|Hk]%elem_of_cons; [done|]. simpl. f_equal. by apply IH.
Qed.

Lemma dict_get_keys {V} (k : string) (d : list (string * V)) :
  k ∈ d.*1 → ∃ v, dict_get k d = Some v.
Proof.
  induction d as [|[k0 v0] d IH]; [by intros ?%not_elem_of_nil|].
  simpl. destruct (String.eqb_spec k0 k) as [->|Hk0]; [by eexists|].
  intros [?|Hk]%elem_of_cons; [done|]. by apply IH.
Qed.

Lemma feature_of_category (a feature : string) :
  dict_get a activity_to_feature = Some feature →
  (a, feature) ∈ activity_to_feature.
Proof.
  unfold activity_to_feature. cbn [dict_get].
  repeat match goal with
         | |- context [(?c =? a)%string] =>
             destruct (String.eqb_spec c a) as [<-|?];
             [intros [= <-]; table_entry|]
         end.
  discriminate.
Qed.

Lemma category_of_feature (i : nat) (category feature a : string) :
  activity_to_feature !! i = Some (category, feature) →
  dict_get a activity_to_feature = Some feature ↔ a = category.
Proof.
  intros Hi. apply list_elem_of_lookup_2 in Hi.
  unfold activity_to_feature in Hi.
  repeat (apply elem_of_cons in Hi as [Hi|Hi]);
    try (by apply not_elem_of_nil in Hi);
    injection Hi as -> ->;
    (split;
     [intros Ha%feature_of_category;
      repeat (apply elem_of_cons in Ha as [Ha|Ha]);
      try (by apply not_elem_of_nil in Ha); by injection Ha
     |intros ->; reflexivity]).
Qed.

Lemma for_fold_cons {A S} (f : S → A → M S) (x : A) (xs : list A) (s : S) :
  for_fold f (x :: xs) s = (s' ← f s x; for_fold f xs s').
Proof. reflexivity. Qed.

(** The first loop: the features of the interests are set to 1, the keys of
    the dictionary stay. *)
Lemma mark_features_run (activities : list string)
    (features : list (string * Q)) (w : World) :
  (∀ a feature, (a, feature) ∈ activity_to_feature → feature ∈ features.*1) →
  ∃ features',
    for_fold
      (λ features activity,
         match dict_get activity activity_to_feature with
         | Some feature => mret (dict_set feature 1%Q features)
         | None => mret features
         end)
      activities features w = (Ok features', w)
    ∧ features'.*1 = features.*1
    ∧ ∀ feature,
        ((∃ a, a ∈ activities
               ∧ dict_get a activity_to_feature = Some feature) →
         dict_get feature features' = Some 1%Q)
        ∧ ((∀ a, a ∈ activities →
                 dict_get a activity_to_feature ≠ Some feature) →
           dict_get feature features' = dict_get feature features).
Proof.
  revert features.
  induction activities as [|a activities IH]; intros features Hkeys.
  - exists features. split; [reflexivity|]. split; [reflexivity|].
    intros feature. split; [|done].
    by intros (a & ?%not_elem_of_nil & _).
  - rewrite for_fold_cons, run_bind. cbv beta.
    set (features1 :=
           match dict_get a activity_to_feature with
           | Some feature => dict_set feature 1%Q features
           | None => features
           end).
    assert (Hstep :
              (match dict_get a activity_to_feature with
               | Some feature => mret (dict_set feature 1%Q features)
               | None => mret features
               end : M (list (string * Q))) w = (Ok features1, w)).
    { unfold features1. by destruct (dict_get a activity_to_feature). }
    rewrite Hstep.
    assert (Hkeys1 : features1.*1 = features.*1).
    { unfold features1.
      destruct (dict_get a activity_to_feature) as [feature|] eqn:Ha;
        [|reflexivity].
      apply dict_set_keys. eapply Hkeys. by apply feature_of_category. }
    destruct (IH features1) as (features' & Hrun & Hkeys' & Hget).
    { intros a' feature Ha'. rewrite Hkeys1. by eapply Hkeys. }
    exists features'. split; [exact Hrun|]. split; [congruence|].
    intros feature. destruct (Hget feature) as [Hset Hkept]. split.
    + intros (a' & [->|Ha']%elem_of_cons & Hfeature).
      * destruct (decide (Exists
                            (λ a'', dict_get a'' activity_to_feature
                                    = Some feature) activities))
          as [Hlater|Hnot].
        { apply Hset. apply Exists_exists in Hlater as (a'' & ? & ?).
          by exists a''. }
        rewrite Hkept.
        -- unfold features1. rewrite Hfeature, dict_get_set.
           by rewrite String.eqb_refl.
        -- intros a'' Ha'' Hf. apply Hnot, Exists_exists. by exists a''.
      * apply Hset. by exists a'.
    + intros Hnone. rewrite Hkept.
      * unfold features1.
        destruct (dict_get a activity_to_feature) as [feature'|] eqn:Ha;
          [|reflexivity].
        rewrite dict_get_set.
        destruct (String.eqb_spec feature' feature) as [->|?]; [|done].
        by destruct (Hnone a (list_elem_of_here _ _)).
      * intros a' Ha'. apply Hnone. by apply list_elem_of_further.
Qed.

(** The second loop: every positive value of the dictionary is scaled. *)
Lemma scale_features_run (factor : Q) (keys : list string)
    (features : list (string * Q)) (w : World) :
  NoDup keys → (∀ k, k ∈ keys → k ∈ features.*1) →
  ∃ features',
    for_fold
      (λ features key,
         value ← dict_at key features;
         if py_lt 0 value then
           value ← dict_at key features;
           mret (dict_set key (0.5 + value * factor * 0.5)%Q features)
         else mret features)
      keys features w = (Ok features', w)
    ∧ features'.*1 = features.*1
    ∧ ∀ k,
        (k ∈ keys →
         dict_get k features'
         = (λ value, if py_lt 0 value
                     then (0.5 + value * factor * 0.5)%Q else value)
             <$> dict_get k features)
        ∧ (k ∉ keys → dict_get k features' = dict_get k features).
Proof.
  revert features.
  induction keys as [|k0 keys IH]; intros features Hnodup Hkeys.
  - exists features. split; [reflexivity|]. split; [reflexivity|].
    intros k. split; [by intros ?%not_elem_of_nil|done].
  - apply NoDup_cons in Hnodup as [Hk0 Hnodup].
    rewrite for_fold_cons, run_bind. cbv beta.
    destruct (dict_get_keys k0 features) as (v & Hv);
      [apply Hkeys, list_elem_of_here|].
    rewrite run_bind. unfold dict_at at 1. rewrite Hv.
    change ((mret v : M Q) w) with (Ok v, w). cbv beta iota.
    set (features1 :=
           if py_lt 0 v
           then dict_set k0 (0.5 + v * factor * 0.5)%Q features
           else features).
    assert (Hstep :
              (if py_lt 0 v
               then value ← dict_at k0 features;
                    mret (dict_set k0 (0.5 + value * factor * 0.5)%Q features)
               else mret features : M (list (string * Q))) w
              = (Ok features1, w)).
    { unfold features1. destruct (py_lt 0 v); [|reflexivity].
      rewrite run_bind. unfold dict_at. by rewrite Hv. }
    rewrite Hstep.
    assert (Hkeys1 : features1.*1 = features.*1).
    { unfold features1. destruct (py_lt 0 v); [|reflexivity].
      apply dict_set_keys, Hkeys, list_elem_of_here. }
    assert (Hget1 : ∀ k,
              dict_get k features1
              = if (k0 =? k)%string
                then Some (if py_lt 0 v
                           then (0.5 + v * factor * 0.5)%Q else v)
                else dict_get k features).
    { intros k. unfold features1. destruct (py_lt 0 v).
      - apply dict_get_set.
      - destruct (String.eqb_spec k0 k) as [<-|?]; [exact Hv|reflexivity]. }
    destruct (IH features1 Hnodup) as (features' & Hrun & Hkeys' & Hget).
    { intros k Hk. rewrite Hkeys1. by apply Hkeys, list_elem_of_further. }
    exists features'. split; [exact Hrun|]. split; [congruence|].
    intros k. destruct (Hget k) as [Hin Hout]. split.
    + intros [->|Hk]%elem_of_cons.
      * rewrite (proj2 (Hget k0) Hk0), Hget1, String.eqb_refl, Hv.
        reflexivity.
      * rewrite (Hin Hk), Hget1.
        destruct (String.eqb_spec k0 k) as [<-|?]; [done|reflexivity].
    + intros Hk. apply not_elem_of_cons in Hk as [Hne Hk].
      rewrite (Hout Hk), Hget1.
      destruct (String.eqb_spec k0 k) as [<-|?]; [done|reflexivity].
Qed.

Lemma selected_weight_range (n : nat) :
  n ≠ 0%nat → (0.5 < selected_weight n)%Q ∧ (selected_weight n <= 1)%Q.
Proof.
  intros Hn. unfold selected_weight.
  assert (H1 : (1 <= inject_Z (Z.of_nat n))%Q).
  { change 1%Q with (inject_Z 1). rewrite <- Zle_Qle. lia. }
  assert (Hpos : (0 < 1 / inject_Z (Z.of_nat n))%Q).
  { apply Qlt_shift_div_l; lra. }
  assert (Hle : (1 / inject_Z (Z.of_nat n) <= 1)%Q).
  { apply Qle_shift_div_r; lra. }
  split; lra.
Qed.

Lemma feature_keys (a feature : string) :
  (a, feature) ∈ activity_to_feature →
  feature ∈ ["cultural"; "outdoor"; "culinary"; "relaxation"; "shopping";
             "entertainment"; "sightseeing"].
Proof.
  unfold activity_to_feature. intros H.
  repeat (apply elem_of_cons in H as [H|H]);
    try (by apply not_elem_of_nil in H);
    injection H as -> ->; table_entry.
Qed.

(** X25. [create_user_feature_vector] leaves the world as it is.  It raises
    only for the duration 0, with [ZeroDivisionError].  Otherwise it returns
    eight numbers: the component of a category is
    [0.5 + 0.5 / len(activities)] (a number above 0.5 and at most 1) when
    the category is among the interests and 0 when it is not, so that names
    that are no category and repeated names lower the weight of every
    selected feature; the last component is a cost level from 1 to 5,
    divided by 5. *)
Theorem feature_vector_marks_the_interests
    (user_preferences : UserPreferences) (w : World) :
  let activities := up_activities user_preferences in
  let run := create_user_feature_vector user_preferences w in
  run.2 = w
  ∧ match run.1 with
    | Ok vector =>
        up_duration user_preferences ≠ 0%Z
        ∧ length vector = 8%nat
        ∧ (∀ i category feature,
             activity_to_feature !! i = Some (category, feature) →
             vector !! i
             = Some (if py_in category activities
                     then selected_weight (length activities) else 0%Q))
        ∧ (activities ≠ [] →
           (0.5 < selected_weight (length activities))%Q
           ∧ (selected_weight (length activities) <= 1)%Q)
        ∧ ∃ cost_level,
            cost_level ∈ [1; 2; 3; 4; 5]%Q
            ∧ vector !! 7%nat = Some (cost_level / 5)%Q
    | Raise e => e = ZeroDivisionError ∧ up_duration user_preferences = 0%Z
    end.
Proof.
  intros activities run. subst run.
  destruct (create_user_feature_vector user_preferences w)
    as [result w'] eqn:Hrun.
  unfold create_user_feature_vector in Hrun.
  cbv zeta in Hrun. fold activities in Hrun.
  set (features0 :=
         [("cultural", 0%Q); ("outdoor", 0%Q); ("culinary", 0%Q);
          ("relaxation", 0%Q); ("shopping", 0%Q); ("entertainment", 0%Q);
          ("sightseeing", 0%Q)]) in Hrun.
  destruct (mark_features_run activities features0 w)
    as (features1 & Hrun1 & Hkeys1 & Hget1).
  { intros a feature H. by apply feature_keys in H. }
  rewrite run_bind, Hrun1 in Hrun.
  (* the value of a feature after the first loop *)
  assert (Hmarked : ∀ i category feature,
            activity_to_feature !! i = Some (category, feature) →
            dict_get feature features1
            = Some (if py_in category activities then 1%Q else 0%Q)).
  { intros i category feature Hi.
    destruct (py_in category activities) eqn:Hin.
    - apply py_in_true in Hin. apply Hget1. exists category.
      split; [exact Hin|].
      by apply (proj2 (category_of_feature i category feature category Hi)).
    - apply py_in_false in Hin. rewrite (proj2 (Hget1 feature)).
      + apply list_elem_of_lookup_2 in Hi. unfold activity_to_feature in Hi.
        repeat (apply elem_of_cons in Hi as [Hi|Hi]);
          try (by apply not_elem_of_nil in Hi);
          by injection Hi as -> ->.
      + intros a Ha Hfeature. apply Hin.
        apply (proj1 (category_of_feature i category feature a Hi))
          in Hfeature.
        by rewrite <- Hfeature. }
  (* the second loop *)
  assert (Hscaled : ∃ features2,
            (if negb (is_empty activities) then
               factor ←
                 lift (py_truediv 1
                         (inject_Z (Z.of_nat (length activities))));
               for_fold
                 (λ features key,
                    value ← dict_at key features;
                    if py_lt 0 value then
                      value ← dict_at key features;
                      mret (dict_set key (0.5 + value * factor * 0.5)%Q
                              features)
                    else mret features)
                 (features1.*1) features1
             else mret features1 : M (list (string * Q))) w
            = (Ok features2, w)
            ∧ ∀ i category feature,
                activity_to_feature !! i = Some (category, feature) →
                dict_get feature features2
                = Some (if py_in category activities
                        then selected_weight (length activities) else 0%Q)).
  { destruct (is_empty activities) eqn:Hempty.
    - apply is_empty_true in Hempty. exists features1.
      split; [reflexivity|]. intros i category feature Hi.
      rewrite (Hmarked i category feature Hi), Hempty. reflexivity.
    - apply is_empty_false in Hempty. change (negb false) with true.
      cbv iota.
      rewrite run_bind. unfold lift at 1.
      rewrite truediv_nonzero by (destruct activities; [done|simpl; lia]).
      cbv beta iota.
      destruct (scale_features_run
                  (1 / inject_Z (Z.of_nat (length activities)))
                  (features1.*1) features1 w)
        as (features2 & Hrun2 & _ & Hget2).
      { rewrite Hkeys1. apply (bool_decide_unpack _). by vm_compute. }
      { done. }
      exists features2. split; [exact Hrun2|].
      intros i category feature Hi.
      rewrite (proj1 (Hget2 feature)).
      + rewrite (Hmarked i category feature Hi).
        by destruct (py_in category activities).
      + rewrite Hkeys1. apply list_elem_of_lookup_2 in Hi.
        by apply feature_keys in Hi. }
  destruct Hscaled as (features2 & Hrun2 & Hvalue).
  rewrite run_bind, Hrun2 in Hrun. rewrite run_bind in Hrun.
  unfold lift at 1 in Hrun.
  destruct (decide (up_duration user_preferences = 0%Z)) as [Hzero|Hnonzero].
  { rewrite Hzero in Hrun. simpl in Hrun. injection Hrun as <- <-.
    by repeat split. }
  rewrite truediv_nonzero in Hrun by exact Hnonzero. cbv beta iota in Hrun.
  set (cost_level :=
         (if py_lt (up_budget user_preferences
                    / inject_Z (up_duration user_preferences)) 50 then 1
          else if py_lt (up_budget user_preferences
                         / inject_Z (up_duration user_preferences)) 100
          then 2
          else if py_lt (up_budget user_preferences
                         / inject_Z (up_duration user_preferences)) 200
          then 3
          else if py_lt (up_budget user_preferences
                         / inject_Z (up_duration user_preferences)) 350
          then 4 else 5)%Q) in Hrun.
  assert (Hat : ∀ i category feature,
            activity_to_feature !! i = Some (category, feature) →
            dict_at feature features2 w
            = (Ok (if py_in category activities
                   then selected_weight (length activities) else 0%Q), w)).
  { intros i category feature Hi. unfold dict_at.
    by rewrite (Hvalue i category feature Hi). }
  rewrite run_bind, (Hat 0%nat _ _ eq_refl) in Hrun. cbv beta iota in Hrun.
  rewrite run_bind, (Hat 1%nat _ _ eq_refl) in Hrun. cbv beta iota in Hrun.
  rewrite run_bind, (Hat 2%nat _ _ eq_refl) in Hrun. cbv beta iota in Hrun.
  rewrite run_bind, (Hat 3%nat _ _ eq_refl) in Hrun. cbv beta iota in Hrun.
  rewrite run_bind, (Hat 4%nat _ _ eq_refl) in Hrun. cbv beta iota in Hrun.
  rewrite run_bind, (Hat 5%nat _ _ eq_refl) in Hrun. cbv beta iota in Hrun.
  rewrite run_bind, (Hat 6%nat _ _ eq_refl) in Hrun. cbv beta iota in Hrun.
  injection Hrun as <- <-.
  simpl. split; [reflexivity|]. split; [exact Hnonzero|].
  split; [reflexivity|]. split; [|split].
  - intros i category feature Hi.
    do 7 (destruct i as [|i]; [cbn in Hi; by injection Hi as <- <-|]).
    done.
  - intros Hne. apply selected_weight_range. by destruct activities.
  - exists cost_level. split; [|reflexivity].
    unfold cost_level. repeat case_match; table_entry.
Qed.

(** * [utils.py] *)

Lemma str_length_app (s1 s2 : string) :
  String.length (s1 +:+ s2) = (String.length s1 + String.length s2)%nat.
Proof. induction s1 as [|c s1 IH]; simpl; [reflexivity|by rewrite IH]. Qed.

Lemma str_take_length (n : nat) (text : string) :
  String.length (str_take n text) = (n `min` String.length text)%nat.
Proof.
  revert text. induction n as [|n IH]; intros [|c text]; simpl; try done.
  by rewrite IH.
Qed.

Lemma str_take_app (n : nat) (s1 s2 : string) :
  String.length s1 = n → str_take n (s1 +:+ s2) = s1.
Proof.
  revert s1. induction n as [|n IH]; intros [|c s1]; simpl; try done;
    try (by destruct s2).
  intros [= H]. by rewrite IH.
Qed.

Lemma str_take_prefix (n : nat) (text : string) :
  ∃ rest, text = str_take n text +:+ rest.
Proof.
  revert text. induction n as [|n IH]; intros [|c text]; simpl;
    try (by eexists).
  destruct (IH text) as [rest Hrest]. exists rest.
  change (String c text = String c (str_take n text +:+ rest)).
  by f_equal.
Qed.

(** X26. For a bound [max_length >= 0], [truncate_text] returns a text of
    [max_length] characters or fewer as it is; a longer text is cut to its
    first [max_length] characters, followed by three dots: the result is
    then [max_length + 3] characters long, so longer than the bound (and
    longer than the text itself when the text had only one or two
    characters too many).  Truncating the result again with the same bound
    changes nothing. *)
Theorem truncate_text_length (text : string) (max_length : Z) :
  (0 <= max_length)%Z →
  let result := truncate_text text (Some max_length) in
  ((Z.of_nat (String.length text) <= max_length)%Z → result = text)
  ∧ ((max_length < Z.of_nat (String.length text))%Z →
     (∃ rest, text = str_take (Z.to_nat max_length) text +:+ rest)
     ∧ result = str_take (Z.to_nat max_length) text +:+ "..."
     ∧ Z.of_nat (String.length result) = (max_length + 3)%Z)
  ∧ (Z.of_nat (String.length result) <= max_length + 3)%Z
  ∧ truncate_text result (Some max_length) = result.
Proof.
  intros Hbound result. subst result. unfold truncate_text. simpl default.
  destruct (Z.leb_spec (Z.of_nat (String.length text)) max_length)
    as [Hshort|Hlong].
  - split; [done|]. split; [lia|]. split; [lia|].
    by destruct (Z.leb_spec (Z.of_nat (String.length text)) max_length);
      [|lia].
  - unfold py_slice_to.
    destruct (Z.leb_spec 0 max_length) as [_|?]; [|lia].
    assert (Hlength :
              String.length (str_take (Z.to_nat max_length) text)
              = Z.to_nat max_length).
    { rewrite str_take_length. lia. }
    assert (Hresult :
              Z.of_nat (String.length
                          (str_take (Z.to_nat max_length) text +:+ "..."))
              = (max_length + 3)%Z).
    { rewrite str_length_app, Hlength. simpl. lia. }
    split; [lia|]. split.
    { intros _. split; [apply str_take_prefix|]. by split. }
    split; [lia|].
    destruct (Z.leb_spec
                (Z.of_nat (String.length
                             (str_take (Z.to_nat max_length) text +:+ "...")))
                max_length) as [?|_]; [lia|].
    by rewrite str_take_app.
Qed.

Lemma truncate_text_length_witness :
  truncate_text "Visit the iconic symbol of Paris" (Some 9%Z)
  = "Visit the...".
Proof.
  destruct (truncate_text_length "Visit the iconic symbol of Paris" 9)
    as (_ & Hlong & _); [lia|].
  destruct Hlong as (_ & -> & _); [simpl; lia|reflexivity].
Defined.

(** X27. [calculate_date_range] returns the days from the start date to the
    end date, both included, in increasing order and each once; the list is
    empty when the end date is before the start date. *)
Theorem date_range_covers (start_date end_date : Z) :
  let dates := calculate_date_range start_date end_date in
  length dates = Z.to_nat (end_date - start_date + 1)
  ∧ (∀ i date, dates !! i = Some date ↔
               date = (start_date + Z.of_nat i)%Z ∧ (date <= end_date)%Z)
  ∧ (∀ date, date ∈ dates ↔ (start_date <= date <= end_date)%Z)
  ∧ ((end_date < start_date)%Z → dates = []).
Proof.
  intros dates. subst dates. unfold calculate_date_range, py_range.
  cbv zeta. replace (end_date - start_date + 1 - 0)%Z
    with (end_date - start_date + 1)%Z by lia.
  split; [by rewrite length_fmap, length_seqZ|]. split; [|split].
  - intros i date. rewrite list_lookup_fmap. split.
    + destruct (seqZ 0 (end_date - start_date + 1) !! i) as [k|] eqn:Hk;
        [|discriminate].
      apply lookup_seqZ in Hk as [-> Hi]. intros [= <-]. lia.
    + intros [-> Hle]. rewrite lookup_seqZ_lt by lia. simpl. f_equal.
  - intros date. rewrite list_elem_of_fmap. split.
    + intros (k & -> & Hk%elem_of_seqZ). lia.
    + intros Hdate. exists (date - start_date)%Z.
      split; [lia|]. apply elem_of_seqZ. lia.
  - intros Hbefore.
    apply length_zero_iff_nil. rewrite length_fmap, length_seqZ. lia.
Qed.
